(** * SystemClock: the background analysis clock of the Forest server

    A shallow embedding of [forest-server/system-clock.js].

    Conventions of the embedding:
    - an instant is a [Z], the number of milliseconds since the epoch, the
      value of [Date.now()] and of [new Date().getTime()].  The registry
      stores ISO strings made by [toISOString] and reads them back with
      [new Date(string)]; that round trip is the identity on instants, so
      the registry is modelled as holding the instant itself;
    - an [async] body runs to completion once it is invoked: every [await]
      is answered at once by the collaborator answers of the invocation
      ([Answers]); a rejected promise is the outcome [Threw];
    - everything a method does to the outside (logger, event bus,
      collaborators, timers of the host) is appended to a chronological
      trace of [Effect]s;
    - numbers read from JSON (difficulties, cadences, counts) are integers,
      and the mean difficulty is an exact rational: the rounding of
      JavaScript's doubles is not modelled;
    - [process.stdin.isTTY] is a property of the process, fixed for its
      lifetime;
    - a timer of the host runs with the delay Node gives it: the delay
      asked for when it lies between 1 ms and 2147483647 ms, and 1 ms
      otherwise;
    - log messages are the source's messages without their leading emoji. *)

From Stdlib Require Import ZArith QArith Lia Sorted.
From stdpp Require Import base gmap strings list pretty.

Local Open Scope string_scope.
Local Open Scope list_scope.
Local Open Scope Z_scope.

(** ** A state monad with exceptions

    [ST S A] is a computation over a mutable object of type [S] that either
    returns or throws; what it did to the object before throwing stays
    done, as in JavaScript. *)

Definition JsError := string.

Inductive Outcome (A : Type) : Type :=
| Returned (a : A)
| Threw (e : JsError).
Arguments Returned {A} a.
Arguments Threw {A} e.

Definition ST (S A : Type) : Type := S → Outcome A * S.

#[global] Instance ST_ret {S} : MRet (ST S) := λ A a s, (Returned a, s).
#[global] Instance ST_bind {S} : MBind (ST S) := λ A B f m s,
  match m s with
  | (Returned a, s') => f a s'
  | (Threw e, s') => (Threw e, s')
  end.

Definition get {S} : ST S S := λ s, (Returned s, s).
Definition modify {S} (f : S → S) : ST S unit := λ s, (Returned tt, f s).
Definition throw {S A} (e : JsError) : ST S A := λ s, (Threw e, s).

(** [try { body } catch (error) { handler error }] *)
Definition try_catch {S A} (body : ST S A) (handler : JsError → ST S A) : ST S A :=
  λ s, match body s with
       | (Returned a, s') => (Returned a, s')
       | (Threw e, s') => handler e s'
       end.

(** A collaborator's answer to one call: a value, or a thrown error. *)
Definition answer {S A} (r : Outcome A) : ST S A := λ s, (r, s).

Definition returned {A} (o : Outcome A) : bool :=
  match o with Returned _ => true | Threw _ => false end.

(** ** Data model *)

(** The five jobs.  The source names them by the string keys of its
    [intervals] and [lastAnalysis] maps. *)
Inductive JobKind : Type :=
| strategic_analysis
| risk_detection
| opportunity_scanning
| identity_reflection
| data_archiving.

#[global] Instance JobKind_eq_dec : EqDecision JobKind.
Proof. solve_decision. Defined.

Definition job_key (k : JobKind) : string :=
  match k with
  | strategic_analysis => "strategic_analysis"
  | risk_detection => "risk_detection"
  | opportunity_scanning => "opportunity_scanning"
  | identity_reflection => "identity_reflection"
  | data_archiving => "data_archiving"
  end.

(** The auxiliary registry key written by the no-archiving-needed branch. *)
Definition data_archiving_check : string := "data_archiving_check".

Definition all_jobs : list JobKind :=
  [strategic_analysis; risk_detection; opportunity_scanning;
   identity_reflection; data_archiving].

(** A JSON document (config.json, hta.json, a daily schedule, the result of
    the archiver) other than [null]: a boolean, a number, a string, or an
    object or array, which is kept as its text. *)
Inductive Blob : Type :=
| JsonBool (b : bool)
| JsonNumber (n : Z)
| JsonString (s : string)
| JsonObject (text : string).

(** [if (document)]: [false], [0] and the empty string are falsy, every
    object and array is truthy. *)
Definition truthy (document : Blob) : bool :=
  match document with
  | JsonBool b => b
  | JsonNumber n => negb (n =? 0)
  | JsonString s => negb (bool_decide (s = ""))
  | JsonObject _ => true
  end.

(** One entry of [learningHistory.completedTopics].  A field is [None] when
    the property is absent ([undefined]). *)
Record Topic : Type := {
  difficulty : option Z;
  breakthrough : bool;
  branch : option string;
  completedAt : option Z;
}.

(** [completedTopics] may hold [null] entries: reading a property of one
    throws a TypeError. *)
Record LearningHistory : Type := {
  completedTopics : option (list (option Topic));
}.

Record Metrics : Type := {
  totalCompletedTasks : nat;
  averageDifficulty : Q;
  breakthroughCount : nat;
  branchDiversity : nat;
  momentum : nat;
  lastActivityDays : Z;
  metrics_error : option JsError;
}.

Definition zero_metrics : Metrics :=
  {| totalCompletedTasks := 0; averageDifficulty := 0%Q; breakthroughCount := 0;
     branchDiversity := 0; momentum := 0; lastActivityDays := 0;
     metrics_error := None |}.

(** [systemState], the snapshot handed to a provider. *)
Record Snapshot : Type := {
  snap_projectId : string;
  snap_timestamp : Z;
  snap_lastAnalyses : gmap string Z;
  snap_config : option Blob;
  snap_htaData : option Blob;
  snap_learningHistory : option LearningHistory;
  snap_recentSchedules : list (string * Blob);
  snap_metrics : option Metrics;
  snap_error : option JsError;
}.

(** What a provider returns: [None] is [null]; [res_items] is
    the list under [insights] / [risks] / [opportunities], [res_level] the
    string under [overallRiskLevel] / [priorityLevel]. *)
Record Analysis : Type := {
  res_items : option (list string);
  res_level : option string;
}.
Definition ProviderResult := option Analysis.

(** The configuration accepted by [start]; [None] is an absent field. *)
Record Config : Type := {
  strategicAnalysisHours : option Z;
  riskDetectionHours : option Z;
  opportunityScansHours : option Z;
  identityReflectionDays : option Z;
  archivingDays : option Z;
  enableBackgroundTicks : option bool;
}.

(** [clockConfig], the configuration after the merge over the defaults. *)
Record ClockConfig : Type := {
  cc_strategicAnalysisHours : Z;
  cc_riskDetectionHours : Z;
  cc_opportunityScansHours : Z;
  cc_identityReflectionDays : Z;
  cc_archivingDays : Z;
  cc_enableBackgroundTicks : bool;
}.

Inductive Payload : Type :=
| ClockStarted (config : ClockConfig) (startedAt : Z)
| ClockStopped (stoppedAt : Z)
| StrategicInsights (projectId : string) (insights : ProviderResult)
    (systemState : Snapshot) (analysisType : string) (analyzedAt : Z)
| RisksDetected (projectId : string) (risks : list string) (riskLevel : string)
    (detectedAt : Z)
| OpportunitiesDetected (projectId : string) (opportunities : list string)
    (priorityLevel : string) (detectedAt : Z)
| IdentityInsights (projectId : string) (identityInsights : ProviderResult)
    (reflectedAt : Z)
| ArchivingCompleted (projectId : string) (results : Blob) (archivedAt : Z).

Inductive Level : Type := LvlDebug | LvlInfo | LvlWarn | LvlError.

(** Everything observable from outside the object.  [UnhandledRejection]
    is a rejected promise that nobody awaits: the promise of a body invoked
    from a timer callback. *)
Inductive Effect : Type :=
| Log (lvl : Level) (msg : string)
| Subscribe (topic : string)
| RequireActiveProject
| LoadProjectData (projectId key : string)
| PerformBackgroundAnalysis (systemState : Snapshot) (analysisType : string)
| PerformBackgroundReflection (systemState : Snapshot)
| AssessArchiveNeeds (projectId : string)
| ArchiverPerformArchiving (projectId : string)
| LogError (context : string) (e : JsError)
| Emit (topic : string) (payload : Payload)
| SetInterval (id : nat) (ms : Z) (job : JobKind)
| SetTimeout (id : nat) (ms : Z) (jobs : list JobKind)
| ClearInterval (id : nat)
| UnhandledRejection (e : JsError).

(** A timer of the host: its handle, its delay and the bodies its callback
    invokes, in order. *)
Record Timer : Type := {
  timer_id : nat;
  timer_ms : Z;
  timer_jobs : list JobKind;
}.

(** The fields of a [SystemClock] object.  [intervals] is a JavaScript
    [Map]: it keeps insertion order, which [forEach] and [keys()] follow.
    [lastArchivingAttempt] is [undefined] until first assigned. *)
Record SystemClock : Type := {
  isRunning : bool;
  intervals : list (string * nat);
  lastAnalysis : gmap string Z;
  lastArchivingAttempt : option Z;
}.

(** The process around the object: whether stdin is a terminal, and the
    timers of the event loop. *)
Record Host : Type := {
  stdin_isTTY : bool;
  next_timer : nat;
  active_intervals : list Timer;
  pending_timeouts : list Timer;
}.

Record World : Type := {
  this : SystemClock;
  host : Host;
  trace : list Effect;
}.

Definition M := ST World.

Definition with_this (f : SystemClock → SystemClock) (w : World) : World :=
  {| this := f (this w); host := host w; trace := trace w |}.
Definition with_host (f : Host → Host) (w : World) : World :=
  {| this := this w; host := f (host w); trace := trace w |}.

Definition effect (e : Effect) : M unit :=
  modify (λ w, {| this := this w; host := host w; trace := trace w ++ [e] |}).

Definition logger (lvl : Level) (msg : string) : M unit := effect (Log lvl msg).

(** ** Derived metrics ([calculateSystemMetrics]) *)

(** [t.difficulty || 3]: the left operand when it is truthy.  A number is
    falsy when it is 0, and so is [undefined]. *)
Definition difficulty_or_default (t : Topic) : Z :=
  match difficulty t with
  | Some d => if d =? 0 then 3 else d
  | None => 3
  end.

(** [t.branch || 'general']: the empty string is falsy. *)
Definition branch_or_default (t : Topic) : string :=
  match branch t with
  | Some b => if decide (b = "") then "general" else b
  | None => "general"
  end.

(** The message of the TypeError thrown by reading the property
    [property] of [null]. *)
Definition null_property_error (property : string) : JsError :=
  "Cannot read properties of null (reading '" +:+ property +:+ "')".

(** [topics.map(t => f(t))] where [f] reads the property [property] of
    [t]: a [null] entry throws. *)
Fixpoint map_topics {S A} (property : string) (f : Topic → A)
    (topics : list (option Topic)) : ST S (list A) :=
  match topics with
  | [] => mret []
  | None :: _ => throw (null_property_error property)
  | Some t :: rest => ys ← map_topics property f rest; mret (f t :: ys)
  end.

(** [new Date(t.completedAt) >= sevenDaysAgo]: an absent date is an invalid
    date, which compares false. *)
Definition completed_since (sevenDaysAgo : Z) (t : Topic) : bool :=
  match completedAt t with
  | Some c => sevenDaysAgo <=? c
  | None => false
  end.

(** The [try] block of [calculateSystemMetrics], mutating the [metrics]
    object.  [sevenDaysAgo] is [new Date()] moved back by seven calendar
    days in local time (an answer of the host), [now] the reading of the
    clock at line 551. *)
Definition metrics_body (learningHistory : option LearningHistory)
    (sevenDaysAgo now : Z) : ST Metrics unit :=
  match learningHistory ≫= completedTopics with
  | None => mret tt
  | Some topics =>
    modify (λ m, {| totalCompletedTasks := length topics;
                    averageDifficulty := averageDifficulty m;
                    breakthroughCount := breakthroughCount m;
                    branchDiversity := branchDiversity m;
                    momentum := momentum m;
                    lastActivityDays := lastActivityDays m;
                    metrics_error := metrics_error m |});;
    if bool_decide (0 < length topics)%nat then
      difficulties ← map_topics "difficulty" difficulty_or_default topics;
      modify (λ m, {| totalCompletedTasks := totalCompletedTasks m;
                      averageDifficulty :=
                        (inject_Z (fold_left Z.add difficulties 0%Z)
                         / inject_Z (Z.of_nat (length difficulties)))%Q;
                      breakthroughCount := breakthroughCount m;
                      branchDiversity := branchDiversity m;
                      momentum := momentum m;
                      lastActivityDays := lastActivityDays m;
                      metrics_error := metrics_error m |});;
      flags ← map_topics "breakthrough" breakthrough topics;
      modify (λ m, {| totalCompletedTasks := totalCompletedTasks m;
                      averageDifficulty := averageDifficulty m;
                      breakthroughCount := length (filter (λ b, b = true) flags);
                      branchDiversity := branchDiversity m;
                      momentum := momentum m;
                      lastActivityDays := lastActivityDays m;
                      metrics_error := metrics_error m |});;
      branches ← map_topics "branch" branch_or_default topics;
      modify (λ m, {| totalCompletedTasks := totalCompletedTasks m;
                      averageDifficulty := averageDifficulty m;
                      breakthroughCount := breakthroughCount m;
                      branchDiversity := size (list_to_set branches : gset string);
                      momentum := momentum m;
                      lastActivityDays := lastActivityDays m;
                      metrics_error := metrics_error m |});;
      recent ← map_topics "completedAt" (completed_since sevenDaysAgo) topics;
      modify (λ m, {| totalCompletedTasks := totalCompletedTasks m;
                      averageDifficulty := averageDifficulty m;
                      breakthroughCount := breakthroughCount m;
                      branchDiversity := branchDiversity m;
                      momentum := length (filter (λ b, b = true) recent);
                      lastActivityDays := lastActivityDays m;
                      metrics_error := metrics_error m |});;
      match last topics with
      | Some (Some lastTopic) =>
        match completedAt lastTopic with
        | Some lastActivity =>
          modify (λ m, {| totalCompletedTasks := totalCompletedTasks m;
                          averageDifficulty := averageDifficulty m;
                          breakthroughCount := breakthroughCount m;
                          branchDiversity := branchDiversity m;
                          momentum := momentum m;
                          lastActivityDays := (now - lastActivity) / (1000 * 60 * 60 * 24);
                          metrics_error := metrics_error m |})
        | None => mret tt
        end
      | _ => mret tt
      end
    else mret tt
  end.

Definition set_metrics_error (e : JsError) (m : Metrics) : Metrics :=
  {| totalCompletedTasks := totalCompletedTasks m;
     averageDifficulty := averageDifficulty m;
     breakthroughCount := breakthroughCount m;
     branchDiversity := branchDiversity m;
     momentum := momentum m;
     lastActivityDays := lastActivityDays m;
     metrics_error := Some e |}.

(** [calculateSystemMetrics(systemState)]: the metrics start at zero; an
    exception of the [try] block is logged and marked on the object.  Only
    [systemState.learningHistory] is read. *)
Definition calculateSystemMetrics (learningHistory : option LearningHistory)
    (sevenDaysAgo now : Z) : M Metrics :=
  match metrics_body learningHistory sevenDaysAgo now zero_metrics with
  | (Returned _, metrics) => mret metrics
  | (Threw e, metrics) =>
    logger LvlError ("Error calculating metrics: " +:+ e);;
    mret (set_metrics_error e metrics)
  end.

(** ** The answers of the outside world to one invocation of a body

    One field per place where the body reads the clock or awaits a
    collaborator; each place is reached at most once per invocation. *)
Record Answers : Type := {
  (** [Date.now()] on entry of [performArchiving] (line 398) *)
  t_entry : Z;
  (** [new Date()] for [systemState.timestamp] (line 456) *)
  t_snapshot : Z;
  (** the date string of today minus [i] days (lines 475-479) *)
  day_string : nat → string;
  (** [sevenDaysAgo] (lines 539-540) *)
  t_sevenDaysAgo : Z;
  (** [new Date()] for the days since the last activity (line 551) *)
  t_metrics : Z;
  (** [new Date()] stored in the registry (lines 266, 304, 340, 373, 417) *)
  t_record : Z;
  (** [new Date()] in the payload of the published event *)
  t_emit : Z;
  (** [new Date()] of the no-archiving-needed branch (line 434) *)
  t_check : Z;
  (** [projectManagement.requireActiveProject()] *)
  active_project : Outcome string;
  (** [dataPersistence.loadProjectData(projectId, ...)] *)
  load_config : Outcome (option Blob);
  load_hta : Outcome (option Blob);
  load_learning_history : Outcome (option LearningHistory);
  load_day : nat → Outcome (option Blob);
  (** [reasoningEngine.performBackgroundAnalysis(systemState, type)] *)
  background_analysis : Outcome ProviderResult;
  (** [identityEngine.performBackgroundReflection(systemState)] *)
  background_reflection : Outcome ProviderResult;
  (** [dataArchiver.assessArchiveNeeds(projectId)] *)
  archive_needed : Outcome bool;
  (** [dataArchiver.performArchiving({ projectId })] *)
  archive_results : Outcome Blob;
  (** [dataPersistence.logError(context, error)] *)
  log_error : Outcome unit;
}.

(** ** Local variables next to the world

    A method that builds an object step by step inside a [try] keeps what
    it has assigned when a later step throws: the object under
    construction is a second component of the state. *)
Definition on_world {L A} (m : M A) : ST (L * World) A :=
  λ lw, match m lw.2 with (r, w') => (r, (lw.1, w')) end.
Definition on_local {L A} (m : ST L A) : ST (L * World) A :=
  λ lw, match m lw.1 with (r, l') => (r, (l', lw.2)) end.

(** ** [gatherSystemState] *)

Definition set_snap_config (v : option Blob) (s : Snapshot) : Snapshot :=
  {| snap_projectId := snap_projectId s; snap_timestamp := snap_timestamp s;
     snap_lastAnalyses := snap_lastAnalyses s; snap_config := v;
     snap_htaData := snap_htaData s; snap_learningHistory := snap_learningHistory s;
     snap_recentSchedules := snap_recentSchedules s; snap_metrics := snap_metrics s;
     snap_error := snap_error s |}.
Definition set_snap_htaData (v : option Blob) (s : Snapshot) : Snapshot :=
  {| snap_projectId := snap_projectId s; snap_timestamp := snap_timestamp s;
     snap_lastAnalyses := snap_lastAnalyses s; snap_config := snap_config s;
     snap_htaData := v; snap_learningHistory := snap_learningHistory s;
     snap_recentSchedules := snap_recentSchedules s; snap_metrics := snap_metrics s;
     snap_error := snap_error s |}.
Definition set_snap_learningHistory (v : option LearningHistory) (s : Snapshot) : Snapshot :=
  {| snap_projectId := snap_projectId s; snap_timestamp := snap_timestamp s;
     snap_lastAnalyses := snap_lastAnalyses s; snap_config := snap_config s;
     snap_htaData := snap_htaData s; snap_learningHistory := v;
     snap_recentSchedules := snap_recentSchedules s; snap_metrics := snap_metrics s;
     snap_error := snap_error s |}.
Definition set_snap_recentSchedules (v : list (string * Blob)) (s : Snapshot) : Snapshot :=
  {| snap_projectId := snap_projectId s; snap_timestamp := snap_timestamp s;
     snap_lastAnalyses := snap_lastAnalyses s; snap_config := snap_config s;
     snap_htaData := snap_htaData s; snap_learningHistory := snap_learningHistory s;
     snap_recentSchedules := v; snap_metrics := snap_metrics s;
     snap_error := snap_error s |}.
Definition set_snap_metrics (v : Metrics) (s : Snapshot) : Snapshot :=
  {| snap_projectId := snap_projectId s; snap_timestamp := snap_timestamp s;
     snap_lastAnalyses := snap_lastAnalyses s; snap_config := snap_config s;
     snap_htaData := snap_htaData s; snap_learningHistory := snap_learningHistory s;
     snap_recentSchedules := snap_recentSchedules s; snap_metrics := Some v;
     snap_error := snap_error s |}.
Definition set_snap_error (e : JsError) (s : Snapshot) : Snapshot :=
  {| snap_projectId := snap_projectId s; snap_timestamp := snap_timestamp s;
     snap_lastAnalyses := snap_lastAnalyses s; snap_config := snap_config s;
     snap_htaData := snap_htaData s; snap_learningHistory := snap_learningHistory s;
     snap_recentSchedules := snap_recentSchedules s; snap_metrics := snap_metrics s;
     snap_error := Some e |}.

(** The loop over the last seven days (lines 476-492), for the days [days]:
    each load has a [try] of its own whose [catch] is empty, and a falsy
    schedule ([null], [false], [0], the empty string) is not pushed. *)
Fixpoint load_recent_schedules (env : Answers) (projectId : string)
    (days : list nat) (recentSchedules : list (string * Blob))
  : M (list (string * Blob)) :=
  match days with
  | [] => mret recentSchedules
  | i :: rest =>
    let dateStr := day_string env i in
    pushed ← try_catch
      (effect (LoadProjectData projectId ("day_" +:+ dateStr +:+ ".json"));;
       schedule ← answer (load_day env i);
       match schedule with
       | Some s =>
         if truthy s then mret (recentSchedules ++ [(dateStr, s)])
         else mret recentSchedules
       | None => mret recentSchedules
       end)
      (λ _, mret recentSchedules);
    load_recent_schedules env projectId rest pushed
  end.

(** The [try] block of [gatherSystemState], assigning the fields of
    [systemState] one after the other. *)
Definition gather_body (env : Answers) (projectId : string)
  : ST (Snapshot * World) unit :=
  on_world (effect (LoadProjectData projectId "config.json"));;
  config ← answer (load_config env);
  on_local (modify (set_snap_config config));;
  on_world (effect (LoadProjectData projectId "hta.json"));;
  htaData ← answer (load_hta env);
  on_local (modify (set_snap_htaData htaData));;
  on_world (effect (LoadProjectData projectId "learning_history.json"));;
  learningHistory ← answer (load_learning_history env);
  on_local (modify (set_snap_learningHistory learningHistory));;
  recentSchedules ← on_world (load_recent_schedules env projectId (seq 0 7) []);
  on_local (modify (set_snap_recentSchedules recentSchedules));;
  metrics ← on_world (calculateSystemMetrics learningHistory
                        (t_sevenDaysAgo env) (t_metrics env));
  on_local (modify (set_snap_metrics metrics)).

Definition gatherSystemState (env : Answers) (projectId : string) : M Snapshot :=
  λ w,
    let systemState :=
      {| snap_projectId := projectId; snap_timestamp := t_snapshot env;
         snap_lastAnalyses := lastAnalysis (this w); snap_config := None;
         snap_htaData := None; snap_learningHistory := None;
         snap_recentSchedules := []; snap_metrics := None; snap_error := None |} in
    match try_catch (gather_body env projectId)
            (λ error,
               on_world (logger LvlError ("Error gathering system state: " +:+ error));;
               on_local (modify (set_snap_error error)))
            (systemState, w) with
    | (Returned _, (systemState', w')) => (Returned systemState', w')
    | (Threw e, (_, w')) => (Threw e, w')
    end.

(** ** Execution bodies *)

Definition set_lastAnalysis (key : string) (t : Z) (c : SystemClock) : SystemClock :=
  {| isRunning := isRunning c; intervals := intervals c;
     lastAnalysis := <[key := t]> (lastAnalysis c);
     lastArchivingAttempt := lastArchivingAttempt c |}.
Definition set_lastArchivingAttempt (t : Z) (c : SystemClock) : SystemClock :=
  {| isRunning := isRunning c; intervals := intervals c;
     lastAnalysis := lastAnalysis c; lastArchivingAttempt := Some t |}.
Definition set_isRunning (b : bool) (c : SystemClock) : SystemClock :=
  {| isRunning := b; intervals := intervals c;
     lastAnalysis := lastAnalysis c;
     lastArchivingAttempt := lastArchivingAttempt c |}.
Definition set_intervals (m : list (string * nat)) (c : SystemClock) : SystemClock :=
  {| isRunning := isRunning c; intervals := m;
     lastAnalysis := lastAnalysis c;
     lastArchivingAttempt := lastArchivingAttempt c |}.

(** [result.property] on what a provider returned: [null] has no
    properties. *)
Definition field {A} (result : ProviderResult) (property : string) (f : Analysis → A)
  : M A :=
  match result with
  | Some a => mret (f a)
  | None => throw (null_property_error property)
  end.

(** [items?.length || 0] *)
Definition length_or_0 (items : option (list string)) : nat :=
  match items with Some l => length l | None => 0%nat end.

(** [level || fallback]: the empty string is falsy *)
Definition string_or (level : option string) (fallback : string) : string :=
  match level with
  | Some l => if decide (l = "") then fallback else l
  | None => fallback
  end.

Definition performStrategicAnalysis (env : Answers) : M unit :=
  try_catch
    (logger LvlDebug "SystemClock: Performing strategic analysis...";;
     effect RequireActiveProject;;
     activeProject ← answer (active_project env);
     systemState ← gatherSystemState env activeProject;
     effect (PerformBackgroundAnalysis systemState "strategic_overview");;
     strategicInsights ← answer (background_analysis env);
     modify (with_this (set_lastAnalysis "strategic_analysis" (t_record env)));;
     effect (Emit "system:strategic_insights"
               (StrategicInsights activeProject strategicInsights systemState
                  "background_strategic" (t_emit env)));;
     insights ← field strategicInsights "insights" res_items;
     logger LvlInfo ("Strategic analysis completed - "
                     +:+ pretty (length_or_0 insights) +:+ " insights generated"))
    (λ error,
       logger LvlError ("Strategic analysis failed: " +:+ error);;
       effect (LogError "SystemClock.performStrategicAnalysis" error);;
       answer (log_error env)).

Definition performRiskDetection (env : Answers) : M unit :=
  try_catch
    (logger LvlDebug "SystemClock: Performing risk detection...";;
     effect RequireActiveProject;;
     activeProject ← answer (active_project env);
     systemState ← gatherSystemState env activeProject;
     effect (PerformBackgroundAnalysis systemState "risk_detection");;
     riskAnalysis ← answer (background_analysis env);
     modify (with_this (set_lastAnalysis "risk_detection" (t_record env)));;
     risks ← field riskAnalysis "risks" res_items;
     overallRiskLevel ← field riskAnalysis "overallRiskLevel" res_level;
     effect (Emit "system:risks_detected"
               (RisksDetected activeProject (default [] risks)
                  (string_or overallRiskLevel "low") (t_emit env)));;
     logger LvlInfo ("Risk detection completed - "
                     +:+ pretty (length_or_0 risks) +:+ " risks identified"))
    (λ error,
       logger LvlError ("Risk detection failed: " +:+ error);;
       effect (LogError "SystemClock.performRiskDetection" error);;
       answer (log_error env)).

Definition performOpportunityScanning (env : Answers) : M unit :=
  try_catch
    (logger LvlDebug "SystemClock: Performing opportunity scanning...";;
     effect RequireActiveProject;;
     activeProject ← answer (active_project env);
     systemState ← gatherSystemState env activeProject;
     effect (PerformBackgroundAnalysis systemState "opportunity_detection");;
     opportunityAnalysis ← answer (background_analysis env);
     modify (with_this (set_lastAnalysis "opportunity_scanning" (t_record env)));;
     opportunities ← field opportunityAnalysis "opportunities" res_items;
     priorityLevel ← field opportunityAnalysis "priorityLevel" res_level;
     effect (Emit "system:opportunities_detected"
               (OpportunitiesDetected activeProject (default [] opportunities)
                  (string_or priorityLevel "medium") (t_emit env)));;
     logger LvlInfo ("Opportunity scanning completed - "
                     +:+ pretty (length_or_0 opportunities) +:+ " opportunities found"))
    (λ error,
       logger LvlError ("Opportunity scanning failed: " +:+ error);;
       effect (LogError "SystemClock.performOpportunityScanning" error);;
       answer (log_error env)).

Definition performIdentityReflection (env : Answers) : M unit :=
  try_catch
    (logger LvlDebug "SystemClock: Performing identity reflection...";;
     effect RequireActiveProject;;
     activeProject ← answer (active_project env);
     systemState ← gatherSystemState env activeProject;
     effect (PerformBackgroundReflection systemState);;
     identityAnalysis ← answer (background_reflection env);
     modify (with_this (set_lastAnalysis "identity_reflection" (t_record env)));;
     effect (Emit "system:identity_insights"
               (IdentityInsights activeProject identityAnalysis (t_emit env)));;
     logger LvlInfo "Identity reflection completed")
    (λ error,
       logger LvlError ("Identity reflection failed: " +:+ error);;
       effect (LogError "SystemClock.performIdentityReflection" error);;
       answer (log_error env)).

(** [this.lastArchivingAttempt && (now - this.lastArchivingAttempt) < 30000]:
    [undefined] and the number 0 are falsy. *)
Definition throttled (lastAttempt : option Z) (now : Z) : bool :=
  match lastAttempt with
  | Some t => negb (t =? 0) && (now - t <? 30000)
  | None => false
  end.

(** [!lastCheck || (now - new Date(lastCheck)) > 6 * 60 * 60 * 1000]: the
    registry holds a non-empty string or nothing. *)
Definition shouldLog (lastCheck : option Z) (now : Z) : bool :=
  match lastCheck with
  | None => true
  | Some t => 6 * 60 * 60 * 1000 <? now - t
  end.

Definition performArchiving (env : Answers) : M unit :=
  try_catch
    (let now := t_entry env in
     w ← get;
     if throttled (lastArchivingAttempt (this w)) now then
       logger LvlDebug "SystemClock: Archiving throttled - attempted too recently"
     else
       modify (with_this (set_lastArchivingAttempt now));;
       logger LvlDebug "SystemClock: Performing data archiving check...";;
       effect RequireActiveProject;;
       activeProject ← answer (active_project env);
       effect (AssessArchiveNeeds activeProject);;
       archiveNeeded ← answer (archive_needed env);
       if archiveNeeded : bool then
         logger LvlInfo "Archive threshold reached - beginning archiving process";;
         effect (ArchiverPerformArchiving activeProject);;
         archiveResults ← answer (archive_results env);
         modify (with_this (set_lastAnalysis "data_archiving" (t_record env)));;
         effect (Emit "system:archiving_completed"
                   (ArchivingCompleted activeProject archiveResults (t_emit env)));;
         logger LvlInfo "Archiving completed successfully"
       else
         w ← get;
         let lastCheck := lastAnalysis (this w) !! "data_archiving_check" in
         let now := t_check env in
         (if shouldLog lastCheck now
          then logger LvlDebug "No archiving needed at this time"
          else mret tt);;
         modify (with_this (set_lastAnalysis "data_archiving_check" now)))
    (λ error,
       logger LvlError ("Data archiving failed: " +:+ error);;
       effect (LogError "SystemClock.performArchiving" error);;
       answer (log_error env)).

(** The body of a job. *)
Definition perform (k : JobKind) : Answers → M unit :=
  match k with
  | strategic_analysis => performStrategicAnalysis
  | risk_detection => performRiskDetection
  | opportunity_scanning => performOpportunityScanning
  | identity_reflection => performIdentityReflection
  | data_archiving => performArchiving
  end.

(** ** Timers of the host *)

Definition add_interval (t : Timer) (h : Host) : Host :=
  {| stdin_isTTY := stdin_isTTY h; next_timer := S (next_timer h);
     active_intervals := active_intervals h ++ [t];
     pending_timeouts := pending_timeouts h |}.
Definition add_timeout (t : Timer) (h : Host) : Host :=
  {| stdin_isTTY := stdin_isTTY h; next_timer := S (next_timer h);
     active_intervals := active_intervals h;
     pending_timeouts := pending_timeouts h ++ [t] |}.
Definition remove_interval (id : nat) (h : Host) : Host :=
  {| stdin_isTTY := stdin_isTTY h; next_timer := next_timer h;
     active_intervals := filter (λ t, timer_id t ≠ id) (active_intervals h);
     pending_timeouts := pending_timeouts h |}.
Definition remove_timeout (id : nat) (h : Host) : Host :=
  {| stdin_isTTY := stdin_isTTY h; next_timer := next_timer h;
     active_intervals := active_intervals h;
     pending_timeouts := filter (λ t, timer_id t ≠ id) (pending_timeouts h) |}.

(** The delay a timer of Node gets: a delay below 1 ms or above
    [TIMEOUT_MAX], the largest 32-bit signed integer, is set to 1 ms. *)
Definition TIMEOUT_MAX : Z := 2147483647.

Definition timer_delay (ms : Z) : Z :=
  if (1 <=? ms) && (ms <=? TIMEOUT_MAX) then ms else 1.

(** [setInterval(() => { this.perform...() }, ms)] returns the handle.  The
    effect records the delay asked for, the timer the delay it runs with. *)
Definition setInterval (job : JobKind) (ms : Z) : M nat :=
  w ← get;
  let id := next_timer (host w) in
  modify (with_host (add_interval {| timer_id := id; timer_ms := timer_delay ms;
                                     timer_jobs := [job] |}));;
  effect (SetInterval id ms job);;
  mret id.

(** [setTimeout(() => { ... }, ms)]; the handle is dropped by every caller. *)
Definition setTimeout (jobs : list JobKind) (ms : Z) : M unit :=
  w ← get;
  let id := next_timer (host w) in
  modify (with_host (add_timeout {| timer_id := id; timer_ms := timer_delay ms;
                                    timer_jobs := jobs |}));;
  effect (SetTimeout id ms jobs).

Definition clearInterval (id : nat) : M unit :=
  modify (with_host (remove_interval id));;
  effect (ClearInterval id).

(** [Map.prototype.set]: an existing key keeps its place. *)
Fixpoint map_set (key : string) (v : nat) (m : list (string * nat))
  : list (string * nat) :=
  match m with
  | [] => [(key, v)]
  | (k, x) :: m' =>
    if decide (k = key) then (key, v) :: m' else (k, x) :: map_set key v m'
  end.

Definition intervals_set (key : string) (id : nat) : M unit :=
  modify (with_this (λ c, set_intervals (map_set key id (intervals c)) c)).

(** ** Scheduling *)

Definition scheduleStrategicAnalysis (hours : Z) : M unit :=
  w ← get;
  let isMcpMode := negb (stdin_isTTY (host w)) in
  if isMcpMode then
    logger LvlInfo "Strategic analysis scheduled for MCP mode (event-driven only)"
  else
    let intervalMs := hours * 60 * 60 * 1000 in
    intervalId ← setInterval strategic_analysis intervalMs;
    intervals_set "strategic_analysis" intervalId;;
    logger LvlInfo ("Strategic analysis scheduled every " +:+ pretty hours +:+ " hours");;
    setTimeout [strategic_analysis] 30000.

Definition scheduleRiskDetection (hours : Z) : M unit :=
  let intervalMs := hours * 60 * 60 * 1000 in
  intervalId ← setInterval risk_detection intervalMs;
  intervals_set "risk_detection" intervalId;;
  logger LvlInfo ("Risk detection scheduled every " +:+ pretty hours +:+ " hours");;
  setTimeout [risk_detection] 60000.

Definition scheduleOpportunityScans (hours : Z) : M unit :=
  let intervalMs := hours * 60 * 60 * 1000 in
  intervalId ← setInterval opportunity_scanning intervalMs;
  intervals_set "opportunity_scanning" intervalId;;
  logger LvlInfo ("Opportunity scanning scheduled every " +:+ pretty hours +:+ " hours");;
  setTimeout [opportunity_scanning] 90000.

Definition scheduleIdentityReflection (days : Z) : M unit :=
  let intervalMs := days * 24 * 60 * 60 * 1000 in
  intervalId ← setInterval identity_reflection intervalMs;
  intervals_set "identity_reflection" intervalId;;
  logger LvlInfo ("Identity reflection scheduled every " +:+ pretty days +:+ " days");;
  setTimeout [identity_reflection] 120000.

Definition scheduleArchiving (days : Z) : M unit :=
  w ← get;
  let isMcpMode := negb (stdin_isTTY (host w)) in
  if isMcpMode then
    logger LvlInfo "Data archiving scheduled for MCP mode (event-driven only)"
  else
    let intervalMs := days * 24 * 60 * 60 * 1000 in
    intervalId ← setInterval data_archiving intervalMs;
    intervals_set "data_archiving" intervalId;;
    logger LvlInfo ("Data archiving scheduled every " +:+ pretty days +:+ " days").

(** ** Lifecycle *)

Definition defaultConfig : ClockConfig :=
  {| cc_strategicAnalysisHours := 24; cc_riskDetectionHours := 12;
     cc_opportunityScansHours := 6; cc_identityReflectionDays := 7;
     cc_archivingDays := 30; cc_enableBackgroundTicks := true |}.

(** [{ ...defaultConfig, ...config }] *)
Definition merge_config (d : ClockConfig) (config : Config) : ClockConfig :=
  {| cc_strategicAnalysisHours :=
       default (cc_strategicAnalysisHours d) (strategicAnalysisHours config);
     cc_riskDetectionHours :=
       default (cc_riskDetectionHours d) (riskDetectionHours config);
     cc_opportunityScansHours :=
       default (cc_opportunityScansHours d) (opportunityScansHours config);
     cc_identityReflectionDays :=
       default (cc_identityReflectionDays d) (identityReflectionDays config);
     cc_archivingDays := default (cc_archivingDays d) (archivingDays config);
     cc_enableBackgroundTicks :=
       default (cc_enableBackgroundTicks d) (enableBackgroundTicks config) |}.

Definition set_enableBackgroundTicks (b : bool) (c : ClockConfig) : ClockConfig :=
  {| cc_strategicAnalysisHours := cc_strategicAnalysisHours c;
     cc_riskDetectionHours := cc_riskDetectionHours c;
     cc_opportunityScansHours := cc_opportunityScansHours c;
     cc_identityReflectionDays := cc_identityReflectionDays c;
     cc_archivingDays := cc_archivingDays c;
     cc_enableBackgroundTicks := b |}.

(** [start(config)]; [now] is the reading of the clock for [startedAt]. *)
Definition start (config : Config) (now : Z) : M unit :=
  w ← get;
  if isRunning (this w) then
    logger LvlWarn "SystemClock already running"
  else
    let clockConfig := merge_config defaultConfig config in
    modify (with_this (set_isRunning true));;
    let isMcpMode := negb (stdin_isTTY (host w)) in
    clockConfig ←
      (if isMcpMode then
         logger LvlInfo "SystemClock starting in MCP mode (intervals disabled to prevent initialization timeout)";;
         mret (set_enableBackgroundTicks false clockConfig)
       else
         logger LvlInfo "SystemClock starting with config";;
         mret clockConfig);
    (if cc_enableBackgroundTicks clockConfig then
       scheduleStrategicAnalysis (cc_strategicAnalysisHours clockConfig);;
       scheduleRiskDetection (cc_riskDetectionHours clockConfig);;
       scheduleOpportunityScans (cc_opportunityScansHours clockConfig);;
       scheduleIdentityReflection (cc_identityReflectionDays clockConfig);;
       scheduleArchiving (cc_archivingDays clockConfig)
     else mret tt);;
    effect (Emit "system:clock_started" (ClockStarted clockConfig now));;
    if isMcpMode then
      logger LvlInfo "SystemClock started in MCP mode - Event-driven analysis only"
    else
      logger LvlInfo "SystemClock started - Proactive reasoning engaged".

(** [this.intervals.forEach((intervalId, type) => { ... })] *)
Fixpoint clear_each (m : list (string * nat)) : M unit :=
  match m with
  | [] => mret tt
  | (type, intervalId) :: rest =>
    clearInterval intervalId;;
    logger LvlInfo ("Stopped " +:+ type +:+ " interval");;
    clear_each rest
  end.

(** [stop()]; [now] is the reading of the clock for [stoppedAt]. *)
Definition stop (now : Z) : M unit :=
  w ← get;
  if negb (isRunning (this w)) then mret tt
  else
    clear_each (intervals (this w));;
    modify (with_this (set_intervals []));;
    modify (with_this (set_isRunning false));;
    effect (Emit "system:clock_stopped" (ClockStopped now));;
    logger LvlInfo "SystemClock stopped".

(** ** Event handlers *)

Record OpportunityContext : Type := { engagementLevel : option Z }.

(** The [block] of a [block:completed] payload. *)
Record Block : Type := {
  block_breakthrough : bool;
  opportunityContext : option OpportunityContext;
}.

(** [x >= n] where [x] may be [undefined]: then the comparison is false. *)
Definition at_least (x : option Z) (n : Z) : bool :=
  match x with Some v => n <=? v | None => false end.

(** [block.breakthrough || block.opportunityContext?.engagementLevel >= 8] *)
Definition significant (block : Block) : bool :=
  block_breakthrough block
  || at_least (opportunityContext block ≫= engagementLevel) 8.

Definition onBlockCompleted (block : Block) : M unit :=
  if significant block then
    logger LvlDebug "Significant event detected - triggering immediate strategic analysis";;
    setTimeout [strategic_analysis] 5000
  else mret tt.

Definition onProjectCreated (projectId : string) : M unit :=
  logger LvlInfo ("New project detected: " +:+ projectId +:+ " - scheduling initial analysis");;
  setTimeout [strategic_analysis; opportunity_scanning] 10000.

Definition onStrategyEvolved (projectId : string) (tasksAdded : option Z) : M unit :=
  if at_least tasksAdded 3 then
    logger LvlDebug "Significant strategy evolution - triggering risk detection";;
    setTimeout [risk_detection] 3000
  else mret tt.

(** ** Status and manual trigger *)

Record Status : Type := {
  status_isRunning : bool;
  activeIntervals : list string;
  lastAnalyses : gmap string Z;
  uptime : string;
}.

Definition getStatus (c : SystemClock) : Status :=
  {| status_isRunning := isRunning c;
     activeIntervals := (intervals c).*1;
     lastAnalyses := lastAnalysis c;
     uptime := if isRunning c then "Active" else "Stopped" |}.

(** The [switch] of [triggerImmediateAnalysis]: the body a tag selects. *)
Definition job_of_tag (analysisType : string) : option JobKind :=
  if decide (analysisType = "strategic") then Some strategic_analysis
  else if decide (analysisType = "risk") then Some risk_detection
  else if decide (analysisType = "opportunity") then Some opportunity_scanning
  else if decide (analysisType = "identity") then Some identity_reflection
  else if decide (analysisType = "archive") then Some data_archiving
  else None.

Definition triggerImmediateAnalysis (analysisType : string) (env : Answers) : M unit :=
  logger LvlDebug ("Triggering immediate " +:+ analysisType +:+ " analysis");;
  match job_of_tag analysisType with
  | Some k => perform k env
  | None => logger LvlError ("Unknown analysis type: " +:+ analysisType)
  end.

(** ** Construction and the operations that drive a clock *)

Definition exec {A} (m : M A) (w : World) : World := (m w).2.

Definition setupEventListeners : M unit :=
  effect (Subscribe "block:completed");;
  effect (Subscribe "project:created");;
  effect (Subscribe "strategy:evolved").

(** [new SystemClock(...)] in a process whose stdin is, or is not, a
    terminal. *)
Definition new_SystemClock (isTTY : bool) : World :=
  exec
    (setupEventListeners;;
     if isTTY
     then logger LvlInfo "SystemClock initialized - Ready for proactive reasoning"
     else mret tt)
    {| this := {| isRunning := false; intervals := []; lastAnalysis := ∅;
                  lastArchivingAttempt := None |};
       host := {| stdin_isTTY := isTTY; next_timer := 0;
                  active_intervals := []; pending_timeouts := [] |};
       trace := [] |}.

(** A timer callback invokes its bodies without awaiting them: a body that
    rejects leaves an unhandled rejection.  The [i]-th body invoked gets
    the answers [envs i]. *)
Fixpoint invoke_all (jobs : list JobKind) (envs : nat → Answers) (i : nat) : M unit :=
  match jobs with
  | [] => mret tt
  | k :: rest =>
    try_catch (perform k (envs i)) (λ e, effect (UnhandledRejection e));;
    invoke_all rest envs (S i)
  end.

Definition find_timer (id : nat) (timers : list Timer) : option Timer :=
  snd <$> list_find (λ t, timer_id t = id) timers.

Definition interval_fires (id : nat) (envs : nat → Answers) : M unit :=
  w ← get;
  match find_timer id (active_intervals (host w)) with
  | Some t => invoke_all (timer_jobs t) envs 0
  | None => mret tt
  end.

Definition timeout_fires (id : nat) (envs : nat → Answers) : M unit :=
  w ← get;
  match find_timer id (pending_timeouts (host w)) with
  | Some t =>
    modify (with_host (remove_timeout id));;
    invoke_all (timer_jobs t) envs 0
  | None => mret tt
  end.

(** What can happen to a clock: a call of its interface, a delivery of the
    event bus, or a timer of the host firing. *)
Inductive Op : Type :=
| op_start (config : Config) (now : Z)
| op_stop (now : Z)
| op_trigger (analysisType : string) (env : Answers)
| op_block_completed (block : Block)
| op_project_created (projectId : string)
| op_strategy_evolved (projectId : string) (tasksAdded : option Z)
| op_interval_fires (id : nat) (envs : nat → Answers)
| op_timeout_fires (id : nat) (envs : nat → Answers).

Definition step (o : Op) : M unit :=
  match o with
  | op_start config now => start config now
  | op_stop now => stop now
  | op_trigger analysisType env => triggerImmediateAnalysis analysisType env
  | op_block_completed block => onBlockCompleted block
  | op_project_created projectId => onProjectCreated projectId
  | op_strategy_evolved projectId tasksAdded => onStrategyEvolved projectId tasksAdded
  | op_interval_fires id envs => interval_fires id envs
  | op_timeout_fires id envs => timeout_fires id envs
  end.

Definition run (ops : list Op) (w : World) : World :=
  fold_left (λ w o, exec (step o) w) ops w.

(** The effects a computation adds to the trace. *)
Definition add_trace (d : list Effect) (w : World) : World :=
  {| this := this w; host := host w; trace := trace w ++ d |}.

(** The calls of a provider (reasoning engine, identity engine, archiver)
    in a trace. *)
Definition is_provider_call (e : Effect) : bool :=
  match e with
  | PerformBackgroundAnalysis _ _ | PerformBackgroundReflection _
  | AssessArchiveNeeds _ | ArchiverPerformArchiving _ => true
  | _ => false
  end.

Definition provider_calls (tr : list Effect) : nat :=
  length (filter (λ e, is_provider_call e = true) tr).

(** ** The mean difficulty, in the words of the specification *)

Definition arithmetic_mean (values : list Z) : Q :=
  (inject_Z (foldr Z.add 0%Z values) / inject_Z (Z.of_nat (length values)))%Q.

(** "Mean of a per-item difficulty field (default 3 when absent)": an item
    contributes its difficulty, and 3 when it has none. *)
Definition stated_contribution (t : Topic) : Z :=
  match difficulty t with Some d => d | None => 3 end.

(** The same, where an item whose difficulty is 0 counts as having none. *)
Definition contribution (t : Topic) : Z :=
  match difficulty t with
  | Some 0 | None => 3
  | Some d => d
  end.

Definition history_of (topics : list Topic) : option LearningHistory :=
  Some {| completedTopics := Some (Some <$> topics) |}.

Definition value_of {A} (o : Outcome A) : option A :=
  match o with Returned a => Some a | Threw _ => None end.

(** The effects [gatherSystemState] may have: it logs and it loads. *)
Definition background (e : Effect) : Prop :=
  match e with
  | Log _ _ | LoadProjectData _ _ => True
  | _ => False
  end.

(** A step of the snapshot assembly fails (a failed load of a daily
    schedule is not a failure: its [catch] is empty). *)
Definition gather_fails (env : Answers) : bool :=
  negb (returned (load_config env) && returned (load_hta env)
        && returned (load_learning_history env)).

(** A trace holds a call of [logger.error]. *)
Definition is_error_log (e : Effect) : bool :=
  match e with Log LvlError _ => true | _ => false end.

Definition logs_error (d : list Effect) : bool := existsb is_error_log d.

(** The answer of the provider of an analysis job. *)
Definition provider_answer (k : JobKind) (env : Answers) : Outcome ProviderResult :=
  match k with
  | identity_reflection => background_reflection env
  | _ => background_analysis env
  end.

(** A step of the body of job [k] fails, among those the body reaches: no
    active project, the assembly of the snapshot, the call of the provider
    (for archiving: of either operation of the archiver).  A throttled
    archiving attempt reaches no step. *)
Definition step_fails (k : JobKind) (env : Answers) (w : World) : bool :=
  match k with
  | data_archiving =>
    negb (throttled (lastArchivingAttempt (this w)) (t_entry env))
    && match active_project env, archive_needed env with
       | Threw _, _ => true
       | Returned _, Threw _ => true
       | Returned _, Returned true => negb (returned (archive_results env))
       | Returned _, Returned false => false
       end
  | _ =>
    match active_project env with
    | Threw _ => true
    | Returned _ => gather_fails env || negb (returned (provider_answer k env))
    end
  end.

(** The effects a computation adds to the trace of [w]. *)
Definition effects_of {A} (m : M A) (w : World) : list Effect :=
  drop (length (trace w)) (trace (exec m w)).

(** What the archiving body does to the registry, and how many operations
    of the archiver it calls, by the answers it gets. *)
Definition archiving_registry (env : Answers) (w : World) : gmap string Z :=
  if throttled (lastArchivingAttempt (this w)) (t_entry env) then lastAnalysis (this w)
  else
    match active_project env, archive_needed env, archive_results env with
    | Returned _, Returned true, Returned _ =>
      <["data_archiving" := t_record env]> (lastAnalysis (this w))
    | Returned _, Returned false, _ =>
      <["data_archiving_check" := t_check env]> (lastAnalysis (this w))
    | _, _, _ => lastAnalysis (this w)
    end.

Definition archiving_calls (env : Answers) (w : World) : nat :=
  if throttled (lastArchivingAttempt (this w)) (t_entry env) then 0%nat
  else
    match active_project env, archive_needed env with
    | Threw _, _ => 0%nat
    | Returned _, Returned true => 2%nat
    | Returned _, _ => 1%nat
    end.

(** The diagnostic note of the no-archiving-needed branch. *)
Definition no_archiving_note : Effect :=
  Log LvlDebug "No archiving needed at this time".

Definition is_note (e : Effect) : bool :=
  match e with
  | Log LvlDebug msg => bool_decide (msg = "No archiving needed at this time")
  | _ => false
  end.

Definition logs_note (d : list Effect) : bool := existsb is_note d.

(** ** Sample answers, for concrete runs *)

(** A project is active, every load finds nothing, the providers return a
    result and the archiver sees no need to archive.  All clock readings
    are [now]. *)
Definition calm_answers (now : Z) : Answers :=
  {| t_entry := now; t_snapshot := now; day_string := pretty;
     t_sevenDaysAgo := now - 7 * 24 * 60 * 60 * 1000; t_metrics := now;
     t_record := now; t_emit := now; t_check := now;
     active_project := Returned "p1";
     load_config := Returned None; load_hta := Returned None;
     load_learning_history := Returned None; load_day := λ _, Returned None;
     background_analysis :=
       Returned (Some {| res_items := Some ["a"; "b"]; res_level := None |});
     background_reflection := Returned (Some {| res_items := None; res_level := None |});
     archive_needed := Returned false; archive_results := Returned (JsonObject "archived");
     log_error := Returned tt |}.

(** The same, with no active project. *)
Definition no_project_answers (now : Z) : Answers :=
  {| t_entry := now; t_snapshot := now; day_string := pretty;
     t_sevenDaysAgo := now - 7 * 24 * 60 * 60 * 1000; t_metrics := now;
     t_record := now; t_emit := now; t_check := now;
     active_project := Threw "No active project";
     load_config := Returned None; load_hta := Returned None;
     load_learning_history := Returned None; load_day := λ _, Returned None;
     background_analysis :=
       Returned (Some {| res_items := Some ["a"; "b"]; res_level := None |});
     background_reflection := Returned (Some {| res_items := None; res_level := None |});
     archive_needed := Returned false; archive_results := Returned (JsonObject "archived");
     log_error := Returned tt |}.

(** The start times of the invocations of the archiving body that get past
    the throttle, when the body is invoked once per element of [envs]. *)
Fixpoint archiving_passes (envs : list Answers) (w : World) : list Z :=
  match envs with
  | [] => []
  | env :: rest =>
    let w' := exec (performArchiving env) w in
    if throttled (lastArchivingAttempt (this w)) (t_entry env)
    then archiving_passes rest w'
    else t_entry env :: archiving_passes rest w'
  end.

Definition throttle_note : Effect :=
  Log LvlDebug "SystemClock: Archiving throttled - attempted too recently".

(** The recurring timers and the warm-up runs that [start] creates in a
    terminal when background ticks are enabled, the first handle being
    [n]. *)
Definition scheduled_intervals (n : nat) (c : ClockConfig) : list Timer :=
  [ {| timer_id := n; timer_ms := timer_delay (cc_strategicAnalysisHours c * 60 * 60 * 1000);
       timer_jobs := [strategic_analysis] |};
    {| timer_id := 2 + n; timer_ms := timer_delay (cc_riskDetectionHours c * 60 * 60 * 1000);
       timer_jobs := [risk_detection] |};
    {| timer_id := 4 + n;
       timer_ms := timer_delay (cc_opportunityScansHours c * 60 * 60 * 1000);
       timer_jobs := [opportunity_scanning] |};
    {| timer_id := 6 + n;
       timer_ms := timer_delay (cc_identityReflectionDays c * 24 * 60 * 60 * 1000);
       timer_jobs := [identity_reflection] |};
    {| timer_id := 8 + n; timer_ms := timer_delay (cc_archivingDays c * 24 * 60 * 60 * 1000);
       timer_jobs := [data_archiving] |} ].

Definition warm_up_runs (n : nat) : list Timer :=
  [ {| timer_id := 1 + n; timer_ms := 30000; timer_jobs := [strategic_analysis] |};
    {| timer_id := 3 + n; timer_ms := 60000; timer_jobs := [risk_detection] |};
    {| timer_id := 5 + n; timer_ms := 90000; timer_jobs := [opportunity_scanning] |};
    {| timer_id := 7 + n; timer_ms := 120000; timer_jobs := [identity_reflection] |} ].

Definition scheduled_entries (n : nat) : list (string * nat) :=
  [ ("strategic_analysis", n); ("risk_detection", 2 + n)%nat;
    ("opportunity_scanning", 4 + n)%nat; ("identity_reflection", 6 + n)%nat;
    ("data_archiving", 8 + n)%nat ].

(** What [stop] does for the entries of [intervals], in their order. *)
Definition cancellations (entries : list (string * nat)) : list Effect :=
  entries ≫= λ entry,
    [ClearInterval entry.2; Log LvlInfo ("Stopped " +:+ entry.1 +:+ " interval")].

(** [clearInterval] for each of [ids], on the timers of the host. *)
Definition clear_all (ids : list nat) (h : Host) : Host :=
  foldl (λ h id, remove_interval id h) h ids.

(** An entry of [intervals] and the recurring timer it holds the handle
    of. *)
Definition tracks (entry : string * nat) (t : Timer) : Prop :=
  ∃ k, entry = (job_key k, timer_id t) ∧ timer_jobs t = [k].

(** The object and the host agree: [intervals] holds exactly the active
    recurring timers, one key at most once, and a stopped clock holds
    none. *)
Definition consistent (w : World) : Prop :=
  Forall2 tracks (intervals (this w)) (active_intervals (host w))
  ∧ NoDup (intervals (this w)).*1
  ∧ (isRunning (this w) = false → intervals (this w) = []).

(** From [w] to [w'] nothing of the lifecycle changed, and the registry
    lost no entry. *)
Definition steady (w w' : World) : Prop :=
  isRunning (this w') = isRunning (this w)
  ∧ intervals (this w') = intervals (this w)
  ∧ active_intervals (host w') = active_intervals (host w)
  ∧ stdin_isTTY (host w') = stdin_isTTY (host w)
  ∧ dom (lastAnalysis (this w)) ⊆ dom (lastAnalysis (this w')).

(** A failure that aborts the run of job [k]: no active project, or a
    failed call of the provider. *)
Definition aborts (k : JobKind) (env : Answers) (w : World) : bool :=
  match k with
  | data_archiving => step_fails k env w
  | _ =>
    match active_project env with
    | Threw _ => true
    | Returned _ => negb (returned (provider_answer k env))
    end
  end.

(** A trace holds a call of [dataPersistence.logError]. *)
Definition is_logError (e : Effect) : bool :=
  match e with LogError _ _ => true | _ => false end.

Definition records_error (d : list Effect) : bool := existsb is_logError d.

(** ** Notions used to reason about computations *)

(** [m] keeps the relation [R] between the state it starts from and the
    state it ends in. *)
Definition preserves {S A} (R : relation S) (m : ST S A) : Prop :=
  ∀ s, R s (m s).2.

(** [m] always returns. *)
Definition total {S A} (m : ST S A) : Prop := ∀ s, returned (m s).1 = true.

(** [quiet w w']: from [w] to [w'] the object and the host are untouched
    and the trace got background effects only. *)
Definition quiet (w w' : World) : Prop :=
  ∃ d, w' = add_trace d w ∧ Forall background d.

(** The jobs whose body asks a provider for an analysis: all but
    archiving. *)
Definition analysis_job (k : JobKind) : bool :=
  match k with data_archiving => false | _ => true end.

(** Every start time in [passes] is at least 30 seconds after [t]. *)
Definition all_after (t : Z) (passes : list Z) : Prop :=
  Forall (λ t', 30000 ≤ t' - t) passes.

(** An operation other than [stop]. *)
Definition not_stop (o : Op) : bool :=
  match o with op_stop _ => false | _ => true end.

(** The clock readings an operation brings are after the epoch: a reading
    of 0 would be stored as a falsy attempt timestamp. *)
Definition after_epoch (o : Op) : Prop :=
  match o with
  | op_trigger _ env => t_entry env ≠ 0
  | op_interval_fires _ envs | op_timeout_fires _ envs => ∀ i, t_entry (envs i) ≠ 0
  | _ => True
  end.

(** From [w] to [w'] the recorded attempt stays truthy, and it either stays
    or moves forward by at least 30 seconds. *)
Definition spaced (w w' : World) : Prop :=
  (lastArchivingAttempt (this w) ≠ Some 0 → lastArchivingAttempt (this w') ≠ Some 0)
  ∧ ∀ t, lastArchivingAttempt (this w) = Some t → t ≠ 0 →
         ∃ t', lastArchivingAttempt (this w') = Some t' ∧ (t' = t ∨ 30000 ≤ t' - t).

(** ** What [gatherSystemState] and [calculateSystemMetrics] compute

    The same results as pure functions of the answers, to state what the
    methods return. *)

(** The schedules of the days [days] that loaded: the load returned a
    truthy document. *)
Definition loaded_schedules (env : Answers) (days : list nat) : list (string * Blob) :=
  omap (λ i, match load_day env i with
             | Returned (Some schedule) =>
               if truthy schedule then Some (day_string env i, schedule) else None
             | _ => None
             end) days.

(** The loads of the daily schedules of the days [days]. *)
Definition day_loads (env : Answers) (projectId : string) (days : list nat) : list Effect :=
  (λ i, LoadProjectData projectId ("day_" +:+ day_string env i +:+ ".json")) <$> days.

(** The metrics object [calculateSystemMetrics] returns, and what it logs. *)
Definition metrics_of (learningHistory : option LearningHistory)
    (sevenDaysAgo now : Z) : Metrics :=
  match metrics_body learningHistory sevenDaysAgo now zero_metrics with
  | (Returned _, metrics) => metrics
  | (Threw e, metrics) => set_metrics_error e metrics
  end.

Definition metrics_log (learningHistory : option LearningHistory)
    (sevenDaysAgo now : Z) : list Effect :=
  match metrics_body learningHistory sevenDaysAgo now zero_metrics with
  | (Returned _, _) => []
  | (Threw e, _) => [Log LvlError ("Error calculating metrics: " +:+ e)]
  end.

(** [systemState] as [gatherSystemState] first builds it. *)
Definition initial_snapshot (env : Answers) (projectId : string)
    (registry : gmap string Z) : Snapshot :=
  {| snap_projectId := projectId; snap_timestamp := t_snapshot env;
     snap_lastAnalyses := registry; snap_config := None;
     snap_htaData := None; snap_learningHistory := None;
     snap_recentSchedules := []; snap_metrics := None; snap_error := None |}.

(** A list of topics none of which is [null]. *)
Definition well_formed (topics : list (option Topic)) : bool :=
  forallb (λ t, match t with Some _ => true | None => false end) topics.

(** The first load of the snapshot assembly that fails, with its error and
    the loads attempted up to it; [None] when the three documents load. *)
Definition first_failure (env : Answers) (projectId : string)
  : option (JsError * list Effect) :=
  let load key := LoadProjectData projectId key in
  match load_config env, load_hta env, load_learning_history env with
  | Threw e, _, _ => Some (e, [load "config.json"])
  | Returned _, Threw e, _ => Some (e, [load "config.json"; load "hta.json"])
  | Returned _, Returned _, Threw e =>
    Some (e, [load "config.json"; load "hta.json"; load "learning_history.json"])
  | Returned _, Returned _, Returned _ => None
  end.

(** ** More sample answers *)

Definition sample_topics : list Topic :=
  [ {| difficulty := Some 2; breakthrough := true; branch := Some "camera";
       completedAt := Some 1699000000000 |};
    {| difficulty := None; breakthrough := false; branch := None;
       completedAt := Some 1699900000000 |};
    {| difficulty := Some 4; breakthrough := false; branch := Some "camera";
       completedAt := None |} ].

(** Like [calm_answers], with a configuration, a learning history, a
    schedule for yesterday, a failing load for the day before and a falsy
    document for the day before that. *)
Definition eventful_answers (now : Z) : Answers :=
  {| t_entry := now; t_snapshot := now; day_string := pretty;
     t_sevenDaysAgo := now - 7 * 24 * 60 * 60 * 1000; t_metrics := now;
     t_record := now; t_emit := now; t_check := now;
     active_project := Returned "p1";
     load_config := Returned (Some (JsonObject "{}")); load_hta := Returned None;
     load_learning_history := Returned (history_of sample_topics);
     load_day := λ i, match i with
                      | 1%nat => Returned (Some (JsonObject "yesterday"))
                      | 2%nat => Threw "ENOENT"
                      | 3%nat => Returned (Some (JsonNumber 0))
                      | _ => Returned None
                      end;
     background_analysis :=
       Returned (Some {| res_items := Some ["a"; "b"]; res_level := None |});
     background_reflection := Returned None;
     archive_needed := Returned true; archive_results := Returned (JsonObject "archived");
     log_error := Returned tt |}.

(** Like [calm_answers], with a task tree that fails to load. *)
Definition broken_tree_answers (now : Z) : Answers :=
  {| t_entry := now; t_snapshot := now; day_string := pretty;
     t_sevenDaysAgo := now - 7 * 24 * 60 * 60 * 1000; t_metrics := now;
     t_record := now; t_emit := now; t_check := now;
     active_project := Returned "p1";
     load_config := Returned (Some (JsonObject "{}")); load_hta := Threw "Unexpected token";
     load_learning_history := Returned None; load_day := λ _, Returned None;
     background_analysis := Threw "provider down";
     background_reflection := Threw "provider down";
     archive_needed := Returned true; archive_results := Threw "disk full";
     log_error := Returned tt |}.

(** The snapshot [gatherSystemState] returns for the registry [registry],
    and the effects it has. *)
Definition gathered (env : Answers) (projectId : string) (registry : gmap string Z)
  : Snapshot :=
  let s0 := initial_snapshot env projectId registry in
  match load_config env with
  | Threw e => set_snap_error e s0
  | Returned config =>
    let s1 := set_snap_config config s0 in
    match load_hta env with
    | Threw e => set_snap_error e s1
    | Returned hta =>
      let s2 := set_snap_htaData hta s1 in
      match load_learning_history env with
      | Threw e => set_snap_error e s2
      | Returned history =>
        set_snap_metrics (metrics_of history (t_sevenDaysAgo env) (t_metrics env))
          (set_snap_recentSchedules (loaded_schedules env (seq 0 7))
             (set_snap_learningHistory history s2))
      end
    end
  end.

Definition gather_effects (env : Answers) (projectId : string) : list Effect :=
  let load key := LoadProjectData projectId key in
  let failed e := Log LvlError ("Error gathering system state: " +:+ e) in
  match load_config env with
  | Threw e => [load "config.json"; failed e]
  | Returned _ =>
    match load_hta env with
    | Threw e => [load "config.json"; load "hta.json"; failed e]
    | Returned _ =>
      match load_learning_history env with
      | Threw e =>
        [load "config.json"; load "hta.json"; load "learning_history.json"; failed e]
      | Returned history =>
        [load "config.json"; load "hta.json"; load "learning_history.json"]
        ++ day_loads env projectId (seq 0 7)
        ++ metrics_log history (t_sevenDaysAgo env) (t_metrics env)
      end
    end
  end.

(** The events a trace publishes on the bus, in order. *)
Definition published (d : list Effect) : list (string * Payload) :=
  omap (λ e, match e with Emit topic payload => Some (topic, payload) | _ => None end) d.

(** The context under which the body of a job reports a failure to
    [dataPersistence.logError]. *)
Definition job_context (k : JobKind) : string :=
  match k with
  | strategic_analysis => "SystemClock.performStrategicAnalysis"
  | risk_detection => "SystemClock.performRiskDetection"
  | opportunity_scanning => "SystemClock.performOpportunityScanning"
  | identity_reflection => "SystemClock.performIdentityReflection"
  | data_archiving => "SystemClock.performArchiving"
  end.

(** The errors a trace hands to [dataPersistence.logError] under the
    context [context]. *)
Definition recorded_under (context : string) (d : list Effect) : list JsError :=
  omap (λ e, match e with
             | LogError c err => if decide (c = context) then Some err else None
             | _ => None
             end) d.

(** The error that aborts the run of job [k], if one does: that of
    [requireActiveProject], or else that of the provider (for archiving: of
    the assessment, or else of the archiving it asks for). *)
Definition abort_error (k : JobKind) (env : Answers) : option JsError :=
  match active_project env with
  | Threw e => Some e
  | Returned _ =>
    match k with
    | data_archiving =>
      match archive_needed env with
      | Threw e => Some e
      | Returned true =>
        match archive_results env with Threw e => Some e | Returned _ => None end
      | Returned false => None
      end
    | _ =>
      match provider_answer k env with Threw e => Some e | Returned _ => None end
    end
  end.

(** Like [calm_answers], with providers that return [null]. *)
Definition null_result_answers (now : Z) : Answers :=
  {| t_entry := now; t_snapshot := now; day_string := pretty;
     t_sevenDaysAgo := now - 7 * 24 * 60 * 60 * 1000; t_metrics := now;
     t_record := now; t_emit := now; t_check := now;
     active_project := Returned "p1";
     load_config := Returned None; load_hta := Returned None;
     load_learning_history := Returned None; load_day := λ _, Returned None;
     background_analysis := Returned None;
     background_reflection := Returned None;
     archive_needed := Returned false; archive_results := Returned (JsonObject "archived");
     log_error := Returned tt |}.

(** Like [no_project_answers], with a [logError] that fails as well. *)
Definition failing_log_answers (now : Z) : Answers :=
  {| t_entry := now; t_snapshot := now; day_string := pretty;
     t_sevenDaysAgo := now - 7 * 24 * 60 * 60 * 1000; t_metrics := now;
     t_record := now; t_emit := now; t_check := now;
     active_project := Threw "No active project";
     load_config := Returned None; load_hta := Returned None;
     load_learning_history := Returned None; load_day := λ _, Returned None;
     background_analysis := Threw "provider down";
     background_reflection := Threw "provider down";
     archive_needed := Returned false; archive_results := Returned (JsonObject "archived");
     log_error := Threw "EACCES" |}.

(** The keys the registry can hold: the keys of the five jobs and the key
    of the last archiving check. *)
Definition registry_keys : gset string :=
  list_to_set (data_archiving_check :: (job_key <$> all_jobs)).

(** From [w] to [w'] the registry got entries under these keys only. *)
Definition registered (w w' : World) : Prop :=
  dom (lastAnalysis (this w')) ⊆ dom (lastAnalysis (this w)) ∪ registry_keys.

(** What a timer does: the bodies it invokes and its delay or period. *)
Definition timer_task (t : Timer) : list JobKind * Z := (timer_jobs t, timer_ms t).

(** The process runs in the mode [isTTY], and in embedded mode the clock
    holds no recurring timer. *)
Definition in_mode (isTTY : bool) (w : World) : Prop :=
  stdin_isTTY (host w) = isTTY
  ∧ (isTTY = false → intervals (this w) = [] ∧ active_intervals (host w) = []).

(** A configuration that only switches the background ticks off. *)
Definition ticks_off : Config :=
  {| strategicAnalysisHours := None; riskDetectionHours := None;
     opportunityScansHours := None; identityReflectionDays := None;
     archivingDays := None; enableBackgroundTicks := Some false |}.

(** The empty configuration: [start()]. *)
Definition no_config : Config :=
  {| strategicAnalysisHours := None; riskDetectionHours := None;
     opportunityScansHours := None; identityReflectionDays := None;
     archivingDays := None; enableBackgroundTicks := None |}.


(** * Properties *)

(** ** Derived metrics *)

Lemma map_topics_Some {S A} (property : string) (f : Topic → A) (topics : list Topic)
    (s : S) :
  map_topics property f (Some <$> topics) s = (Returned (f <$> topics), s).
Proof.
  induction topics as [|t topics IH]; [reflexivity|].
  cbn. unfold mbind, ST_bind. rewrite IH. reflexivity.
Qed.

Lemma fold_left_add_foldr (l : list Z) (a : Z) :
  fold_left Z.add l a = a + foldr Z.add 0 l.
Proof.
  revert a. induction l as [|x l IH]; intros a; cbn; [lia|].
  rewrite IH. lia.
Qed.

Lemma contribution_default (t : Topic) : difficulty_or_default t = contribution t.
Proof. unfold difficulty_or_default, contribution. by destruct (difficulty t) as [[]|]. Qed.

Lemma metrics_body_whole (topics : list Topic) (sevenDaysAgo now : Z) (m : Metrics) :
  topics ≠ [] →
  ∃ m', metrics_body (history_of topics) sevenDaysAgo now m = (Returned tt, m')
        ∧ averageDifficulty m' = arithmetic_mean (contribution <$> topics)
        ∧ totalCompletedTasks m' = length topics
        ∧ metrics_error m' = metrics_error m.
Proof.
  intros Hne. unfold metrics_body, history_of. cbn [mbind option_bind completedTopics].
  assert (Hlen : bool_decide (0 < length (Some <$> topics))%nat = true).
  { apply bool_decide_eq_true. rewrite length_fmap. destruct topics; [done|cbn; lia]. }
  rewrite Hlen. unfold mbind, ST_bind, modify.
  rewrite !map_topics_Some.
  destruct (last (Some <$> topics)) as [[lastTopic|]|] eqn:Hlast;
    [destruct (completedAt lastTopic)|..];
    (eexists; split; [reflexivity|]); cbn;
    rewrite ?length_fmap, fold_left_add_foldr;
    (split; [|done]);
    unfold arithmetic_mean; rewrite length_fmap, Z.add_0_l;
    do 2 f_equal; apply (f_equal (foldr Z.add 0));
    apply list_fmap_ext; intros; apply contribution_default.
Qed.

(** C6, as amended: on an empty list of completed items the metrics are all
    zero and carry no error marker, and nothing is logged; on a non-empty
    list the mean difficulty is the arithmetic mean of the items'
    difficulties, where an item whose difficulty is absent or 0 contributes
    3, and there is no error marker. *)
Theorem calculateSystemMetrics_mean_difficulty
    (topics : list Topic) (sevenDaysAgo now : Z) (w : World) (Hne : topics ≠ []) :
  calculateSystemMetrics (history_of []) sevenDaysAgo now w = (Returned zero_metrics, w)
  ∧ ∃ m, calculateSystemMetrics (history_of topics) sevenDaysAgo now w = (Returned m, w)
         ∧ metrics_error m = None
         ∧ averageDifficulty m = arithmetic_mean (contribution <$> topics).
Proof.
  split; [reflexivity|].
  destruct (metrics_body_whole topics sevenDaysAgo now zero_metrics Hne)
    as (m & Hm & Havg & _ & Herr).
  exists m. unfold calculateSystemMetrics. rewrite Hm. done.
Qed.

Lemma calculateSystemMetrics_mean_difficulty_witness :
  let topics :=
    [ {| difficulty := Some 5; breakthrough := true; branch := None; completedAt := None |};
      {| difficulty := None; breakthrough := false; branch := Some "audio"; completedAt := Some 10 |} ] in
  ∃ m, calculateSystemMetrics (history_of topics) 0 20 (new_SystemClock false)
       = (Returned m, new_SystemClock false)
       ∧ metrics_error m = None
       ∧ averageDifficulty m = arithmetic_mean [5; 3].
Proof.
  intros topics.
  exact (proj2 (calculateSystemMetrics_mean_difficulty topics 0 20 (new_SystemClock false)
                  ltac:(discriminate))).
Defined.

(** C6 as stated fails on an item whose difficulty is 0: the field is
    present, the stated mean is 0, and the code computes 3. *)
Lemma zero_difficulty_counts_as_three :
  let topics :=
    [ {| difficulty := Some 0; breakthrough := false; branch := None; completedAt := None |} ] in
  averageDifficulty <$> value_of (calculateSystemMetrics (history_of topics) 0 0
                                    (new_SystemClock false)).1
  = Some (inject_Z 3 / inject_Z 1)%Q
  ∧ arithmetic_mean (stated_contribution <$> topics) = (inject_Z 0 / inject_Z 1)%Q
  ∧ Qeq_bool (inject_Z 3 / inject_Z 1) (inject_Z 0 / inject_Z 1) = false.
Proof. vm_compute. done. Qed.

(** ** Computations that keep a relation between the states *)

Section Preserves.
Context {S : Type} (R : relation S) `{!PreOrder R}.

Lemma preserves_ret {A} (a : A) : preserves R (mret a).
Proof. intros s. reflexivity. Qed.

Lemma preserves_get : preserves R get.
Proof. intros s. reflexivity. Qed.

Lemma preserves_throw {A} e : preserves R (@throw S A e).
Proof. intros s. reflexivity. Qed.

Lemma preserves_answer {A} (r : Outcome A) : preserves R (answer r).
Proof. intros s. reflexivity. Qed.

Lemma preserves_modify (f : S → S) : (∀ s, R s (f s)) → preserves R (modify f).
Proof. intros Hf s. apply Hf. Qed.

Lemma preserves_bind {A B} (m : ST S A) (f : A → ST S B) :
  preserves R m → (∀ a, preserves R (f a)) → preserves R (m ≫= f).
Proof.
  intros Hm Hf s. unfold mbind, ST_bind. specialize (Hm s).
  destruct (m s) as [[a|e] s']; cbn in *; [|done].
  etrans; [exact Hm|apply Hf].
Qed.

Lemma preserves_try_catch {A} (m : ST S A) (h : JsError → ST S A) :
  preserves R m → (∀ e, preserves R (h e)) → preserves R (try_catch m h).
Proof.
  intros Hm Hh s. unfold try_catch. specialize (Hm s).
  destruct (m s) as [[a|e] s']; cbn in *; [done|].
  etrans; [exact Hm|apply Hh].
Qed.

Lemma preserves_if {A} (b : bool) (m1 m2 : ST S A) :
  preserves R m1 → preserves R m2 → preserves R (if b then m1 else m2).
Proof. by destruct b. Qed.
End Preserves.

(** ** Computations that always return *)

Section Total.
Context {S : Type}.

Lemma total_ret {A} (a : A) : total (mret a : ST S A).
Proof. done. Qed.

Lemma total_get : total (@get S).
Proof. done. Qed.

Lemma total_modify (f : S → S) : total (modify f).
Proof. done. Qed.

Lemma total_bind {A B} (m : ST S A) (f : A → ST S B) :
  total m → (∀ a, total (f a)) → total (m ≫= f).
Proof.
  intros Hm Hf s. unfold mbind, ST_bind. specialize (Hm s).
  destruct (m s) as [[a|e] s']; cbn in *; [apply Hf|done].
Qed.

Lemma total_try_catch {A} (m : ST S A) (h : JsError → ST S A) :
  (∀ e, total (h e)) → total (try_catch m h).
Proof.
  intros Hh s. unfold try_catch.
  destruct (m s) as [[a|e] s']; cbn; [done|apply Hh].
Qed.

Lemma total_if {A} (b : bool) (m1 m2 : ST S A) :
  total m1 → total m2 → total (if b then m1 else m2).
Proof. by destruct b. Qed.
End Total.

Lemma total_effect e : total (effect e).
Proof. done. Qed.

(** ** The trace only grows *)

Lemma add_trace_nil w : add_trace [] w = w.
Proof. destruct w. unfold add_trace. cbn. by rewrite app_nil_r. Qed.

Lemma add_trace_app d1 d2 w : add_trace d2 (add_trace d1 w) = add_trace (d1 ++ d2) w.
Proof. unfold add_trace. cbn. by rewrite app_assoc. Qed.

Lemma effect_add_trace e w : effect e w = (Returned tt, add_trace [e] w).
Proof. reflexivity. Qed.

#[local] Instance quiet_preorder : PreOrder quiet.
Proof.
  split.
  - intros w. exists []. by rewrite add_trace_nil.
  - intros w1 w2 w3 (d1 & -> & H1) (d2 & -> & H2).
    exists (d1 ++ d2). rewrite add_trace_app. split; [done|]. by apply Forall_app.
Qed.

Lemma quiet_effect e : background e → preserves quiet (effect e).
Proof. intros He w. exists [e]. split; [done|]. by constructor. Qed.

(** ** [gatherSystemState] returns, and is quiet *)

Lemma load_recent_schedules_quiet env projectId days acc :
  preserves quiet (load_recent_schedules env projectId days acc).
Proof.
  revert acc. induction days as [|i days IH]; intros acc; cbn [load_recent_schedules].
  - apply preserves_ret, _.
  - apply preserves_bind; [apply _| |done].
    apply preserves_try_catch; [apply _| |intros; apply preserves_ret, _].
    apply preserves_bind; [apply _|by apply quiet_effect|intros _].
    apply preserves_bind; [apply _|apply preserves_answer, _|intros [s|]];
      [destruct (truthy s)|]; apply preserves_ret, _.
Qed.

Lemma load_recent_schedules_total env projectId days acc :
  total (load_recent_schedules env projectId days acc).
Proof.
  revert acc. induction days as [|i days IH]; intros acc; cbn [load_recent_schedules].
  - done.
  - apply total_bind; [|done]. apply total_try_catch. done.
Qed.

Lemma calculateSystemMetrics_quiet learningHistory sevenDaysAgo now :
  preserves quiet (calculateSystemMetrics learningHistory sevenDaysAgo now).
Proof.
  unfold calculateSystemMetrics.
  destruct (metrics_body _ _ _ _) as [[[]|e] m].
  - apply preserves_ret, _.
  - apply preserves_bind; [apply _|by apply quiet_effect|intros; apply preserves_ret, _].
Qed.

Lemma calculateSystemMetrics_total learningHistory sevenDaysAgo now :
  total (calculateSystemMetrics learningHistory sevenDaysAgo now).
Proof.
  unfold calculateSystemMetrics.
  destruct (metrics_body _ _ _ _) as [[[]|e] m]; [done|].
  apply total_bind; done.
Qed.

Lemma returns_quietly {A} (m : M A) (w : World) :
  total m → preserves quiet m →
  ∃ a d, m w = (Returned a, add_trace d w) ∧ Forall background d.
Proof.
  intros Ht Hq. specialize (Ht w). destruct (Hq w) as (d & Hw & Hd).
  destruct (m w) as [[a|e] w']; cbn in *; [|done]. subst w'. eauto.
Qed.

(** Closes [Forall background d] for a list [d] built from literals and from
    lists known to be background. *)
Ltac background_list :=
  repeat first
    [ assumption
    | apply List.Forall_nil
    | apply Forall_app; split
    | apply List.Forall_cons; [exact I|] ].

Lemma logs_error_app d1 d2 : logs_error (d1 ++ d2) = logs_error d1 || logs_error d2.
Proof. apply existsb_app. Qed.

(** Closes [logs_error d = true] when a literal of [d] is an error log. *)
Ltac error_is_logged :=
  rewrite ?logs_error_app; cbn [logs_error existsb is_error_log orb];
  rewrite ?orb_true_r; reflexivity.

Lemma records_error_app d1 d2 :
  records_error (d1 ++ d2) = records_error d1 || records_error d2.
Proof. apply existsb_app. Qed.

(** Closes [records_error d = true] when a literal of [d] is a call of
    [logError]. *)
Ltac error_is_recorded :=
  rewrite ?records_error_app; cbn [records_error existsb is_logError orb];
  rewrite ?orb_true_r; reflexivity.

(** Brings the world reached so far to the form [add_trace d w]. *)
Ltac fold_trace :=
  repeat (progress (rewrite ?effect_add_trace; cbn [fst snd]; rewrite ?add_trace_app)).

Lemma gatherSystemState_spec env projectId w :
  ∃ systemState d,
    gatherSystemState env projectId w = (Returned systemState, add_trace d w)
    ∧ Forall background d
    ∧ (gather_fails env = true →
       is_Some (snap_error systemState) ∧ logs_error d = true).
Proof.
  unfold gatherSystemState, gather_body, gather_fails, try_catch, logger.
  unfold mbind, ST_bind, on_world, on_local, answer, modify. fold_trace.
  destruct (load_config env) as [config|e]; cbn [returned andb negb]; fold_trace;
    [|do 2 eexists; split; [reflexivity|]; split; [background_list|];
      intros _; split; [by eexists|]; error_is_logged].
  destruct (load_hta env) as [hta|e]; cbn [returned andb negb]; fold_trace;
    [|do 2 eexists; split; [reflexivity|]; split; [background_list|];
      intros _; split; [by eexists|]; error_is_logged].
  destruct (load_learning_history env) as [history|e]; cbn [returned andb negb]; fold_trace;
    [|do 2 eexists; split; [reflexivity|]; split; [background_list|];
      intros _; split; [by eexists|]; error_is_logged].
  match goal with |- context [load_recent_schedules ?e ?p ?ds ?acc ?w0] =>
    destruct (returns_quietly (load_recent_schedules e p ds acc) w0
                (load_recent_schedules_total _ _ _ _)
                (load_recent_schedules_quiet _ _ _ _)) as (schedules & d1 & -> & Hd1)
  end.
  fold_trace.
  match goal with |- context [calculateSystemMetrics ?h ?s ?n ?w0] =>
    destruct (returns_quietly (calculateSystemMetrics h s n) w0
                (calculateSystemMetrics_total _ _ _)
                (calculateSystemMetrics_quiet _ _ _)) as (metrics & d2 & -> & Hd2)
  end.
  fold_trace.
  do 2 eexists. split; [reflexivity|]. split; [background_list|done].
Qed.

(** ** The execution bodies, case by case *)

Lemma with_this_add_trace f d w : with_this f (add_trace d w) = add_trace d (with_this f w).
Proof. reflexivity. Qed.

Lemma with_host_add_trace f d w : with_host f (add_trace d w) = add_trace d (with_host f w).
Proof. reflexivity. Qed.

(** Symbolic execution of a body: [unfold_body] exposes the binds,
    [normalize] brings the world reached so far to the form
    [add_trace d (with_this f (with_host g w))], and [gather_step] replaces
    a call of [gatherSystemState] by its specification. *)
Ltac unfold_body :=
  unfold try_catch, logger, field;
  unfold mbind, ST_bind, mret, ST_ret, answer, modify, get, throw.

Ltac normalize :=
  repeat (progress (rewrite ?effect_add_trace, ?with_this_add_trace, ?with_host_add_trace;
                    cbn [fst snd]; rewrite ?add_trace_app)).

Ltac gather_step :=
  match goal with
  | |- context [gatherSystemState ?e ?p ?w0] =>
    let Hfail := fresh "Hfail" in
    let Hbg := fresh "Hbg" in
    destruct (gatherSystemState_spec e p w0) as (? & ? & -> & Hbg & Hfail)
  end.

Lemma provider_calls_app d1 d2 :
  provider_calls (d1 ++ d2) = (provider_calls d1 + provider_calls d2)%nat.
Proof. unfold provider_calls. by rewrite filter_app, length_app. Qed.

Lemma provider_calls_background d : Forall background d → provider_calls d = 0%nat.
Proof.
  unfold provider_calls. induction 1 as [|e d He _ IH]; [done|].
  rewrite filter_cons. destruct e; try done; cbn; by rewrite decide_False.
Qed.

(** What the body of an analysis job (every job but archiving) does. *)
Lemma analysis_body_spec k env w :
  analysis_job k = true →
  ∃ r w' d,
    perform k env w = (r, w')
    ∧ (returned (log_error env) = true → r = Returned tt)
    ∧ host w' = host w
    ∧ isRunning (this w') = isRunning (this w)
    ∧ intervals (this w') = intervals (this w)
    ∧ lastArchivingAttempt (this w') = lastArchivingAttempt (this w)
    ∧ trace w' = trace w ++ d
    ∧ (step_fails k env w = true → logs_error d = true)
    ∧ provider_calls d = (if returned (active_project env) then 1 else 0)%nat
    ∧ lastAnalysis (this w')
      = (if returned (active_project env) && returned (provider_answer k env)
         then <[job_key k := t_record env]> (lastAnalysis (this w))
         else lastAnalysis (this w))
    ∧ (aborts k env w = true → records_error d = true).
Proof.
  intros Hk.
  destruct k; try discriminate Hk; clear Hk;
    unfold perform, performStrategicAnalysis, performRiskDetection,
      performOpportunityScanning, performIdentityReflection,
      step_fails, aborts, provider_answer, job_key;
    unfold_body; normalize;
    (destruct (active_project env) as [p|e]; normalize;
     [gather_step; normalize;
      match goal with
      | |- context [background_analysis env] =>
        destruct (background_analysis env) as [[result|]|e]
      | |- context [background_reflection env] =>
        destruct (background_reflection env) as [[result|]|e]
      end; normalize|]);
    destruct (log_error env) as [[]|e'];
    (do 3 eexists; split; [reflexivity|]);
    cbn [this host trace add_trace with_this set_lastAnalysis isRunning intervals
         lastAnalysis lastArchivingAttempt returned andb orb negb];
    (split; [done|]); do 5 (split; [reflexivity|]);
    (split; [try (intros _; error_is_logged);
             rewrite ?orb_false_r; intros Hf; destruct (Hfail Hf) as [_ Hlogged];
             rewrite ?logs_error_app, Hlogged; reflexivity|]);
    (split; [|split; [reflexivity|try done; intros _; error_is_recorded]]);
    rewrite ?provider_calls_app, (provider_calls_background _ Hbg) || idtac;
    reflexivity.
Qed.

Lemma effects_of_spec {A} (m : M A) (w : World) (d : list Effect) :
  trace (exec m w) = trace w ++ d → effects_of m w = d.
Proof. unfold effects_of. intros ->. by rewrite drop_app_length. Qed.

Lemma archiving_body_spec env w :
  ∃ r w' d,
    performArchiving env w = (r, w')
    ∧ (returned (log_error env) = true → r = Returned tt)
    ∧ host w' = host w
    ∧ isRunning (this w') = isRunning (this w)
    ∧ intervals (this w') = intervals (this w)
    ∧ lastArchivingAttempt (this w')
      = (if throttled (lastArchivingAttempt (this w)) (t_entry env)
         then lastArchivingAttempt (this w) else Some (t_entry env))
    ∧ trace w' = trace w ++ d
    ∧ (step_fails data_archiving env w = true → logs_error d = true)
    ∧ provider_calls d = archiving_calls env w
    ∧ lastAnalysis (this w') = archiving_registry env w
    ∧ (aborts data_archiving env w = true → records_error d = true).
Proof.
  unfold aborts, performArchiving, step_fails, archiving_calls, archiving_registry.
  unfold_body; normalize.
  destruct (throttled _ _); normalize;
    [|destruct (active_project env) as [p|e]; normalize;
      [destruct (archive_needed env) as [[|]|e]; normalize;
       [destruct (archive_results env) as [results|e]; normalize
       |destruct (shouldLog _ _); normalize|]|]];
    try destruct (log_error env) as [[]|e'];
    (do 3 eexists; split; [reflexivity|]);
    cbn [this host trace add_trace with_this set_lastAnalysis set_lastArchivingAttempt
         isRunning intervals lastAnalysis lastArchivingAttempt returned andb orb negb];
    (split; [done|]); do 5 (split; [reflexivity|]);
    (split; [try done; intros _; error_is_logged|]);
    do 2 (split; [reflexivity|]);
    try done; intros _; error_is_recorded.
Qed.


(** An aborted run ends as the call of [logError] in its [catch] block
    ends. *)
Lemma perform_aborted_outcome k env w :
  aborts k env w = true → (perform k env w).1 = log_error env.
Proof.
  unfold aborts, step_fails, provider_answer.
  destruct k; cbn [perform];
    unfold performStrategicAnalysis, performRiskDetection, performOpportunityScanning,
      performIdentityReflection, performArchiving;
    unfold_body; normalize.
  1-4: destruct (active_project env) as [p|e]; normalize;
    [gather_step; normalize;
     match goal with
     | |- context [background_analysis ?a] =>
       destruct (background_analysis a) as [result|e]
     | |- context [background_reflection ?a] =>
       destruct (background_reflection a) as [result|e]
     end; normalize; [intros [=]|]|];
    done.
  destruct (throttled _ _); [intros [=]|]. normalize.
  destruct (active_project env) as [p|e]; normalize;
    [destruct (archive_needed env) as [[|]|e]; normalize;
     [destruct (archive_results env) as [results|e]; normalize; [intros [=]|]
     |intros [=]|]|];
    done.
Qed.




(** ** Manual trigger *)

(** C1, as amended: the five tags select the five bodies, and the trigger
    runs the selected body once.  For an analysis job it calls the provider
    exactly once when the active project resolves and not at all when it
    does not, and when the provider returns the registry entry of the job
    is set to the instant read then.  For archiving it calls the archiver
    as the throttle and the assessment allow (no call when throttled or
    without a project, one when the assessment says no or fails, two when
    archiving is performed) and the registry entry is set only by a
    performed archiving.  An unknown tag is logged as an error and runs no
    body. *)
Theorem triggerImmediateAnalysis_spec (analysisType : string) (env : Answers) (w : World) :
  let w' := exec (triggerImmediateAnalysis analysisType env) w in
  let d := effects_of (triggerImmediateAnalysis analysisType env) w in
  job_of_tag <$> ["strategic"; "risk"; "opportunity"; "identity"; "archive"]
  = Some <$> all_jobs
  ∧ match job_of_tag analysisType with
    | None =>
      w' = add_trace [Log LvlDebug ("Triggering immediate " +:+ analysisType +:+ " analysis");
                      Log LvlError ("Unknown analysis type: " +:+ analysisType)] w
    | Some data_archiving =>
      provider_calls d = archiving_calls env w
      ∧ lastAnalysis (this w') = archiving_registry env w
    | Some k =>
      provider_calls d = (if returned (active_project env) then 1 else 0)%nat
      ∧ lastAnalysis (this w')
        = if returned (active_project env) && returned (provider_answer k env)
          then <[job_key k := t_record env]> (lastAnalysis (this w))
          else lastAnalysis (this w)
    end.
Proof.
  intros w' d. split; [reflexivity|]. subst w' d.
  unfold effects_of, exec, triggerImmediateAnalysis. unfold_body. normalize.
  destruct (job_of_tag analysisType) as [k|]; [|by normalize].
  destruct (analysis_job k) eqn:Hk.
  - destruct (analysis_body_spec k env
                (add_trace [Log LvlDebug ("Triggering immediate " +:+ analysisType +:+ " analysis")] w) Hk)
      as (r & w' & d & -> & _ & _ & _ & _ & _ & Htrace & _ & Hcalls & Hreg & _).
    cbn [fst snd]. rewrite Htrace, Hreg. cbn [trace add_trace this].
    rewrite <-app_assoc, drop_app_length.
    rewrite provider_calls_app, Hcalls.
    by destruct k.
  - destruct k; try discriminate Hk.
    destruct (archiving_body_spec env
                (add_trace [Log LvlDebug ("Triggering immediate " +:+ analysisType +:+ " analysis")] w))
      as (r & w' & d & Hrun & _ & _ & _ & _ & _ & Htrace & _ & Hcalls & Hreg & _).
    cbn [perform]. rewrite Hrun. cbn [fst snd]. rewrite Htrace, Hreg. cbn [trace add_trace this].
    rewrite <-app_assoc, drop_app_length.
    by rewrite provider_calls_app, Hcalls.
Qed.

(** C1 as stated fails: a second archive trigger one second after the first
    is throttled and calls no provider at all, and a strategic trigger with
    no active project calls none either. *)
Lemma throttled_trigger_calls_no_provider :
  let w1 := exec (triggerImmediateAnalysis "archive" (calm_answers 1700000000000))
              (new_SystemClock false) in
  job_of_tag "archive" = Some data_archiving
  ∧ effects_of (triggerImmediateAnalysis "archive" (calm_answers 1700000001000)) w1
    = [Log LvlDebug "Triggering immediate archive analysis"; throttle_note]
  ∧ provider_calls
      (effects_of (triggerImmediateAnalysis "archive" (calm_answers 1700000001000)) w1)
    = 0%nat
  ∧ provider_calls
      (effects_of (triggerImmediateAnalysis "strategic" (no_project_answers 1700000000000))
         (new_SystemClock false))
    = 0%nat.
Proof. vm_compute. done. Qed.

(** ** The archiving throttle *)

Lemma throttled_true (last : option Z) (now t : Z) :
  last = Some t → t ≠ 0 → now - t < 30000 → throttled last now = true.
Proof.
  intros -> Ht Hgap. unfold throttled.
  apply andb_true_iff. split.
  - apply negb_true_iff. by apply Z.eqb_neq.
  - by apply Z.ltb_lt.
Qed.

Lemma throttled_false_gap (t now : Z) :
  t ≠ 0 → throttled (Some t) now = false → 30000 ≤ now - t.
Proof.
  intros Ht. unfold throttled.
  rewrite (proj2 (Z.eqb_neq t 0) Ht). cbn [negb andb].
  intros Hlt%Z.ltb_ge. lia.
Qed.

Lemma performArchiving_throttled env w :
  throttled (lastArchivingAttempt (this w)) (t_entry env) = true →
  performArchiving env w = (Returned tt, add_trace [throttle_note] w).
Proof.
  intros Hth. unfold performArchiving. unfold_body. normalize. by rewrite Hth.
Qed.

Lemma performArchiving_attempt env w :
  lastArchivingAttempt (this (exec (performArchiving env) w))
  = if throttled (lastArchivingAttempt (this w)) (t_entry env)
    then lastArchivingAttempt (this w) else Some (t_entry env).
Proof.
  unfold exec.
  destruct (archiving_body_spec env w) as (r & w' & d & -> & _ & _ & _ & _ & Hatt & _).
  exact Hatt.
Qed.

Lemma all_after_mono t t' passes : t ≤ t' → all_after t' passes → all_after t passes.
Proof.
  intros Hle Hall. unfold all_after in *.
  eapply Forall_impl; [exact Hall|]. intros x Hx. cbn in Hx. lia.
Qed.

Lemma archiving_passes_spaced envs w :
  Forall (λ env, t_entry env ≠ 0) envs →
  StronglySorted (λ t1 t2, 30000 ≤ t2 - t1) (archiving_passes envs w)
  ∧ ∀ t, lastArchivingAttempt (this w) = Some t → t ≠ 0 →
         all_after t (archiving_passes envs w).
Proof.
  intros Hnz. revert w.
  induction Hnz as [|env envs Hentry _ IH]; intros w; cbn [archiving_passes].
  { split; [constructor|]. intros; constructor. }
  destruct (IH (exec (performArchiving env) w)) as [Hsorted Hafter].
  rewrite performArchiving_attempt in Hafter.
  destruct (throttled (lastArchivingAttempt (this w)) (t_entry env)) eqn:Hth.
  - split; [done|]. intros t Ht Hnz. by apply Hafter.
  - specialize (Hafter (t_entry env) eq_refl Hentry). split.
    + constructor; [done|]. exact Hafter.
    + intros t Ht Hnz. rewrite Ht in Hth.
      pose proof (throttled_false_gap _ _ Hnz Hth) as Hgap.
      constructor; [done|].
      apply (all_after_mono _ (t_entry env)); [lia|done].
Qed.

(** ** The no-archiving-needed branch *)

(** C3, as amended: in the no-archiving-needed branch the last-check
    timestamp is set at every check, and the note is logged exactly when no
    check is recorded yet or the last recorded check, whether or not it
    logged the note, is more than 6 hours old. *)
Theorem no_archiving_needed_branch (env : Answers) (w : World) (projectId : string)
    (Hpass : throttled (lastArchivingAttempt (this w)) (t_entry env) = false)
    (Hproject : active_project env = Returned projectId)
    (Hneeded : archive_needed env = Returned false) :
  lastAnalysis (this (exec (performArchiving env) w))
  = <[data_archiving_check := t_check env]> (lastAnalysis (this w))
  ∧ logs_note (effects_of (performArchiving env) w)
    = match lastAnalysis (this w) !! data_archiving_check with
      | None => true
      | Some lastCheck => bool_decide (6 * 60 * 60 * 1000 < t_check env - lastCheck)
      end.
Proof.
  unfold effects_of, exec, performArchiving. unfold_body. normalize.
  rewrite Hpass. normalize. rewrite Hproject. normalize. rewrite Hneeded. normalize.
  cbn [this with_this lastAnalysis set_lastArchivingAttempt add_trace].
  unfold shouldLog, data_archiving_check.
  destruct (lastAnalysis (this w) !! "data_archiving_check") as [lastCheck|];
    [destruct (Z.ltb_spec (6 * 60 * 60 * 1000) (t_check env - lastCheck)) as [Hold|Hnew]|];
    normalize; cbn [this with_this lastAnalysis set_lastAnalysis trace add_trace];
    rewrite drop_app_length; (split; [reflexivity|]);
    cbn [logs_note existsb is_note orb];
    rewrite ?bool_decide_eq_true_2, ?bool_decide_eq_false_2 by (done || lia); done.
Qed.

Lemma no_archiving_needed_branch_witness :
  let w := new_SystemClock false in
  lastAnalysis (this (exec (performArchiving (calm_answers 100000)) w))
  = <[data_archiving_check := 100000]> (lastAnalysis (this w))
  ∧ logs_note (effects_of (performArchiving (calm_answers 100000)) w)
    = match lastAnalysis (this w) !! data_archiving_check with
      | None => true
      | Some lastCheck => bool_decide (6 * 60 * 60 * 1000 < 100000 - lastCheck)
      end.
Proof.
  intros w.
  exact (no_archiving_needed_branch (calm_answers 100000) w "p1"
           eq_refl eq_refl eq_refl).
Defined.

(** C3 as stated fails: of three checks at hours 0, 5 and 10 that find
    nothing to archive, the first logs the note; the second, 5 hours later,
    does not, but moves the last-check timestamp; the third is then less
    than 6 hours after the last check and stays silent, although the last
    note is 10 hours old. *)
Lemma note_suppressed_after_silent_check :
  let hour := 60 * 60 * 1000 in
  let t0 := 1700000000000 in
  let w1 := exec (performArchiving (calm_answers t0)) (new_SystemClock false) in
  let w2 := exec (performArchiving (calm_answers (t0 + 5 * hour))) w1 in
  logs_note (effects_of (performArchiving (calm_answers t0)) (new_SystemClock false)) = true
  ∧ logs_note (effects_of (performArchiving (calm_answers (t0 + 5 * hour))) w1) = false
  ∧ logs_note (effects_of (performArchiving (calm_answers (t0 + 10 * hour))) w2) = false
  ∧ bool_decide (6 * hour < (t0 + 10 * hour) - t0) = true
  ∧ lastAnalysis (this w2) !! data_archiving_check = Some (t0 + 5 * hour).
Proof. vm_compute. done. Qed.

(** ** Lifecycle *)

Lemma start_running config now w :
  isRunning (this w) = true →
  start config now w = (Returned tt, add_trace [Log LvlWarn "SystemClock already running"] w).
Proof. intros Hrun. unfold start. unfold_body. by rewrite Hrun. Qed.

(** [start] on a stopped clock in a terminal, ticks enabled: the five
    recurring timers, on a clock that holds none. *)
Lemma start_in_terminal config now w :
  isRunning (this w) = false → intervals (this w) = [] →
  active_intervals (host w) = [] → stdin_isTTY (host w) = true →
  cc_enableBackgroundTicks (merge_config defaultConfig config) = true →
  let w' := exec (start config now) w in
  isRunning (this w') = true
  ∧ intervals (this w') = scheduled_entries (next_timer (host w))
  ∧ active_intervals (host w')
    = scheduled_intervals (next_timer (host w)) (merge_config defaultConfig config)
  ∧ pending_timeouts (host w')
    = pending_timeouts (host w) ++ warm_up_runs (next_timer (host w))
  ∧ lastAnalysis (this w') = lastAnalysis (this w)
  ∧ stdin_isTTY (host w') = true.
Proof.
  destruct w as [[run ivs reg att] [tty n act pend] tr].
  destruct config as [a b c d e [[|]|]]; cbn; intros -> -> -> -> ?;
    try done; repeat (split; [done|]); (split; [|done]);
    unfold warm_up_runs;
    repeat match goal with
           | |- _ = ?l ++ ?x :: ?y :: ?r =>
             change (l ++ x :: y :: r) with (l ++ [x] ++ y :: r);
             rewrite (app_assoc l [x])
           end;
    reflexivity.
Qed.

(** [start] on a stopped clock that schedules nothing: not in a terminal,
    or ticks disabled. *)
Lemma start_without_ticks config now w :
  isRunning (this w) = false →
  stdin_isTTY (host w) && cc_enableBackgroundTicks (merge_config defaultConfig config) = false →
  let w' := exec (start config now) w in
  this w' = set_isRunning true (this w) ∧ host w' = host w.
Proof.
  destruct w as [[run ivs reg att] [tty n act pend] tr].
  destruct config as [a b c d e [[|]|]]; destruct tty; cbn; intros -> ?; done.
Qed.

Lemma clear_each_spec entries w :
  clear_each entries w
  = (Returned tt, add_trace (cancellations entries) (with_host (clear_all entries.*2) w)).
Proof.
  revert w. induction entries as [|[type id] entries IH]; intros w.
  { cbn. by rewrite add_trace_nil; destruct w as [? [] ?]. }
  cbn [clear_each]. unfold clearInterval. unfold_body. normalize.
  rewrite IH. normalize. reflexivity.
Qed.

Lemma stop_stopped now w : isRunning (this w) = false → stop now w = (Returned tt, w).
Proof. intros Hrun. unfold stop. unfold_body. by rewrite Hrun. Qed.

Lemma stop_running now w :
  isRunning (this w) = true →
  stop now w
  = (Returned tt,
     add_trace (cancellations (intervals (this w))
                ++ [Emit "system:clock_stopped" (ClockStopped now);
                    Log LvlInfo "SystemClock stopped"])
       (with_this (set_isRunning false)
          (with_this (set_intervals [])
             (with_host (clear_all (intervals (this w)).*2) w)))).
Proof.
  intros Hrun. unfold stop. unfold_body. rewrite Hrun. cbn [negb].
  rewrite clear_each_spec. normalize. reflexivity.
Qed.

Lemma filter_all {A} (P : A → Prop) `{!∀ x, Decision (P x)} (l : list A) :
  (∀ x, x ∈ l → P x) → filter P l = l.
Proof.
  induction l as [|x l IH]; intros Hall; [done|].
  rewrite filter_cons_True by (apply Hall; left).
  f_equal. apply IH. intros y Hy. apply Hall. by right.
Qed.

Lemma filter_none {A} (P : A → Prop) `{!∀ x, Decision (P x)} (l : list A) :
  (∀ x, x ∈ l → ¬ P x) → filter P l = [].
Proof.
  induction l as [|x l IH]; intros Hnone; [done|].
  rewrite filter_cons_False by (apply Hnone; left).
  apply IH. intros y Hy. apply Hnone. by right.
Qed.

Lemma active_intervals_clear_all ids h :
  active_intervals (clear_all ids h)
  = filter (λ t, timer_id t ∉ ids) (active_intervals h).
Proof.
  revert h. induction ids as [|id ids IH]; intros h; cbn.
  - symmetry. apply filter_all. intros t _. apply not_elem_of_nil.
  - unfold clear_all in IH. rewrite IH. cbn. rewrite list_filter_filter.
    apply list_filter_iff. intros t. rewrite not_elem_of_cons. tauto.
Qed.

Lemma tracked_ids entries timers :
  Forall2 tracks entries timers → timer_id <$> timers = entries.*2.
Proof.
  induction 1 as [|entry t entries timers (k & -> & _) _ IH]; [done|].
  cbn. by rewrite IH.
Qed.

Lemma stop_clears_timers now w :
  consistent w → active_intervals (host (exec (stop now) w)) = [].
Proof.
  intros (Htracks & _ & Hstopped). unfold exec.
  destruct (isRunning (this w)) eqn:Hrun.
  - rewrite stop_running by done. cbn [snd host add_trace with_this with_host].
    rewrite active_intervals_clear_all, <-(tracked_ids _ _ Htracks).
    apply filter_none. intros t Ht Hnot. apply Hnot.
    apply list_elem_of_fmap. by exists t.
  - rewrite stop_stopped by done. cbn [snd].
    rewrite (Hstopped eq_refl) in Htracks. by inversion Htracks.
Qed.

Lemma stop_consistent now w : consistent w → consistent (exec (stop now) w).
Proof.
  intros Hw. pose proof (stop_clears_timers now w Hw) as Hclear.
  unfold exec in *. destruct (isRunning (this w)) eqn:Hrun.
  - rewrite stop_running in * by done.
    cbn [snd host this add_trace with_this with_host set_isRunning set_intervals
         intervals isRunning] in *.
    unfold consistent. cbn [snd host this add_trace with_this with_host set_isRunning
                             set_intervals intervals isRunning].
    rewrite Hclear. split; [constructor|]. split; [constructor|done].
  - by rewrite stop_stopped by done.
Qed.

Lemma start_consistent config now w : consistent w → consistent (exec (start config now) w).
Proof.
  intros (Htracks & Hnodup & Hstopped).
  destruct (isRunning (this w)) eqn:Hrun.
  { unfold exec. rewrite start_running by done.
    unfold consistent. cbn [snd this host add_trace]. by rewrite Hrun. }
  specialize (Hstopped eq_refl).
  assert (active_intervals (host w) = []) as Hact.
  { rewrite Hstopped in Htracks. by inversion Htracks. }
  destruct (stdin_isTTY (host w) && cc_enableBackgroundTicks (merge_config defaultConfig config))
    eqn:Hticks.
  - apply andb_true_iff in Hticks as [Htty Hticks].
    destruct (start_in_terminal config now w Hrun Hstopped Hact Htty Hticks)
      as (Hrun' & Hint' & Hact' & _).
    unfold consistent. rewrite Hrun', Hint', Hact'. split; [|split; [|done]].
    + unfold scheduled_entries, scheduled_intervals.
      repeat (constructor; [eexists; split; [|reflexivity]; reflexivity|]).
      constructor.
    + cbn. apply (bool_decide_unpack _). by vm_compute.
  - destruct (start_without_ticks config now w Hrun Hticks) as [Hthis Hhost].
    unfold consistent. rewrite Hthis, Hhost. cbn. rewrite Hstopped, Hact.
    split; [constructor|]. split; [constructor|done].
Qed.

(** ** Everything but [start] and [stop] leaves the lifecycle alone *)

#[local] Instance steady_preorder : PreOrder steady.
Proof.
  split.
  - intros w. by repeat split.
  - intros w1 w2 w3 (? & ? & ? & ? & ?) (? & ? & ? & ? & ?).
    repeat split; try congruence. set_solver.
Qed.

Lemma steady_consistent w w' : steady w w' → consistent w → consistent w'.
Proof.
  intros (Hrun & Hint & Hact & _) (? & ? & ?).
  unfold consistent. by rewrite Hrun, Hint, Hact.
Qed.

Lemma steady_effect e : preserves steady (effect e).
Proof. intros w. by repeat split. Qed.

Lemma perform_steady k env : preserves steady (perform k env).
Proof.
  intros w. unfold steady.
  assert (∃ r w', perform k env w = (r, w')
                  ∧ host w' = host w
                  ∧ isRunning (this w') = isRunning (this w)
                  ∧ intervals (this w') = intervals (this w)
                  ∧ dom (lastAnalysis (this w)) ⊆ dom (lastAnalysis (this w')))
    as (r & w' & -> & Hhost & Hrun & Hint & Hreg).
  { destruct (analysis_job k) eqn:Hk.
    - destruct (analysis_body_spec k env w Hk)
        as (r & w' & d & ? & _ & ? & ? & ? & _ & _ & _ & _ & Hreg & _).
      exists r, w'. repeat (split; [done|]). rewrite Hreg.
      destruct (_ && _); [|done]. rewrite dom_insert_L. set_solver.
    - destruct k; try discriminate Hk.
      destruct (archiving_body_spec env w)
        as (r & w' & d & ? & _ & ? & ? & ? & _ & _ & _ & _ & Hreg & _).
      exists r, w'. repeat (split; [done|]). rewrite Hreg.
      unfold archiving_registry.
      destruct (throttled _ _); [done|].
      destruct (active_project env); [|done].
      destruct (archive_needed env) as [[|]|]; [destruct (archive_results env)|..];
        rewrite ?dom_insert_L; set_solver. }
  cbn [snd]. by rewrite Hhost, Hrun, Hint.
Qed.

Lemma setTimeout_steady jobs ms : preserves steady (setTimeout jobs ms).
Proof. intros w. by repeat split. Qed.

(** Proves [preserves steady m] by following the structure of [m]. *)
Ltac preserving :=
  repeat first
    [ exact _
    | assumption
    | apply steady_effect
    | apply setTimeout_steady
    | apply perform_steady
    | apply preserves_ret
    | apply preserves_get
    | apply preserves_if
    | apply preserves_bind; [| |intros ?]
    | apply preserves_try_catch; [| |intros ?] ].

Lemma invoke_all_steady jobs envs i : preserves steady (invoke_all jobs envs i).
Proof.
  revert i. induction jobs as [|k jobs IH]; intros i; cbn [invoke_all]; preserving.
  apply IH.
Qed.

Lemma step_steady o :
  match o with op_start _ _ | op_stop _ => True | _ => preserves steady (step o) end.
Proof.
  destruct o as [| |analysisType env|block|projectId|projectId tasksAdded|id envs|id envs];
    cbn [step].
  - exact I.
  - exact I.
  - unfold triggerImmediateAnalysis, logger. preserving.
    destruct (job_of_tag analysisType); preserving.
  - unfold onBlockCompleted, logger. preserving.
  - unfold onProjectCreated, logger. preserving.
  - unfold onStrategyEvolved, logger. preserving.
  - unfold interval_fires. preserving.
    destruct (find_timer _ _); preserving. apply invoke_all_steady.
  - unfold timeout_fires. preserving.
    destruct (find_timer _ _); preserving; [|apply invoke_all_steady].
    apply preserves_modify. intros w'. by repeat split.
Qed.

Lemma step_consistent o w : consistent w → consistent (exec (step o) w).
Proof.
  intros Hw. pose proof (step_steady o) as Hsteady.
  destruct o; cbn [step];
    try (by apply (steady_consistent w); [apply Hsteady|]).
  - by apply start_consistent.
  - by apply stop_consistent.
Qed.

Lemma new_SystemClock_consistent isTTY : consistent (new_SystemClock isTTY).
Proof. destruct isTTY; (split; [constructor|]; split; [constructor|done]). Qed.

Lemma run_consistent ops w : consistent w → consistent (run ops w).
Proof.
  revert w. induction ops as [|o ops IH]; intros w Hw; [done|].
  cbn. apply IH. by apply step_consistent.
Qed.

(** The registry loses no entry, whatever happens. *)
Lemma start_registry config now w :
  lastAnalysis (this (exec (start config now) w)) = lastAnalysis (this w).
Proof.
  destruct w as [[run ivs reg att] [tty n act pend] tr].
  destruct config as [a b c d e [[|]|]]; destruct run, tty; reflexivity.
Qed.

Lemma stop_registry now w :
  lastAnalysis (this (exec (stop now) w)) = lastAnalysis (this w).
Proof.
  unfold exec. destruct (isRunning (this w)) eqn:Hrun.
  - by rewrite stop_running.
  - by rewrite stop_stopped.
Qed.

Lemma step_registry o w :
  dom (lastAnalysis (this w)) ⊆ dom (lastAnalysis (this (exec (step o) w))).
Proof.
  pose proof (step_steady o) as Hsteady.
  destruct o; cbn [step]; try (by apply Hsteady).
  - by rewrite start_registry.
  - by rewrite stop_registry.
Qed.

Lemma run_registry ops w :
  dom (lastAnalysis (this w)) ⊆ dom (lastAnalysis (this (run ops w))).
Proof.
  revert w. induction ops as [|o ops IH]; intros w; [done|].
  cbn. etrans; [apply step_registry|apply IH].
Qed.

Lemma start_is_running config now w : isRunning (this (exec (start config now) w)) = true.
Proof.
  destruct w as [[run ivs reg att] [tty n act pend] tr].
  destruct config as [a b c d e [[|]|]]; destruct run, tty; reflexivity.
Qed.

Lemma untracked_job k entries timers :
  Forall2 tracks entries timers → job_key k ∉ entries.*1 →
  filter (λ t, k ∈ timer_jobs t) timers = [].
Proof.
  induction 1 as [|entry t entries timers (k' & -> & Hjobs) _ IH]; [done|].
  cbn [fmap list_fmap fst]. rewrite not_elem_of_cons. intros [Hne Hrest].
  rewrite filter_cons_False; [by apply IH|].
  rewrite Hjobs. intros ->%list_elem_of_singleton. done.
Qed.

Lemma one_timer_per_job k w :
  consistent w →
  (length (filter (λ t, k ∈ timer_jobs t) (active_intervals (host w))) ≤ 1)%nat.
Proof.
  intros (Htracks & Hnodup & _). revert Hnodup.
  induction Htracks as [|entry t entries timers (k' & -> & Hjobs) Hrest IH]; [cbn; lia|].
  cbn [fmap list_fmap fst]. intros [Hfresh Hnodup]%NoDup_cons.
  destruct (decide (k ∈ timer_jobs t)) as [Hk|Hk].
  - rewrite filter_cons_True by done.
    rewrite Hjobs in Hk. apply list_elem_of_singleton in Hk as ->.
    rewrite (untracked_job k' entries timers) by done. cbn. lia.
  - rewrite filter_cons_False by done. by apply IH.
Qed.

Lemma step_keeps_running o w :
  not_stop o = true → isRunning (this w) = true →
  isRunning (this (exec (step o) w)) = true.
Proof.
  intros Ho Hrun. pose proof (step_steady o) as Hsteady.
  destruct o; try discriminate Ho;
    [apply start_is_running|destruct (Hsteady w) as (Hsame & _); unfold exec; congruence..].
Qed.

Lemma run_keeps_running ops w :
  forallb not_stop ops = true → isRunning (this w) = true →
  isRunning (this (run ops w)) = true.
Proof.
  revert w. induction ops as [|o ops IH]; intros w Hops Hrun; [done|].
  cbn in Hops. apply andb_true_iff in Hops as [Ho Hops].
  cbn. apply IH; [done|]. by apply step_keeps_running.
Qed.

(** C4: once a clock is started, a second [start] with no [stop] in
    between, whatever else happened in between, does nothing but log a
    warning, so it creates no timer; and in every state a clock can reach
    there is at most one recurring timer per job. *)
Theorem start_twice_schedules_once (isTTY : bool) (before between : list Op)
    (config config' : Config) (now now' : Z) (k : JobKind)
    (Hbetween : forallb not_stop between = true) :
  let w := run between (exec (start config now) (run before (new_SystemClock isTTY))) in
  start config' now' w
  = (Returned tt, add_trace [Log LvlWarn "SystemClock already running"] w)
  ∧ (length (filter (λ t, k ∈ timer_jobs t)
               (active_intervals (host (run before (new_SystemClock isTTY))))) ≤ 1)%nat.
Proof.
  intros w. split.
  - apply start_running, run_keeps_running; [done|]. apply start_is_running.
  - apply one_timer_per_job, run_consistent, new_SystemClock_consistent.
Qed.

Lemma start_twice_schedules_once_witness :
  let config := {| strategicAnalysisHours := Some 1; riskDetectionHours := None;
                   opportunityScansHours := None; identityReflectionDays := None;
                   archivingDays := None; enableBackgroundTicks := None |} in
  let between := [op_trigger "risk" (calm_answers 2000); op_project_created "p2"] in
  let w := run between (exec (start config 1000) (run [] (new_SystemClock true))) in
  start config 3000 w
  = (Returned tt, add_trace [Log LvlWarn "SystemClock already running"] w)
  ∧ (length (filter (λ t, data_archiving ∈ timer_jobs t)
               (active_intervals (host (run [] (new_SystemClock true))))) ≤ 1)%nat.
Proof.
  intros config between.
  exact (start_twice_schedules_once true [] between config config 1000 3000
           data_archiving eq_refl).
Defined.

(** C5: whatever the clock went through before, after [stop] the status
    reports a stopped clock with no active interval, and the host holds no
    recurring timer; [stop] on a stopped clock changes nothing at all; and
    [stop] on a running clock first cancels the timers, one after the
    other, and only then publishes the clock-stopped event. *)
Theorem stop_then_status (isTTY : bool) (ops : list Op) (now : Z) :
  let w := run ops (new_SystemClock isTTY) in
  let w' := exec (stop now) w in
  status_isRunning (getStatus (this w')) = false
  ∧ activeIntervals (getStatus (this w')) = []
  ∧ active_intervals (host w') = []
  ∧ if isRunning (this w)
    then effects_of (stop now) w
         = cancellations (intervals (this w))
           ++ [Emit "system:clock_stopped" (ClockStopped now);
               Log LvlInfo "SystemClock stopped"]
    else w' = w.
Proof.
  intros w w'.
  assert (consistent w) as Hw by apply run_consistent, new_SystemClock_consistent.
  pose proof (stop_clears_timers now w Hw) as Hclear.
  subst w'. unfold effects_of, exec in *.
  destruct (isRunning (this w)) eqn:Hrun.
  - rewrite stop_running in * by done. cbn [snd] in *.
    repeat split; [done|].
    cbn [trace add_trace with_this with_host]. by rewrite drop_app_length.
  - rewrite stop_stopped in * by done. cbn [snd] in *.
    destruct Hw as (_ & _ & Hstopped).
    unfold getStatus. cbn. by rewrite Hrun, (Hstopped Hrun).
Qed.

(** C9: [stop] and [start] leave every entry of the registry as it is, the
    auxiliary check key included, and no sequence of operations ever takes
    a key out of the registry. *)
Theorem lifecycle_keeps_registry (w : World) (config : Config) (now : Z) (ops : list Op) :
  lastAnalysis (this (exec (stop now) w)) = lastAnalysis (this w)
  ∧ lastAnalysis (this (exec (start config now) w)) = lastAnalysis (this w)
  ∧ lastAnalysis (this (exec (start config now) (exec (stop now) w))) = lastAnalysis (this w)
  ∧ dom (lastAnalysis (this w)) ⊆ dom (lastAnalysis (this (run ops w))).
Proof.
  repeat split.
  - apply stop_registry.
  - apply start_registry.
  - by rewrite start_registry, stop_registry.
  - apply run_registry.
Qed.

(** ** The throttle along a run *)

(** The same holds along any run of the clock, whatever invokes the body. *)

#[local] Instance spaced_preorder : PreOrder spaced.
Proof.
  split.
  - intros w. split; [done|]. intros t Ht _. exists t. by split; [|left].
  - intros w1 w2 w3 [Hnz1 H1] [Hnz2 H2]. split; [by auto|].
    intros t Ht Hnz. destruct (H1 t Ht Hnz) as (t' & Ht' & Hgap1).
    assert (t' ≠ 0) as Hnz'.
    { intros ->. by apply Hnz1; [rewrite Ht; intros [= ->]|]. }
    destruct (H2 t' Ht' Hnz') as (t'' & Ht'' & Hgap2).
    exists t''. split; [done|]. lia.
Qed.

Lemma same_attempt_spaced w w' :
  lastArchivingAttempt (this w') = lastArchivingAttempt (this w) → spaced w w'.
Proof.
  intros Hsame. unfold spaced. rewrite Hsame. split; [done|].
  intros t Ht _. exists t. by split; [|left].
Qed.

Lemma perform_spaced k env : t_entry env ≠ 0 → preserves spaced (perform k env).
Proof.
  intros Hentry w.
  destruct (analysis_job k) eqn:Hk.
  - destruct (analysis_body_spec k env w Hk)
      as (r & w' & d & Hrun & _ & _ & _ & _ & Hatt & _).
    rewrite Hrun. by apply same_attempt_spaced.
  - destruct k; try discriminate Hk.
    destruct (archiving_body_spec env w)
      as (r & w' & d & Hrun & _ & _ & _ & _ & Hatt & _).
    cbn [perform]. rewrite Hrun. cbn [snd].
    destruct (throttled _ _) eqn:Hth; [by apply same_attempt_spaced|].
    unfold spaced. rewrite Hatt. split; [by intros _ [= ?]|].
    intros t Ht Hnz. exists (t_entry env). split; [done|right].
    rewrite Ht in Hth. by apply throttled_false_gap.
Qed.

Lemma invoke_all_spaced jobs envs i :
  (∀ j, t_entry (envs j) ≠ 0) → preserves spaced (invoke_all jobs envs i).
Proof.
  intros Henvs. revert i.
  induction jobs as [|k jobs IH]; intros i; cbn [invoke_all].
  - apply preserves_ret, _.
  - apply preserves_bind; [apply _| |intros _; apply IH].
    apply preserves_try_catch; [apply _|by apply perform_spaced|].
    intros e w. by apply same_attempt_spaced.
Qed.

Lemma start_attempt config now w :
  lastArchivingAttempt (this (exec (start config now) w)) = lastArchivingAttempt (this w).
Proof.
  destruct w as [[run ivs reg att] [tty n act pend] tr].
  destruct config as [a b c d e [[|]|]]; destruct run, tty; reflexivity.
Qed.

Lemma stop_attempt now w :
  lastArchivingAttempt (this (exec (stop now) w)) = lastArchivingAttempt (this w).
Proof.
  unfold exec. destruct (isRunning (this w)) eqn:Hrun.
  - by rewrite stop_running.
  - by rewrite stop_stopped.
Qed.

Lemma setTimeout_spaced jobs ms : preserves spaced (setTimeout jobs ms).
Proof. intros w. by apply same_attempt_spaced. Qed.

Lemma effect_spaced e : preserves spaced (effect e).
Proof. intros w. by apply same_attempt_spaced. Qed.

Lemma step_spaced o : after_epoch o → preserves spaced (step o).
Proof.
  destruct o as [config now|now|analysisType env|block|projectId|projectId tasksAdded
                |id envs|id envs]; cbn [step after_epoch]; intros Ho.
  - intros w. apply same_attempt_spaced, start_attempt.
  - intros w. apply same_attempt_spaced, stop_attempt.
  - unfold triggerImmediateAnalysis, logger.
    apply preserves_bind; [apply _|apply effect_spaced|intros _].
    destruct (job_of_tag analysisType); [by apply perform_spaced|apply effect_spaced].
  - unfold onBlockCompleted, logger. apply preserves_if; [|apply preserves_ret, _].
    apply preserves_bind; [apply _|apply effect_spaced|intros _; apply setTimeout_spaced].
  - unfold onProjectCreated, logger.
    apply preserves_bind; [apply _|apply effect_spaced|intros _; apply setTimeout_spaced].
  - unfold onStrategyEvolved, logger. apply preserves_if; [|apply preserves_ret, _].
    apply preserves_bind; [apply _|apply effect_spaced|intros _; apply setTimeout_spaced].
  - unfold interval_fires.
    apply preserves_bind; [apply _|apply preserves_get, _|intros w].
    destruct (find_timer _ _); [by apply invoke_all_spaced|apply preserves_ret, _].
  - unfold timeout_fires.
    apply preserves_bind; [apply _|apply preserves_get, _|intros w].
    destruct (find_timer _ _); [|apply preserves_ret, _].
    apply preserves_bind; [apply _| |intros _; by apply invoke_all_spaced].
    apply preserves_modify. intros w'. by apply same_attempt_spaced.
Qed.

Lemma run_spaced ops w : Forall after_epoch ops → spaced w (run ops w).
Proof.
  intros Hops. revert w. induction Hops as [|o ops Ho _ IH]; intros w; [reflexivity|].
  cbn. etrans; [by apply step_spaced|apply IH].
Qed.

(** C2, as amended: an invocation of the archiving body that starts less
    than 30 seconds after the recorded last attempt, which is the start of
    the last invocation that got past the throttle, returns at once: it
    only writes a debug line to the log, so it records no attempt, resolves
    no project, calls no archiver operation, updates no registry entry and
    publishes no event.  Hence, however often the body is invoked, the
    invocations that get past the throttle start at least 30 seconds apart
    from one another; and along any run of the clock, whether the body is
    invoked by a timer or by the manual trigger, two recorded attempts are
    the same attempt or at least 30 seconds apart (clock readings being
    after the epoch). *)
Theorem archiving_throttle (env : Answers) (w : World) (t : Z) (envs : list Answers)
    (ops1 ops2 : list Op)
    (Hlast : lastArchivingAttempt (this w) = Some t)
    (Hepoch : t ≠ 0)
    (Hgap : t_entry env - t < 30000)
    (Hentries : Forall (λ env, t_entry env ≠ 0) envs)
    (Hops : Forall after_epoch (ops1 ++ ops2)) :
  performArchiving env w = (Returned tt, add_trace [throttle_note] w)
  ∧ StronglySorted (λ t1 t2, 30000 ≤ t2 - t1) (archiving_passes envs w)
  ∧ ∀ t1 t2,
      lastArchivingAttempt (this (run ops1 w)) = Some t1 →
      lastArchivingAttempt (this (run ops2 (run ops1 w))) = Some t2 →
      t2 = t1 ∨ 30000 ≤ t2 - t1.
Proof.
  split; [|split].
  - apply performArchiving_throttled. by apply (throttled_true _ _ t).
  - by apply archiving_passes_spaced.
  - apply Forall_app in Hops as [Hops1 Hops2].
    intros t1 t2 Ht1 Ht2.
    destruct (run_spaced ops1 w Hops1) as [Hnz1 _].
    destruct (run_spaced ops2 (run ops1 w) Hops2) as [_ Hgap2].
    assert (t1 ≠ 0) as Hnz.
    { intros ->. by apply Hnz1; [rewrite Hlast; intros [= ->]|]. }
    destruct (Hgap2 t1 Ht1 Hnz) as (t' & Ht' & Hor).
    rewrite Ht2 in Ht'. by injection Ht' as ->.
Qed.

Lemma archiving_throttle_witness :
  let w := exec (performArchiving (calm_answers 100000)) (new_SystemClock false) in
  let ops1 := [op_trigger "archive" (calm_answers 131000)] in
  let ops2 := [op_stop 150000; op_trigger "archive" (calm_answers 200000)] in
  performArchiving (calm_answers 129000) w = (Returned tt, add_trace [throttle_note] w)
  ∧ StronglySorted (λ t1 t2, 30000 ≤ t2 - t1)
      (archiving_passes [calm_answers 129000; calm_answers 131000; calm_answers 140000] w)
  ∧ ∀ t1 t2,
      lastArchivingAttempt (this (run ops1 w)) = Some t1 →
      lastArchivingAttempt (this (run ops2 (run ops1 w))) = Some t2 →
      t2 = t1 ∨ 30000 ≤ t2 - t1.
Proof.
  intros w ops1 ops2.
  apply (archiving_throttle (calm_answers 129000) w 100000
           [calm_answers 129000; calm_answers 131000; calm_answers 140000] ops1 ops2).
  - reflexivity.
  - lia.
  - cbn. lia.
  - repeat constructor; cbn; lia.
  - repeat constructor; cbn; lia.
Defined.

(** C2 as stated fails: of three invocations at 100 s, 129 s and 131 s, the
    second is throttled and records nothing, so the third, which starts 2
    seconds after the second, is measured against the first and proceeds:
    it records its attempt, resolves the project and asks the archiver. *)
Lemma third_attempt_proceeds :
  let w1 := exec (performArchiving (calm_answers 100000)) (new_SystemClock false) in
  let w2 := exec (performArchiving (calm_answers 129000)) w1 in
  let w3 := exec (performArchiving (calm_answers 131000)) w2 in
  effects_of (performArchiving (calm_answers 129000)) w1 = [throttle_note]
  ∧ lastArchivingAttempt (this w2) = Some 100000
  ∧ t_entry (calm_answers 131000) - t_entry (calm_answers 129000) = 2000
  ∧ lastArchivingAttempt (this w3) = Some 131000
  ∧ effects_of (performArchiving (calm_answers 131000)) w2
    = [Log LvlDebug "SystemClock: Performing data archiving check...";
       RequireActiveProject; AssessArchiveNeeds "p1"]
  ∧ lastAnalysis (this w3) !! data_archiving_check = Some 131000.
Proof. vm_compute. done. Qed.

(** ** Embedded mode *)

Lemma start_embedded config now w :
  isRunning (this w) = false → stdin_isTTY (host w) = false →
  start config now w
  = (Returned tt,
     add_trace
       [Log LvlInfo "SystemClock starting in MCP mode (intervals disabled to prevent initialization timeout)";
        Emit "system:clock_started"
          (ClockStarted (set_enableBackgroundTicks false (merge_config defaultConfig config)) now);
        Log LvlInfo "SystemClock started in MCP mode - Event-driven analysis only"]
       (with_this (set_isRunning true) w)).
Proof.
  intros Hrun Htty. unfold start. unfold_body. rewrite Hrun, Htty. cbn [negb].
  normalize. cbn [cc_enableBackgroundTicks set_enableBackgroundTicks]. normalize.
  reflexivity.
Qed.

(** C10: when stdin is not a terminal, [start] turns the master switch off
    whatever the caller asked for: the configuration it publishes has
    [enableBackgroundTicks] false, and the host is left exactly as it was,
    with no recurring timer and no warm-up run for any job. *)
Theorem embedded_mode_schedules_nothing (config : Config) (now : Z) (w : World)
    (Hembedded : stdin_isTTY (host w) = false) :
  let w' := exec (start config now) w in
  host w' = host w
  ∧ intervals (this w') = intervals (this w)
  ∧ effects_of (start config now) w
    = if isRunning (this w)
      then [Log LvlWarn "SystemClock already running"]
      else [Log LvlInfo "SystemClock starting in MCP mode (intervals disabled to prevent initialization timeout)";
            Emit "system:clock_started"
              (ClockStarted
                 {| cc_strategicAnalysisHours :=
                      default 24 (strategicAnalysisHours config);
                    cc_riskDetectionHours := default 12 (riskDetectionHours config);
                    cc_opportunityScansHours := default 6 (opportunityScansHours config);
                    cc_identityReflectionDays := default 7 (identityReflectionDays config);
                    cc_archivingDays := default 30 (archivingDays config);
                    cc_enableBackgroundTicks := false |} now);
            Log LvlInfo "SystemClock started in MCP mode - Event-driven analysis only"].
Proof.
  intros w'. subst w'. unfold effects_of, exec.
  destruct (isRunning (this w)) eqn:Hrun.
  - rewrite start_running by done. cbn [snd host this trace add_trace].
    by rewrite drop_app_length.
  - rewrite start_embedded by done. cbn [snd host this trace add_trace with_this intervals
                                          set_isRunning].
    by rewrite drop_app_length.
Qed.

Lemma embedded_mode_schedules_nothing_witness :
  let config := {| strategicAnalysisHours := Some 1; riskDetectionHours := None;
                   opportunityScansHours := None; identityReflectionDays := None;
                   archivingDays := None; enableBackgroundTicks := Some true |} in
  let w' := exec (start config 1000) (new_SystemClock false) in
  host w' = host (new_SystemClock false)
  ∧ intervals (this w') = []
  ∧ effects_of (start config 1000) (new_SystemClock false)
    = [Log LvlInfo "SystemClock starting in MCP mode (intervals disabled to prevent initialization timeout)";
       Emit "system:clock_started"
         (ClockStarted
            {| cc_strategicAnalysisHours := 1; cc_riskDetectionHours := 12;
               cc_opportunityScansHours := 6; cc_identityReflectionDays := 7;
               cc_archivingDays := 30; cc_enableBackgroundTicks := false |} 1000);
       Log LvlInfo "SystemClock started in MCP mode - Event-driven analysis only"].
Proof.
  intros config.
  exact (embedded_mode_schedules_nothing config 1000 (new_SystemClock false) eq_refl).
Defined.

(** ** Event handlers *)

Lemma setTimeout_eq jobs ms w :
  setTimeout jobs ms w
  = (Returned tt,
     add_trace [SetTimeout (next_timer (host w)) ms jobs]
       (with_host (add_timeout {| timer_id := next_timer (host w);
                                  timer_ms := timer_delay ms;
                                  timer_jobs := jobs |}) w)).
Proof. unfold setTimeout. unfold_body. normalize. reflexivity. Qed.

(** C7: a completed block schedules one strategic analysis 5 seconds later
    exactly when it is a breakthrough or its engagement level is at least
    8; a created project always schedules, 10 seconds later, one strategic
    analysis and one opportunity scan; an evolved strategy schedules one
    risk detection 3 seconds later exactly when at least 3 tasks were
    added.  A handler does nothing else: it logs one line and sets the
    timer, the object is untouched, and no body runs before the timer
    fires. *)
Theorem event_handlers_schedule (block : Block) (projectId : string)
    (tasksAdded : option Z) (w : World) :
  let id := next_timer (host w) in
  let one_off ms jobs := {| timer_id := id; timer_ms := ms; timer_jobs := jobs |} in
  let engaged :=
    match opportunityContext block with
    | Some {| engagementLevel := Some level |} => bool_decide (8 ≤ level)
    | _ => false
    end in
  let evolved :=
    match tasksAdded with Some n => bool_decide (3 ≤ n) | None => false end in
  let after m := exec m w in
  (pending_timeouts (host (after (onBlockCompleted block)))
   = pending_timeouts (host w)
     ++ (if block_breakthrough block || engaged
         then [one_off 5000 [strategic_analysis]] else [])
   ∧ effects_of (onBlockCompleted block) w
     = if block_breakthrough block || engaged
       then [Log LvlDebug "Significant event detected - triggering immediate strategic analysis";
             SetTimeout id 5000 [strategic_analysis]]
       else [])
  ∧ (pending_timeouts (host (after (onProjectCreated projectId)))
     = pending_timeouts (host w)
       ++ [one_off 10000 [strategic_analysis; opportunity_scanning]]
     ∧ effects_of (onProjectCreated projectId) w
       = [Log LvlInfo ("New project detected: " +:+ projectId
                       +:+ " - scheduling initial analysis");
          SetTimeout id 10000 [strategic_analysis; opportunity_scanning]])
  ∧ (pending_timeouts (host (after (onStrategyEvolved projectId tasksAdded)))
     = pending_timeouts (host w)
       ++ (if evolved then [one_off 3000 [risk_detection]] else [])
     ∧ effects_of (onStrategyEvolved projectId tasksAdded) w
       = if evolved
         then [Log LvlDebug "Significant strategy evolution - triggering risk detection";
               SetTimeout id 3000 [risk_detection]]
         else [])
  ∧ Forall (λ m, this (after m) = this w
                 ∧ active_intervals (host (after m)) = active_intervals (host w))
      [onBlockCompleted block; onProjectCreated projectId;
       onStrategyEvolved projectId tasksAdded].
Proof.
  intros id one_off engaged evolved after. subst id one_off engaged evolved after.
  assert (significant block
          = block_breakthrough block
            || match opportunityContext block with
               | Some {| engagementLevel := Some level |} => bool_decide (8 ≤ level)
               | _ => false
               end) as Hsig.
  { unfold significant, at_least. f_equal.
    destruct (opportunityContext block) as [[[level|]]|]; cbn; [|done..].
    destruct (Z.leb_spec 8 level);
      [by rewrite bool_decide_eq_true_2|by rewrite bool_decide_eq_false_2 by lia]. }
  assert (at_least tasksAdded 3
          = match tasksAdded with Some n => bool_decide (3 ≤ n) | None => false end) as Hev.
  { unfold at_least. destruct tasksAdded as [n|]; [|done].
    destruct (Z.leb_spec 3 n);
      [by rewrite bool_decide_eq_true_2|by rewrite bool_decide_eq_false_2 by lia]. }
  rewrite <-Hsig, <-Hev. clear Hsig Hev.
  assert (∀ lvl jobs ms msg,
            let m := logger lvl msg ≫= λ _, setTimeout jobs ms in
            pending_timeouts (host (exec m w))
            = pending_timeouts (host w)
              ++ [{| timer_id := next_timer (host w); timer_ms := timer_delay ms;
                     timer_jobs := jobs |}]
            ∧ effects_of m w = [Log lvl msg; SetTimeout (next_timer (host w)) ms jobs]
            ∧ this (exec m w) = this w
            ∧ active_intervals (host (exec m w)) = active_intervals (host w)) as Hone.
  { intros lvl jobs ms msg m. subst m. unfold effects_of, exec, logger. unfold_body.
    normalize. rewrite setTimeout_eq. normalize.
    cbn [snd trace add_trace with_host]. by rewrite drop_app_length. }
  assert (pending_timeouts (host (exec (mret tt) w)) = pending_timeouts (host w) ++ []
          ∧ effects_of (mret tt) w = []
          ∧ this (exec (mret tt) w) = this w
          ∧ active_intervals (host (exec (mret tt) w)) = active_intervals (host w)) as Hnone.
  { unfold effects_of, exec. cbn. by rewrite app_nil_r, drop_all. }
  unfold onBlockCompleted, onProjectCreated, onStrategyEvolved.
  destruct (Hone LvlInfo [strategic_analysis; opportunity_scanning] 10000
              ("New project detected: " +:+ projectId +:+ " - scheduling initial analysis"))
    as (? & ? & ? & ?).
  destruct (Hone LvlDebug [strategic_analysis] 5000
              "Significant event detected - triggering immediate strategic analysis")
    as (? & ? & ? & ?).
  destruct (Hone LvlDebug [risk_detection] 3000
              "Significant strategy evolution - triggering risk detection")
    as (? & ? & ? & ?).
  destruct Hnone as (? & ? & ? & ?).
  destruct (significant block), (at_least tasksAdded 3);
    repeat split; try done; repeat (constructor; [done|]); constructor.
Qed.

(** * Further properties of the code *)

(** ** Snapshot assembly *)

Lemma load_recent_schedules_eq env projectId days acc w :
  load_recent_schedules env projectId days acc w
  = (Returned (acc ++ loaded_schedules env days),
     add_trace (day_loads env projectId days) w).
Proof.
  revert acc w. induction days as [|i days IH]; intros acc w.
  { cbn. by rewrite app_nil_r, add_trace_nil. }
  cbn [load_recent_schedules loaded_schedules day_loads omap list_omap fmap list_fmap].
  unfold_body. normalize.
  destruct (load_day env i) as [[schedule|]|e]; [destruct (truthy schedule)|..];
    normalize; rewrite IH; normalize; by rewrite <-?app_assoc.
Qed.

Lemma calculateSystemMetrics_eq learningHistory sevenDaysAgo now w :
  calculateSystemMetrics learningHistory sevenDaysAgo now w
  = (Returned (metrics_of learningHistory sevenDaysAgo now),
     add_trace (metrics_log learningHistory sevenDaysAgo now) w).
Proof.
  unfold calculateSystemMetrics, metrics_of, metrics_log.
  destruct (metrics_body _ _ _ _) as [[[]|e] m].
  - cbn. by rewrite add_trace_nil.
  - unfold_body. by normalize.
Qed.

Lemma gatherSystemState_eq env projectId w :
  let s0 := initial_snapshot env projectId (lastAnalysis (this w)) in
  let load key := LoadProjectData projectId key in
  let failed e := Log LvlError ("Error gathering system state: " +:+ e) in
  gatherSystemState env projectId w
  = match load_config env with
    | Threw e =>
      (Returned (set_snap_error e s0), add_trace [load "config.json"; failed e] w)
    | Returned config =>
      let s1 := set_snap_config config s0 in
      match load_hta env with
      | Threw e =>
        (Returned (set_snap_error e s1),
         add_trace [load "config.json"; load "hta.json"; failed e] w)
      | Returned hta =>
        let s2 := set_snap_htaData hta s1 in
        match load_learning_history env with
        | Threw e =>
          (Returned (set_snap_error e s2),
           add_trace [load "config.json"; load "hta.json";
                      load "learning_history.json"; failed e] w)
        | Returned history =>
          (Returned
             (set_snap_metrics
                (metrics_of history (t_sevenDaysAgo env) (t_metrics env))
                (set_snap_recentSchedules (loaded_schedules env (seq 0 7))
                   (set_snap_learningHistory history s2))),
           add_trace
             ([load "config.json"; load "hta.json"; load "learning_history.json"]
              ++ day_loads env projectId (seq 0 7)
              ++ metrics_log history (t_sevenDaysAgo env) (t_metrics env)) w)
        end
      end
    end.
Proof.
  intros s0 load failed. subst s0 load failed.
  unfold gatherSystemState, gather_body, initial_snapshot, try_catch, logger.
  unfold mbind, ST_bind, on_world, on_local, answer, modify. fold_trace.
  destruct (load_config env) as [config|e]; fold_trace; [|done].
  destruct (load_hta env) as [hta|e]; fold_trace; [|done].
  destruct (load_learning_history env) as [history|e]; fold_trace; [|done].
  rewrite load_recent_schedules_eq. fold_trace.
  rewrite calculateSystemMetrics_eq. fold_trace.
  rewrite <-!app_assoc. reflexivity.
Qed.

Lemma day_loads_background env projectId days :
  Forall background (day_loads env projectId days).
Proof. unfold day_loads. induction days; cbn; by constructor. Qed.

Lemma metrics_log_background learningHistory sevenDaysAgo now :
  Forall background (metrics_log learningHistory sevenDaysAgo now).
Proof.
  unfold metrics_log. destruct (metrics_body _ _ _ _) as [[[]|e] m]; repeat constructor.
Qed.

Lemma effects_of_add_trace {A} (m : M A) (r : Outcome A) (d : list Effect) (w : World) :
  m w = (r, add_trace d w) → effects_of m w = d.
Proof. intros Hm. apply effects_of_spec. unfold exec. by rewrite Hm. Qed.

(** [gatherSystemState] never throws, whatever the loads answer: it returns
    a snapshot for the project asked for, stamped with the clock reading and
    carrying the registry as it is, and it only loads and logs, leaving
    the object and the host as they are. *)
Theorem gatherSystemState_never_throws (env : Answers) (projectId : string) (w : World) :
  ∃ systemState,
    gatherSystemState env projectId w
    = (Returned systemState,
       add_trace (effects_of (gatherSystemState env projectId) w) w)
    ∧ Forall background (effects_of (gatherSystemState env projectId) w)
    ∧ snap_projectId systemState = projectId
    ∧ snap_timestamp systemState = t_snapshot env
    ∧ snap_lastAnalyses systemState = lastAnalysis (this w).
Proof.
  pose proof (gatherSystemState_eq env projectId w) as Heq. cbv zeta in Heq.
  pose proof (day_loads_background env projectId (seq 0 7)).
  destruct (load_config env) as [config|e];
    [destruct (load_hta env) as [hta|e];
     [destruct (load_learning_history env) as [history|e]|]|];
    rewrite (effects_of_add_trace _ _ _ _ Heq); eexists; (split; [exact Heq|]);
    (split; [|done]); background_list.
  apply metrics_log_background.
Qed.




(** The first of the three documents that fails to load ends the assembly:
    the snapshot gets that error as its marker, no metrics and no recent
    schedules, nothing further is loaded, and the failure is logged once.
    What was loaded before the failure stays in the snapshot: the
    configuration when the task tree or the learning history fails, the
    task tree when the learning history fails; what was not loaded is
    absent. *)
Theorem gatherSystemState_first_failure (env : Answers) (projectId : string) (w : World) :
  ∃ systemState,
    (gatherSystemState env projectId w).1 = Returned systemState
    ∧ match first_failure env projectId with
      | Some (e, loads) =>
        snap_error systemState = Some e
        ∧ snap_metrics systemState = None
        ∧ snap_recentSchedules systemState = []
        ∧ snap_learningHistory systemState = None
        ∧ snap_config systemState
          = match load_config env with Returned config => config | Threw _ => None end
        ∧ snap_htaData systemState
          = match load_config env, load_hta env with
            | Returned _, Returned hta => hta
            | _, _ => None
            end
        ∧ effects_of (gatherSystemState env projectId) w
          = loads ++ [Log LvlError ("Error gathering system state: " +:+ e)]
      | None => snap_error systemState = None
      end.
Proof.
  pose proof (gatherSystemState_eq env projectId w) as Heq. cbv zeta in Heq.
  unfold first_failure.
  destruct (load_config env) as [config|e];
    [destruct (load_hta env) as [hta|e];
     [destruct (load_learning_history env) as [history|e]|]|];
    rewrite ?(effects_of_add_trace _ _ _ _ Heq), Heq; eexists; (split; [reflexivity|]);
    done.
Qed.

(** ** Derived metrics, beyond the mean *)

Lemma filter_fmap_true {A} (f : A → bool) (l : list A) :
  length (filter (λ b, b = true) (f <$> l)) = length (filter (λ x, f x = true) l).
Proof.
  induction l as [|x l IH]; [done|].
  cbn [fmap list_fmap]. rewrite !filter_cons.
  destruct (f x) eqn:Hx;
    [rewrite !decide_True by done; cbn; by rewrite IH
    |rewrite !decide_False by done; by rewrite IH].
Qed.

Lemma metrics_of_history (topics : list Topic) (sevenDaysAgo now : Z) :
  topics ≠ [] →
  let m := metrics_of (history_of topics) sevenDaysAgo now in
  totalCompletedTasks m = length topics
  ∧ breakthroughCount m = length (filter (λ t, breakthrough t = true) topics)
  ∧ branchDiversity m = size (list_to_set (branch_or_default <$> topics) : gset string)
  ∧ momentum m = length (filter (λ t, completed_since sevenDaysAgo t = true) topics)
  ∧ lastActivityDays m
    = match last topics ≫= completedAt with
      | Some lastActivity => (now - lastActivity) / (1000 * 60 * 60 * 24)
      | None => 0
      end
  ∧ metrics_error m = None.
Proof.
  intros Hne m. subst m. unfold metrics_of, metrics_body, history_of.
  cbn [mbind option_bind completedTopics].
  assert (Hlen : bool_decide (0 < length (Some <$> topics))%nat = true).
  { apply bool_decide_eq_true. rewrite length_fmap. destruct topics; [done|cbn; lia]. }
  rewrite Hlen. unfold mbind, ST_bind, modify.
  rewrite !map_topics_Some, fmap_last.
  destruct (last topics) as [lastTopic|] eqn:Hlast; cbn [fmap option_fmap option_map];
    [destruct (completedAt lastTopic) eqn:Hdate|];
    cbn; rewrite ?Hdate, ?length_fmap, ?filter_fmap_true; done.
Qed.

Lemma well_formed_present (topics : list (option Topic)) :
  well_formed topics = true → topics = Some <$> omap id topics.
Proof.
  induction topics as [|[t|] topics IH]; cbn; [done| |done].
  intros Hwf. by rewrite <-IH.
Qed.

Lemma map_topics_null {S A} (property : string) (f : Topic → A)
    (topics : list (option Topic)) (s : S) :
  well_formed topics = false →
  map_topics property f topics s = (Threw (null_property_error property), s).
Proof.
  induction topics as [|[t|] topics IH]; cbn; [done| |done].
  intros Hwf. unfold mbind, ST_bind. by rewrite IH.
Qed.

Lemma metrics_of_null_entry (topics : list (option Topic)) (sevenDaysAgo now : Z) :
  well_formed topics = false →
  metrics_body (Some {| completedTopics := Some topics |}) sevenDaysAgo now zero_metrics
  = (Threw "Cannot read properties of null (reading 'difficulty')",
     {| totalCompletedTasks := length topics; averageDifficulty := 0%Q;
        breakthroughCount := 0; branchDiversity := 0; momentum := 0;
        lastActivityDays := 0; metrics_error := None |}).
Proof.
  intros Hwf. unfold metrics_body. cbn [mbind option_bind completedTopics].
  assert (Hlen : bool_decide (0 < length topics)%nat = true).
  { apply bool_decide_eq_true. destruct topics; [done|cbn; lia]. }
  rewrite Hlen. unfold mbind, ST_bind, modify.
  by rewrite map_topics_null.
Qed.

Lemma size_list_to_set_le (l : list string) :
  (size (list_to_set l : gset string) ≤ length l)%nat.
Proof.
  induction l as [|x l IH]; cbn; [by rewrite size_empty|].
  rewrite size_union_alt, size_singleton.
  pose proof (subseteq_size (list_to_set l ∖ {[x]}) (list_to_set l : gset string)) as Hle.
  specialize (Hle (subseteq_difference_l _ _ _ (reflexivity _))). lia.
Qed.

(** The counts of the metrics never exceed the number of completed items,
    for every learning history, well formed or not: breakthroughs, distinct
    branches and momentum are at most [totalCompletedTasks], which is the
    length of the list (0 when there is no list).  The computation never
    throws and touches nothing but the log. *)
Theorem calculateSystemMetrics_counts_bounded
    (learningHistory : option LearningHistory) (sevenDaysAgo now : Z) (w : World) :
  ∃ m, calculateSystemMetrics learningHistory sevenDaysAgo now w
       = (Returned m,
          add_trace (effects_of (calculateSystemMetrics learningHistory sevenDaysAgo now) w) w)
       ∧ totalCompletedTasks m
         = match learningHistory ≫= completedTopics with
           | Some topics => length topics
           | None => 0%nat
           end
       ∧ (breakthroughCount m ≤ totalCompletedTasks m)%nat
       ∧ (branchDiversity m ≤ totalCompletedTasks m)%nat
       ∧ (momentum m ≤ totalCompletedTasks m)%nat.
Proof.
  pose proof (calculateSystemMetrics_eq learningHistory sevenDaysAgo now w) as Heq.
  rewrite (effects_of_add_trace _ _ _ _ Heq). eexists. split; [exact Heq|].
  destruct learningHistory as [[[topics|]]|]; cbn [mbind option_bind completedTopics];
    [|by cbv..].
  destruct (well_formed topics) eqn:Hwf.
  - destruct (decide (omap id topics = [])) as [Hnil|Hne].
    + rewrite (well_formed_present topics Hwf), Hnil. by cbv.
    + rewrite (well_formed_present topics Hwf).
      destruct (metrics_of_history (omap id topics) sevenDaysAgo now Hne)
        as (Htotal & Hbreak & Hbranch & Hmomentum & _).
      fold (history_of (omap id topics)).
      rewrite Htotal, Hbreak, Hbranch, Hmomentum, length_fmap.
      split; [done|]. split; [apply length_filter|]. split; [|apply length_filter].
      etrans; [apply size_list_to_set_le|]. by rewrite length_fmap.
  - unfold metrics_of. rewrite (metrics_of_null_entry topics _ _ Hwf). cbn. lia.
Qed.

(** A [null] entry anywhere in the list of completed items makes the
    computation fail at its first pass over the list, which reads the
    [difficulty] of every item: the metrics keep the count of items,
    assigned before, every other metric stays 0, the message of the
    TypeError is marked on the metrics and logged once. *)
Theorem calculateSystemMetrics_null_entry
    (topics : list (option Topic)) (sevenDaysAgo now : Z) (w : World)
    (Hnull : well_formed topics = false) :
  calculateSystemMetrics (Some {| completedTopics := Some topics |}) sevenDaysAgo now w
  = (Returned {| totalCompletedTasks := length topics; averageDifficulty := 0%Q;
                 breakthroughCount := 0; branchDiversity := 0; momentum := 0;
                 lastActivityDays := 0;
                 metrics_error
                 := Some "Cannot read properties of null (reading 'difficulty')" |},
     add_trace
       [Log LvlError
          "Error calculating metrics: Cannot read properties of null (reading 'difficulty')"]
       w).
Proof.
  unfold calculateSystemMetrics. rewrite (metrics_of_null_entry topics _ _ Hnull).
  unfold_body. by normalize.
Qed.

Lemma calculateSystemMetrics_null_entry_witness :
  calculateSystemMetrics
    (Some {| completedTopics := Some [Some {| difficulty := Some 5; breakthrough := true;
                                               branch := None; completedAt := None |};
                                      None] |})
    0 20 (new_SystemClock false)
  = (Returned {| totalCompletedTasks := 2; averageDifficulty := 0%Q;
                 breakthroughCount := 0; branchDiversity := 0; momentum := 0;
                 lastActivityDays := 0;
                 metrics_error
                 := Some "Cannot read properties of null (reading 'difficulty')" |},
     add_trace
       [Log LvlError
          "Error calculating metrics: Cannot read properties of null (reading 'difficulty')"]
       (new_SystemClock false)).
Proof.
  exact (calculateSystemMetrics_null_entry
           [Some {| difficulty := Some 5; breakthrough := true; branch := None;
                    completedAt := None |}; None]
           0 20 (new_SystemClock false) eq_refl).
Defined.

Lemma calculateSystemMetrics_history (topics : list Topic) (sevenDaysAgo now : Z) (w : World) :
  topics ≠ [] →
  calculateSystemMetrics (history_of topics) sevenDaysAgo now w
  = (Returned (metrics_of (history_of topics) sevenDaysAgo now), w).
Proof.
  intros Hne. rewrite calculateSystemMetrics_eq. unfold metrics_log.
  destruct (metrics_body_whole topics sevenDaysAgo now zero_metrics Hne) as (m & -> & _).
  by rewrite add_trace_nil.
Qed.

(** The days since the last activity are counted from the item that stands
    last in the list, whatever the dates of the items before it (the list
    is not sorted): whole days, rounded down, between the clock reading and
    that item's completion, and 0 when that item has no completion date.
    Items without a completion date never count towards the momentum. *)
Theorem calculateSystemMetrics_last_activity
    (topics : list Topic) (lastTopic : Topic) (sevenDaysAgo now : Z) (w : World) :
  ∃ m, calculateSystemMetrics (history_of (topics ++ [lastTopic])) sevenDaysAgo now w
       = (Returned m, w)
       ∧ lastActivityDays m
         = match completedAt lastTopic with
           | Some lastActivity => (now - lastActivity) / 86400000
           | None => 0
           end
       ∧ (momentum m
          ≤ length (filter (λ t, is_Some (completedAt t)) (topics ++ [lastTopic])))%nat.
Proof.
  assert (topics ++ [lastTopic] ≠ []) as Hne by (by destruct topics).
  eexists. split; [by apply calculateSystemMetrics_history|].
  destruct (metrics_of_history (topics ++ [lastTopic]) sevenDaysAgo now Hne)
    as (_ & _ & _ & Hmomentum & Hlast & _).
  rewrite Hlast, Hmomentum, last_snoc. split; [done|].
  generalize (topics ++ [lastTopic]). intros l.
  induction l as [|t l IH]; [done|].
  rewrite !filter_cons.
  destruct (decide (completed_since sevenDaysAgo t = true)) as [Hsince|Hsince];
    destruct (decide (is_Some (completedAt t))) as [Hdate|Hdate]; cbn; try lia.
  exfalso. apply Hdate. unfold completed_since in Hsince.
  by destruct (completedAt t).
Qed.

Lemma list_to_set_constant (g : string) (l : list string) :
  l ≠ [] → Forall (λ x, x = g) l → (list_to_set l : gset string) = {[g]}.
Proof.
  intros Hne Hall. induction Hall as [|x l -> Hall IH]; [done|].
  cbn. destruct l as [|y l]; [apply union_empty_r_L|].
  rewrite IH by done. apply union_idemp_L.
Qed.

(** On a non-empty list the branch diversity is at least 1, and items that
    name no branch (no label, or an empty one) all count as the one branch
    "general": when no item names a branch the diversity is exactly 1. *)
Theorem calculateSystemMetrics_unlabelled_branches
    (topics : list Topic) (sevenDaysAgo now : Z) (w : World) (Hne : topics ≠ []) :
  ∃ m, calculateSystemMetrics (history_of topics) sevenDaysAgo now w = (Returned m, w)
       ∧ (1 ≤ branchDiversity m)%nat
       ∧ (Forall (λ t, branch t = None ∨ branch t = Some "") topics →
          branchDiversity m = 1%nat).
Proof.
  eexists. split; [by apply calculateSystemMetrics_history|].
  destruct (metrics_of_history topics sevenDaysAgo now Hne) as (_ & _ & -> & _).
  split.
  - destruct topics as [|t topics]; [done|]. cbn [fmap list_fmap list_to_set].
    rewrite size_union_alt, size_singleton. lia.
  - intros Hall. rewrite (list_to_set_constant "general"); [apply size_singleton| |].
    + by destruct topics.
    + apply Forall_fmap. eapply Forall_impl; [exact Hall|].
      intros t [Hb|Hb]; cbn; unfold branch_or_default; by rewrite Hb.
Qed.

Lemma calculateSystemMetrics_unlabelled_branches_witness :
  ∃ m, calculateSystemMetrics (history_of sample_topics) 0 1700000000000
         (new_SystemClock false)
       = (Returned m, new_SystemClock false)
       ∧ (1 ≤ branchDiversity m)%nat.
Proof.
  destruct (calculateSystemMetrics_unlabelled_branches sample_topics 0 1700000000000
              (new_SystemClock false) ltac:(discriminate))
    as (m & Hrun & Hone & _).
  exists m. split; [exact Hrun|exact Hone].
Defined.

(** ** Runs of the execution bodies *)

Lemma gatherSystemState_gathered env projectId w :
  gatherSystemState env projectId w
  = (Returned (gathered env projectId (lastAnalysis (this w))),
     add_trace (gather_effects env projectId) w).
Proof.
  rewrite gatherSystemState_eq. unfold gathered, gather_effects.
  by destruct (load_config env), (load_hta env), (load_learning_history env).
Qed.

Lemma gather_effects_background env projectId :
  Forall background (gather_effects env projectId).
Proof.
  pose proof (day_loads_background env projectId (seq 0 7)).
  pose proof (metrics_log_background).
  unfold gather_effects.
  destruct (load_config env), (load_hta env), (load_learning_history env);
    background_list; done.
Qed.

Lemma published_app d1 d2 : published (d1 ++ d2) = published d1 ++ published d2.
Proof. apply omap_app. Qed.

Lemma published_background d : Forall background d → published d = [].
Proof.
  induction 1 as [|e d He _ IH]; [done|]. cbn. fold (published d). rewrite IH.
  by destruct e.
Qed.

Lemma recorded_under_app c d1 d2 :
  recorded_under c (d1 ++ d2) = recorded_under c d1 ++ recorded_under c d2.
Proof. apply omap_app. Qed.

Lemma recorded_under_background c d : Forall background d → recorded_under c d = [].
Proof.
  induction 1 as [|e d He _ IH]; [done|]. cbn. fold (recorded_under c d). rewrite IH.
  by destruct e.
Qed.

(** A strategic analysis with an active project and a provider that
    returns a result: the snapshot handed to the provider is the one
    [gatherSystemState] returned, which carries the registry as it was
    when the body was entered, and the same snapshot is published with the
    insights.  The effects are, in this order: the project is resolved, the
    snapshot gathered, the provider called, the event published and the
    number of insights logged.  The body returns normally and the run is
    recorded in the registry under [strategic_analysis]. *)
Theorem performStrategicAnalysis_success (env : Answers) (w : World)
    (activeProject : string) (strategicInsights : Analysis)
    (Hproject : active_project env = Returned activeProject)
    (Hprovider : background_analysis env = Returned (Some strategicInsights)) :
  ∃ systemState loads,
    gatherSystemState env activeProject w = (Returned systemState, add_trace loads w)
    ∧ snap_lastAnalyses systemState = lastAnalysis (this w)
    ∧ performStrategicAnalysis env w
      = (Returned tt,
         add_trace
           ([Log LvlDebug "SystemClock: Performing strategic analysis...";
             RequireActiveProject]
            ++ loads
            ++ [PerformBackgroundAnalysis systemState "strategic_overview";
                Emit "system:strategic_insights"
                  (StrategicInsights activeProject (Some strategicInsights) systemState
                     "background_strategic" (t_emit env));
                Log LvlInfo ("Strategic analysis completed - "
                             +:+ pretty (length_or_0 (res_items strategicInsights))
                             +:+ " insights generated")])
           (with_this (set_lastAnalysis "strategic_analysis" (t_record env)) w)).
Proof.
  exists (gathered env activeProject (lastAnalysis (this w))),
         (gather_effects env activeProject).
  split; [apply gatherSystemState_gathered|].
  split.
  { unfold gathered, initial_snapshot.
    by destruct (load_config env), (load_hta env), (load_learning_history env). }
  unfold performStrategicAnalysis. unfold_body. normalize.
  rewrite Hproject. normalize.
  rewrite gatherSystemState_gathered. normalize.
  rewrite Hprovider. normalize.
  cbn [this add_trace]. by rewrite <-!app_assoc.
Qed.

Lemma performStrategicAnalysis_success_witness :
  ∃ systemState loads,
    gatherSystemState (eventful_answers 1000) "p1" (new_SystemClock true)
    = (Returned systemState, add_trace loads (new_SystemClock true))
    ∧ snap_lastAnalyses systemState = lastAnalysis (this (new_SystemClock true))
    ∧ performStrategicAnalysis (eventful_answers 1000) (new_SystemClock true)
      = (Returned tt,
         add_trace
           ([Log LvlDebug "SystemClock: Performing strategic analysis...";
             RequireActiveProject]
            ++ loads
            ++ [PerformBackgroundAnalysis systemState "strategic_overview";
                Emit "system:strategic_insights"
                  (StrategicInsights "p1" (Some (Build_Analysis (Some ["a"; "b"]) None))
                     systemState "background_strategic" (t_emit (eventful_answers 1000)));
                Log LvlInfo ("Strategic analysis completed - "
                             +:+ pretty (length_or_0 (Some ["a"; "b"]))
                             +:+ " insights generated")])
           (with_this (set_lastAnalysis "strategic_analysis" (t_record (eventful_answers 1000)))
              (new_SystemClock true))).
Proof.
  apply (performStrategicAnalysis_success (eventful_answers 1000) (new_SystemClock true)
           "p1" (Build_Analysis (Some ["a"; "b"]) None)); reflexivity.
Defined.

(** Reads the effects, the outcome and the final state off a run brought
    to the form [(r, add_trace d w')]. *)
Ltac read_run :=
  cbn [fst snd trace this host add_trace with_this set_lastAnalysis
       set_lastArchivingAttempt lastAnalysis lastArchivingAttempt];
  rewrite ?drop_app_length.

Ltac simpl_events :=
  rewrite ?published_app, ?recorded_under_app,
    ?(published_background _ (gather_effects_background _ _)),
    ?(recorded_under_background _ _ (gather_effects_background _ _));
  cbn [published recorded_under omap app mbind option_bind].

(** Risk detection and opportunity scanning with an active project and a
    provider that returns a result publish exactly one event each.  The
    list of the event is the list of the result, empty when the result has
    none; the level is the level of the result, replaced by [low]
    (risks) or [medium] (opportunities) when the result has none or an
    empty one, so the published level is never empty. *)
Theorem detection_events (env : Answers) (w : World)
    (activeProject : string) (result : Analysis)
    (Hproject : active_project env = Returned activeProject)
    (Hprovider : background_analysis env = Returned (Some result)) :
  ∃ items riskLevel priorityLevel,
    published (effects_of (performRiskDetection env) w)
    = [("system:risks_detected",
        RisksDetected activeProject items riskLevel (t_emit env))]
    ∧ published (effects_of (performOpportunityScanning env) w)
      = [("system:opportunities_detected",
          OpportunitiesDetected activeProject items priorityLevel (t_emit env))]
    ∧ items = match res_items result with Some l => l | None => [] end
    ∧ riskLevel ≠ "" ∧ priorityLevel ≠ ""
    ∧ match res_level result with
      | Some l => if decide (l = "")
                  then riskLevel = "low" ∧ priorityLevel = "medium"
                  else riskLevel = l ∧ priorityLevel = l
      | None => riskLevel = "low" ∧ priorityLevel = "medium"
      end.
Proof.
  exists (default [] (res_items result)),
         (string_or (res_level result) "low"), (string_or (res_level result) "medium").
  split; [|split].
  - unfold effects_of, exec, performRiskDetection. unfold_body. normalize.
    rewrite Hproject. normalize. rewrite gatherSystemState_gathered. normalize.
    rewrite Hprovider. normalize. read_run. by simpl_events.
  - unfold effects_of, exec, performOpportunityScanning. unfold_body. normalize.
    rewrite Hproject. normalize. rewrite gatherSystemState_gathered. normalize.
    rewrite Hprovider. normalize. read_run. by simpl_events.
  - split; [by destruct (res_items result)|].
    unfold string_or. destruct (res_level result) as [l|]; [|done].
    by destruct (decide (l = "")).
Qed.

Lemma detection_events_witness :
  ∃ items riskLevel priorityLevel,
    published (effects_of (performRiskDetection (eventful_answers 1000)) (new_SystemClock true))
    = [("system:risks_detected",
        RisksDetected "p1" items riskLevel (t_emit (eventful_answers 1000)))]
    ∧ published (effects_of (performOpportunityScanning (eventful_answers 1000))
                   (new_SystemClock true))
      = [("system:opportunities_detected",
          OpportunitiesDetected "p1" items priorityLevel (t_emit (eventful_answers 1000)))]
    ∧ items = ["a"; "b"]
    ∧ riskLevel ≠ "" ∧ priorityLevel ≠ ""
    ∧ riskLevel = "low" ∧ priorityLevel = "medium".
Proof.
  apply (detection_events (eventful_answers 1000) (new_SystemClock true) "p1"
           (Build_Analysis (Some ["a"; "b"]) None)); reflexivity.
Defined.

(** A provider that returns [null] for an active project.  The strategic
    analysis publishes its event, with [null] insights, before it fails on
    reading them; risk detection and opportunity scanning fail before they
    publish, yet after they have recorded the run in the registry; the
    identity reflection, which reads nothing from the result, publishes
    [null] and ends normally.  The three failures are handed to [logError]
    once each. *)
Theorem null_provider_result (env : Answers) (w : World) (activeProject : string)
    (Hproject : active_project env = Returned activeProject)
    (Hanalysis : background_analysis env = Returned None)
    (Hreflection : background_reflection env = Returned None) :
  ∃ systemState,
    (gatherSystemState env activeProject w).1 = Returned systemState
    ∧ published (effects_of (performStrategicAnalysis env) w)
      = [("system:strategic_insights",
          StrategicInsights activeProject None systemState "background_strategic"
            (t_emit env))]
    ∧ length (recorded_under "SystemClock.performStrategicAnalysis"
                (effects_of (performStrategicAnalysis env) w)) = 1%nat
    ∧ published (effects_of (performRiskDetection env) w) = []
    ∧ lastAnalysis (this (exec (performRiskDetection env) w))
      = <["risk_detection" := t_record env]> (lastAnalysis (this w))
    ∧ length (recorded_under "SystemClock.performRiskDetection"
                (effects_of (performRiskDetection env) w)) = 1%nat
    ∧ published (effects_of (performOpportunityScanning env) w) = []
    ∧ lastAnalysis (this (exec (performOpportunityScanning env) w))
      = <["opportunity_scanning" := t_record env]> (lastAnalysis (this w))
    ∧ length (recorded_under "SystemClock.performOpportunityScanning"
                (effects_of (performOpportunityScanning env) w)) = 1%nat
    ∧ performIdentityReflection env w
      = (Returned tt, exec (performIdentityReflection env) w)
    ∧ published (effects_of (performIdentityReflection env) w)
      = [("system:identity_insights", IdentityInsights activeProject None (t_emit env))]
    ∧ recorded_under "SystemClock.performIdentityReflection"
        (effects_of (performIdentityReflection env) w) = [].
Proof.
  exists (gathered env activeProject (lastAnalysis (this w))).
  split; [by rewrite gatherSystemState_gathered|].
  unfold effects_of, exec, performStrategicAnalysis, performRiskDetection,
    performOpportunityScanning, performIdentityReflection.
  unfold_body. normalize. rewrite Hproject. normalize.
  rewrite !gatherSystemState_gathered. normalize.
  rewrite Hanalysis, Hreflection. normalize. read_run.
  by repeat split; simpl_events.
Qed.

Lemma null_provider_result_witness :
  ∃ systemState,
    (gatherSystemState (null_result_answers 1000) "p1" (new_SystemClock true)).1
    = Returned systemState
    ∧ published (effects_of (performStrategicAnalysis (null_result_answers 1000))
                   (new_SystemClock true))
      = [("system:strategic_insights",
          StrategicInsights "p1" None systemState "background_strategic" 1000)]
    ∧ length (recorded_under "SystemClock.performStrategicAnalysis"
                (effects_of (performStrategicAnalysis (null_result_answers 1000))
                   (new_SystemClock true))) = 1%nat
    ∧ published (effects_of (performRiskDetection (null_result_answers 1000))
                   (new_SystemClock true)) = []
    ∧ lastAnalysis (this (exec (performRiskDetection (null_result_answers 1000))
                            (new_SystemClock true)))
      = <["risk_detection" := 1000]> (lastAnalysis (this (new_SystemClock true)))
    ∧ length (recorded_under "SystemClock.performRiskDetection"
                (effects_of (performRiskDetection (null_result_answers 1000))
                   (new_SystemClock true))) = 1%nat
    ∧ published (effects_of (performOpportunityScanning (null_result_answers 1000))
                   (new_SystemClock true)) = []
    ∧ lastAnalysis (this (exec (performOpportunityScanning (null_result_answers 1000))
                            (new_SystemClock true)))
      = <["opportunity_scanning" := 1000]> (lastAnalysis (this (new_SystemClock true)))
    ∧ length (recorded_under "SystemClock.performOpportunityScanning"
                (effects_of (performOpportunityScanning (null_result_answers 1000))
                   (new_SystemClock true))) = 1%nat
    ∧ performIdentityReflection (null_result_answers 1000) (new_SystemClock true)
      = (Returned tt,
         exec (performIdentityReflection (null_result_answers 1000)) (new_SystemClock true))
    ∧ published (effects_of (performIdentityReflection (null_result_answers 1000))
                   (new_SystemClock true))
      = [("system:identity_insights", IdentityInsights "p1" None 1000)]
    ∧ recorded_under "SystemClock.performIdentityReflection"
        (effects_of (performIdentityReflection (null_result_answers 1000))
           (new_SystemClock true)) = [].
Proof.
  apply (null_provider_result (null_result_answers 1000) (new_SystemClock true) "p1");
    reflexivity.
Defined.

(** A run that is aborted, because no project is active or the provider
    (for archiving: the archiver) throws, publishes no event and leaves
    the registry as it is; the error that aborted it is handed to
    [logError] once, under the name of the body; and the outcome of the body
    is the outcome of that call of [logError]: when it throws, so does the
    body. *)
Theorem aborted_run (k : JobKind) (env : Answers) (w : World)
    (Habort : aborts k env w = true) :
  ∃ error,
    abort_error k env = Some error
    ∧ (perform k env w).1 = log_error env
    ∧ published (effects_of (perform k env) w) = []
    ∧ recorded_under (job_context k) (effects_of (perform k env) w) = [error]
    ∧ lastAnalysis (this (exec (perform k env) w)) = lastAnalysis (this w).
Proof.
  revert Habort.
  unfold aborts, step_fails, abort_error, provider_answer, effects_of, exec.
  destruct k; cbn [perform job_context];
    unfold performStrategicAnalysis, performRiskDetection, performOpportunityScanning,
      performIdentityReflection, performArchiving;
    unfold_body; normalize.
  1-4: destruct (active_project env) as [p|e]; normalize;
    [rewrite gatherSystemState_gathered; normalize;
     match goal with
     | |- context [background_analysis ?a] =>
       destruct (background_analysis a) as [result|e]
     | |- context [background_reflection ?a] =>
       destruct (background_reflection a) as [result|e]
     end; normalize; [intros [=]|]|];
    intros _; exists e; read_run; by repeat split; simpl_events.
  destruct (throttled _ _); [intros [=]|]. normalize.
  destruct (active_project env) as [p|e]; normalize;
    [destruct (archive_needed env) as [[|]|e]; normalize;
     [destruct (archive_results env) as [results|e]; normalize; [intros [=]|]
     |intros [=]|]|];
    intros _; exists e; read_run; by repeat split; simpl_events.
Qed.

Lemma aborted_run_witness :
  ∃ error,
    abort_error risk_detection (failing_log_answers 1000) = Some error
    ∧ (perform risk_detection (failing_log_answers 1000) (new_SystemClock true)).1
      = Threw "EACCES"
    ∧ published (effects_of (perform risk_detection (failing_log_answers 1000))
                   (new_SystemClock true)) = []
    ∧ recorded_under (job_context risk_detection)
        (effects_of (perform risk_detection (failing_log_answers 1000))
           (new_SystemClock true)) = [error]
    ∧ lastAnalysis (this (exec (perform risk_detection (failing_log_answers 1000))
                            (new_SystemClock true)))
      = lastAnalysis (this (new_SystemClock true)).
Proof.
  apply (aborted_run risk_detection (failing_log_answers 1000) (new_SystemClock true)).
  reflexivity.
Defined.

(** ** Archiving *)

(** An archiving attempt that gets past the throttle is recorded before
    anything else is done, so it counts whether it succeeds or fails, and
    also when [logError] throws: an invocation less than 30 seconds after
    its start is a no-op apart from the debug line, and one 30 seconds or
    more after its start is recorded as the new attempt. *)
Theorem failed_attempt_throttles (env env' : Answers) (w : World)
    (Hpass : throttled (lastArchivingAttempt (this w)) (t_entry env) = false)
    (Hepoch : t_entry env ≠ 0) :
  let w1 := exec (performArchiving env) w in
  lastArchivingAttempt (this w1) = Some (t_entry env)
  ∧ (t_entry env' - t_entry env < 30000 →
     performArchiving env' w1 = (Returned tt, add_trace [throttle_note] w1))
  ∧ (30000 ≤ t_entry env' - t_entry env →
     lastArchivingAttempt (this (exec (performArchiving env') w1)) = Some (t_entry env')).
Proof.
  intros w1.
  assert (lastArchivingAttempt (this w1) = Some (t_entry env)) as Hattempt.
  { unfold w1. by rewrite performArchiving_attempt, Hpass. }
  split; [done|]. split.
  - intros Hgap. apply performArchiving_throttled.
    by apply (throttled_true _ _ (t_entry env)).
  - intros Hgap. rewrite performArchiving_attempt, Hattempt.
    unfold throttled.
    replace (t_entry env' - t_entry env <? 30000) with false
      by (symmetry; apply Z.ltb_ge; lia).
    by rewrite andb_false_r.
Qed.

Lemma failed_attempt_throttles_witness :
  lastArchivingAttempt
    (this (exec (performArchiving (broken_tree_answers 100000)) (new_SystemClock true)))
  = Some 100000
  ∧ (t_entry (calm_answers 101000) - t_entry (broken_tree_answers 100000) < 30000 →
     performArchiving (calm_answers 101000)
       (exec (performArchiving (broken_tree_answers 100000)) (new_SystemClock true))
     = (Returned tt,
        add_trace [throttle_note]
          (exec (performArchiving (broken_tree_answers 100000)) (new_SystemClock true))))
  ∧ (30000 ≤ t_entry (calm_answers 101000) - t_entry (broken_tree_answers 100000) →
     lastArchivingAttempt
       (this (exec (performArchiving (calm_answers 101000))
                (exec (performArchiving (broken_tree_answers 100000))
                   (new_SystemClock true))))
     = Some 101000).
Proof.
  apply (failed_attempt_throttles (broken_tree_answers 100000) (calm_answers 101000)
           (new_SystemClock true)); [reflexivity|done].
Defined.

(** An archiving run that gets past the throttle, with an active project,
    an assessment that asks for archiving and an archiver that returns.
    The effects are, in this order: the project is resolved, the assessment
    called, the archiving called for the same project, and the results
    published.  The body returns normally, the attempt is recorded and the
    run is recorded in the registry under [data_archiving]; the entry of
    the last check is left alone. *)
Theorem performArchiving_performed (env : Answers) (w : World)
    (activeProject : string) (archiveResults : Blob)
    (Hpass : throttled (lastArchivingAttempt (this w)) (t_entry env) = false)
    (Hproject : active_project env = Returned activeProject)
    (Hneeded : archive_needed env = Returned true)
    (Hresults : archive_results env = Returned archiveResults) :
  performArchiving env w
  = (Returned tt,
     add_trace
       [Log LvlDebug "SystemClock: Performing data archiving check...";
        RequireActiveProject;
        AssessArchiveNeeds activeProject;
        Log LvlInfo "Archive threshold reached - beginning archiving process";
        ArchiverPerformArchiving activeProject;
        Emit "system:archiving_completed"
          (ArchivingCompleted activeProject archiveResults (t_emit env));
        Log LvlInfo "Archiving completed successfully"]
       (with_this (set_lastAnalysis "data_archiving" (t_record env))
          (with_this (set_lastArchivingAttempt (t_entry env)) w)))
  ∧ lastAnalysis (this (exec (performArchiving env) w)) !! "data_archiving_check"
    = lastAnalysis (this w) !! "data_archiving_check".
Proof.
  assert (performArchiving env w
          = (Returned tt,
             add_trace
               [Log LvlDebug "SystemClock: Performing data archiving check...";
                RequireActiveProject;
                AssessArchiveNeeds activeProject;
                Log LvlInfo "Archive threshold reached - beginning archiving process";
                ArchiverPerformArchiving activeProject;
                Emit "system:archiving_completed"
                  (ArchivingCompleted activeProject archiveResults (t_emit env));
                Log LvlInfo "Archiving completed successfully"]
               (with_this (set_lastAnalysis "data_archiving" (t_record env))
                  (with_this (set_lastArchivingAttempt (t_entry env)) w)))) as Hrun.
  { unfold performArchiving. unfold_body. normalize. rewrite Hpass. normalize.
    rewrite Hproject. normalize. rewrite Hneeded. normalize.
    rewrite Hresults. by normalize. }
  split; [done|].
  unfold exec. rewrite Hrun. read_run. by rewrite lookup_insert_ne.
Qed.

Lemma performArchiving_performed_witness :
  performArchiving (eventful_answers 1000) (new_SystemClock true)
  = (Returned tt,
     add_trace
       [Log LvlDebug "SystemClock: Performing data archiving check...";
        RequireActiveProject;
        AssessArchiveNeeds "p1";
        Log LvlInfo "Archive threshold reached - beginning archiving process";
        ArchiverPerformArchiving "p1";
        Emit "system:archiving_completed"
          (ArchivingCompleted "p1" (JsonObject "archived") 1000);
        Log LvlInfo "Archiving completed successfully"]
       (with_this (set_lastAnalysis "data_archiving" 1000)
          (with_this (set_lastArchivingAttempt 1000) (new_SystemClock true))))
  ∧ lastAnalysis (this (exec (performArchiving (eventful_answers 1000))
                          (new_SystemClock true))) !! "data_archiving_check"
    = lastAnalysis (this (new_SystemClock true)) !! "data_archiving_check".
Proof.
  apply (performArchiving_performed (eventful_answers 1000) (new_SystemClock true)
           "p1" (JsonObject "archived")); reflexivity.
Defined.

(** ** The lifecycle over the reachable states *)

Lemma start_mode config now w :
  stdin_isTTY (host (exec (start config now) w)) = stdin_isTTY (host w).
Proof.
  destruct w as [[run ivs reg att] [tty n act pend] tr].
  destruct config as [a b c d e [[|]|]]; destruct run, tty; reflexivity.
Qed.

Lemma clear_all_mode ids h : stdin_isTTY (clear_all ids h) = stdin_isTTY h.
Proof.
  revert h. induction ids as [|id ids IH]; intros h; [done|].
  cbn. unfold clear_all in IH. by rewrite IH.
Qed.

Lemma clear_all_pending ids h : pending_timeouts (clear_all ids h) = pending_timeouts h.
Proof.
  revert h. induction ids as [|id ids IH]; intros h; [done|].
  cbn. unfold clear_all in IH. by rewrite IH.
Qed.

Lemma stop_mode now w :
  stdin_isTTY (host (exec (stop now) w)) = stdin_isTTY (host w).
Proof.
  unfold exec. destruct (isRunning (this w)) eqn:Hrun.
  - rewrite stop_running by done. cbn. apply clear_all_mode.
  - by rewrite stop_stopped.
Qed.

Lemma step_mode o w :
  stdin_isTTY (host (exec (step o) w)) = stdin_isTTY (host w).
Proof.
  pose proof (step_steady o) as Hsteady.
  destruct o; cbn [step]; try (by apply Hsteady).
  - apply start_mode.
  - apply stop_mode.
Qed.

Lemma step_in_mode isTTY o w :
  consistent w → in_mode isTTY w → in_mode isTTY (exec (step o) w).
Proof.
  intros Hw [Hmode Hembedded].
  split; [by rewrite step_mode|].
  intros ->. destruct (Hembedded eq_refl) as [Hint Hact].
  pose proof (step_steady o) as Hsteady.
  destruct o; cbn [step] in *;
    try (destruct (Hsteady w) as (_ & Hint' & Hact' & _);
         unfold exec; by rewrite Hint', Hact').
  - unfold exec. destruct (isRunning (this w)) eqn:Hrun.
    + by rewrite start_running.
    + by rewrite start_embedded.
  - split; [|by apply stop_clears_timers].
    unfold exec. destruct (isRunning (this w)) eqn:Hrun.
    + by rewrite stop_running.
    + by rewrite stop_stopped.
Qed.

Lemma run_in_mode isTTY ops :
  consistent (run ops (new_SystemClock isTTY))
  ∧ in_mode isTTY (run ops (new_SystemClock isTTY)).
Proof.
  induction ops as [|o ops IH] using rev_ind.
  - split; [apply new_SystemClock_consistent|]. by destruct isTTY.
  - unfold run in *. rewrite fold_left_app. cbn [fold_left].
    destruct IH as [Hw Hmode].
    split; [by apply step_consistent|by apply step_in_mode].
Qed.

Lemma tracked_keys entries timers :
  Forall2 tracks entries timers →
  Forall2 (λ key t, ∃ k, key = job_key k ∧ timer_jobs t = [k]) entries.*1 timers.
Proof.
  induction 1 as [|entry t entries timers (k & -> & Hk) _ IH]; cbn; constructor; eauto.
Qed.

(** What [getStatus] reports agrees with the timers of the host in every
    state a new clock can reach: the active intervals are the keys of the
    jobs whose recurring timers are active, in the same order and each at
    most once; a stopped clock reports none; and a clock in embedded mode
    never reports, nor holds, one. *)
Theorem getStatus_reflects_timers (isTTY : bool) (ops : list Op) :
  let w := run ops (new_SystemClock isTTY) in
  let status := getStatus (this w) in
  Forall2 (λ key t, ∃ k, key = job_key k ∧ timer_jobs t = [k])
    (activeIntervals status) (active_intervals (host w))
  ∧ NoDup (activeIntervals status)
  ∧ (status_isRunning status = false → activeIntervals status = [])
  ∧ (isTTY = false → activeIntervals status = [] ∧ active_intervals (host w) = [])
  ∧ uptime status = (if isRunning (this w) then "Active" else "Stopped").
Proof.
  intros w status.
  destruct (run_in_mode isTTY ops) as [(Htracks & Hnodup & Hstopped) [_ Hembedded]].
  fold w in Htracks, Hnodup, Hstopped, Hembedded.
  unfold status, getStatus. cbn.
  split; [by apply tracked_keys|]. split; [done|].
  split; [by intros ->%Hstopped|].
  split; [|done].
  intros Hmode. destruct (Hembedded Hmode) as [-> ->]. done.
Qed.

Lemma timer_delay_overflow ms : TIMEOUT_MAX < ms → timer_delay ms = 1.
Proof.
  intros Hms. unfold timer_delay.
  replace (ms <=? TIMEOUT_MAX) with false by (symmetry; apply Z.leb_gt; lia).
  by rewrite andb_false_r.
Qed.

(** Starting a stopped clock in a terminal, with background ticks enabled,
    from any state a new clock can reach: the clock then holds exactly five
    recurring timers, one per job, and the status lists the five keys.  The
    periods asked for are those of the merged configuration (hours for the
    strategic analysis, the risk detection and the opportunity scans, days
    for the identity reflection and the archiving), and each timer runs
    with the delay Node gives to that period: the period itself between
    1 ms and 2147483647 ms, and 1 ms otherwise.  So with an archiving
    period of 25 days or more, as with the default of 30 days, the
    archiving timer fires every millisecond.  Four warm-up runs are added,
    30, 60, 90 and 120 seconds ahead, none of them for archiving. *)
Theorem start_schedules (ops : list Op) (config : Config) (now : Z)
    (Hstopped : isRunning (this (run ops (new_SystemClock true))) = false)
    (Hticks : cc_enableBackgroundTicks (merge_config defaultConfig config) = true) :
  let w := run ops (new_SystemClock true) in
  let clockConfig := merge_config defaultConfig config in
  let w' := exec (start config now) w in
  activeIntervals (getStatus (this w')) = job_key <$> all_jobs
  ∧ timer_task <$> active_intervals (host w')
    = [ ([strategic_analysis],
         timer_delay (cc_strategicAnalysisHours clockConfig * 60 * 60 * 1000));
        ([risk_detection],
         timer_delay (cc_riskDetectionHours clockConfig * 60 * 60 * 1000));
        ([opportunity_scanning],
         timer_delay (cc_opportunityScansHours clockConfig * 60 * 60 * 1000));
        ([identity_reflection],
         timer_delay (cc_identityReflectionDays clockConfig * 24 * 60 * 60 * 1000));
        ([data_archiving],
         timer_delay (cc_archivingDays clockConfig * 24 * 60 * 60 * 1000)) ]
  ∧ (25 ≤ cc_archivingDays clockConfig →
     timer_task <$> last (active_intervals (host w')) = Some ([data_archiving], 1))
  ∧ timer_task <$> drop (length (pending_timeouts (host w))) (pending_timeouts (host w'))
    = [ ([strategic_analysis], 30000); ([risk_detection], 60000);
        ([opportunity_scanning], 90000); ([identity_reflection], 120000) ]
  ∧ take (length (pending_timeouts (host w))) (pending_timeouts (host w'))
    = pending_timeouts (host w).
Proof.
  intros w clockConfig w'.
  destruct (run_in_mode true ops) as [(Htracks & _ & Hnone) [Hmode _]].
  fold w in Htracks, Hnone, Hmode, Hstopped.
  specialize (Hnone Hstopped).
  assert (active_intervals (host w) = []) as Hact.
  { rewrite Hnone in Htracks. by inversion Htracks. }
  destruct (start_in_terminal config now w Hstopped Hnone Hact Hmode Hticks)
    as (_ & Hint & Htimers & Hpending & _).
  fold w' in Hint, Htimers, Hpending.
  unfold getStatus. cbn [activeIntervals].
  rewrite Hint, Htimers, Hpending, drop_app_length, take_app_length.
  split; [done|]. split; [done|]. split; [|done].
  intros Hdays. unfold scheduled_intervals, timer_task. cbn [last fmap option_fmap option_map
    timer_jobs timer_ms].
  fold clockConfig. rewrite timer_delay_overflow; [done|]. unfold TIMEOUT_MAX. lia.
Qed.

Lemma start_schedules_witness :
  activeIntervals
    (getStatus (this (exec (start no_config 1000)
                        (run [op_start no_config 10; op_stop 20] (new_SystemClock true)))))
  = job_key <$> all_jobs
  ∧ timer_task <$> active_intervals
                     (host (exec (start no_config 1000)
                              (run [op_start no_config 10; op_stop 20] (new_SystemClock true))))
    = [ ([strategic_analysis], 86400000); ([risk_detection], 43200000);
        ([opportunity_scanning], 21600000); ([identity_reflection], 604800000);
        ([data_archiving], 1) ]
  ∧ (25 ≤ 30 →
     timer_task <$> last (active_intervals
                            (host (exec (start no_config 1000)
                                     (run [op_start no_config 10; op_stop 20]
                                        (new_SystemClock true)))))
     = Some ([data_archiving], 1))
  ∧ timer_task <$> drop (length (pending_timeouts
                                   (host (run [op_start no_config 10; op_stop 20]
                                            (new_SystemClock true)))))
                     (pending_timeouts
                        (host (exec (start no_config 1000)
                                 (run [op_start no_config 10; op_stop 20]
                                    (new_SystemClock true)))))
    = [ ([strategic_analysis], 30000); ([risk_detection], 60000);
        ([opportunity_scanning], 90000); ([identity_reflection], 120000) ]
  ∧ take (length (pending_timeouts
                    (host (run [op_start no_config 10; op_stop 20] (new_SystemClock true)))))
      (pending_timeouts
         (host (exec (start no_config 1000)
                  (run [op_start no_config 10; op_stop 20] (new_SystemClock true)))))
    = pending_timeouts (host (run [op_start no_config 10; op_stop 20] (new_SystemClock true))).
Proof.
  apply (start_schedules [op_start no_config 10; op_stop 20] no_config 1000); reflexivity.
Defined.

(** Starting a stopped clock in a terminal with [enableBackgroundTicks]
    switched off: the clock is marked running and the start is published
    with the merged configuration, but no timer is created, so only the
    events of the bus and the manual trigger run an analysis. *)
Theorem start_without_background_ticks (config : Config) (now : Z) (w : World)
    (Hstopped : isRunning (this w) = false)
    (Hterminal : stdin_isTTY (host w) = true)
    (Hticks : enableBackgroundTicks config = Some false) :
  start config now w
  = (Returned tt,
     add_trace
       [Log LvlInfo "SystemClock starting with config";
        Emit "system:clock_started" (ClockStarted (merge_config defaultConfig config) now);
        Log LvlInfo "SystemClock started - Proactive reasoning engaged"]
       (with_this (set_isRunning true) w))
  ∧ cc_enableBackgroundTicks (merge_config defaultConfig config) = false.
Proof.
  assert (cc_enableBackgroundTicks (merge_config defaultConfig config) = false) as Hoff.
  { destruct config as [a b c d e ticks]. cbn in Hticks. by subst ticks. }
  split; [|done].
  unfold start. unfold_body. normalize.
  rewrite Hstopped, Hterminal. cbn [negb]. normalize.
  rewrite Hoff. by normalize.
Qed.

Lemma start_without_background_ticks_witness :
  start ticks_off 1000 (new_SystemClock true)
  = (Returned tt,
     add_trace
       [Log LvlInfo "SystemClock starting with config";
        Emit "system:clock_started" (ClockStarted (merge_config defaultConfig ticks_off) 1000);
        Log LvlInfo "SystemClock started - Proactive reasoning engaged"]
       (with_this (set_isRunning true) (new_SystemClock true)))
  ∧ cc_enableBackgroundTicks (merge_config defaultConfig ticks_off) = false.
Proof.
  apply (start_without_background_ticks ticks_off 1000 (new_SystemClock true)); reflexivity.
Defined.

Lemma stop_pending now w :
  pending_timeouts (host (exec (stop now) w)) = pending_timeouts (host w).
Proof.
  unfold exec. destruct (isRunning (this w)) eqn:Hrun.
  - rewrite stop_running by done. cbn. apply clear_all_pending.
  - by rewrite stop_stopped.
Qed.

(** [stop] cancels the recurring timers only: the one-off timers, that is
    the warm-up runs of [start] and the analyses scheduled by the events of
    the bus, stay pending, and one that fires after [stop] still runs its
    bodies.  The recorded archiving attempt is kept as well. *)
Theorem stop_keeps_one_off_timers (now : Z) (w : World) (id : nat) (t : Timer)
    (envs : nat → Answers)
    (Hpending : find_timer id (pending_timeouts (host w)) = Some t) :
  let w' := exec (stop now) w in
  pending_timeouts (host w') = pending_timeouts (host w)
  ∧ lastArchivingAttempt (this w') = lastArchivingAttempt (this w)
  ∧ timeout_fires id envs w'
    = invoke_all (timer_jobs t) envs 0 (with_host (remove_timeout id) w').
Proof.
  intros w'. split; [apply stop_pending|]. split.
  - unfold w', exec. destruct (isRunning (this w)) eqn:Hrun.
    + by rewrite stop_running.
    + by rewrite stop_stopped.
  - unfold timeout_fires. unfold_body. cbn [fst snd].
    unfold w'. by rewrite stop_pending, Hpending.
Qed.

Lemma stop_keeps_one_off_timers_witness :
  let w := exec (start no_config 10) (new_SystemClock true) in
  pending_timeouts (host (exec (stop 20) w)) = pending_timeouts (host w)
  ∧ lastArchivingAttempt (this (exec (stop 20) w)) = lastArchivingAttempt (this w)
  ∧ timeout_fires 1 (λ _, calm_answers 30010) (exec (stop 20) w)
    = invoke_all [strategic_analysis] (λ _, calm_answers 30010) 0
        (with_host (remove_timeout 1) (exec (stop 20) w)).
Proof.
  intros w.
  apply (stop_keeps_one_off_timers 20 w 1
           {| timer_id := 1; timer_ms := 30000; timer_jobs := [strategic_analysis] |}
           (λ _, calm_answers 30010)).
  reflexivity.
Defined.

(** ** The keys of the registry *)

#[local] Instance registered_preorder : PreOrder registered.
Proof.
  split.
  - intros w. apply union_subseteq_l.
  - intros w1 w2 w3 H12 H23. unfold registered in *.
    etrans; [exact H23|]. apply union_least; [exact H12|apply union_subseteq_r].
Qed.

Lemma registered_same w w' :
  lastAnalysis (this w') = lastAnalysis (this w) → registered w w'.
Proof. unfold registered. intros ->. apply union_subseteq_l. Qed.

Lemma registered_insert key t w w' :
  key ∈ registry_keys →
  lastAnalysis (this w') = <[key := t]> (lastAnalysis (this w)) → registered w w'.
Proof.
  unfold registered. intros Hkey ->. rewrite dom_insert_L.
  apply union_least; [|apply union_subseteq_l].
  etrans; [|apply union_subseteq_r]. by apply singleton_subseteq_l.
Qed.

Lemma job_key_registered k : job_key k ∈ registry_keys.
Proof.
  unfold registry_keys. apply elem_of_list_to_set.
  destruct k; apply (bool_decide_unpack _); by vm_compute.
Qed.

Lemma perform_registered k env : preserves registered (perform k env).
Proof.
  intros w.
  destruct (analysis_job k) eqn:Hk.
  - destruct (analysis_body_spec k env w Hk)
      as (r & w' & d & -> & _ & _ & _ & _ & _ & _ & _ & _ & Hreg & _).
    cbn [snd]. destruct (_ && _).
    + by apply (registered_insert (job_key k) (t_record env)); [apply job_key_registered|].
    + by apply registered_same.
  - destruct k; try discriminate Hk. cbn [perform].
    destruct (archiving_body_spec env w)
      as (r & w' & d & -> & _ & _ & _ & _ & _ & _ & _ & _ & Hreg & _).
    cbn [snd]. unfold archiving_registry in Hreg.
    destruct (throttled _ _); [by apply registered_same|].
    destruct (active_project env); [|by apply registered_same].
    destruct (archive_needed env) as [[|]|]; [destruct (archive_results env)|..];
      try (by apply registered_same).
    + by apply (registered_insert "data_archiving" (t_record env));
        [apply (job_key_registered data_archiving)|].
    + apply (registered_insert "data_archiving_check" (t_check env)); [|done].
      apply elem_of_list_to_set. apply (bool_decide_unpack _). by vm_compute.
Qed.

(** Proves [preserves registered m] by following the structure of [m]. *)
Ltac registering :=
  repeat first
    [ exact _
    | assumption
    | apply perform_registered
    | apply preserves_ret
    | apply preserves_get
    | apply preserves_if
    | apply preserves_bind; [| |intros ?]
    | apply preserves_try_catch; [| |intros ?]
    | (intros ?; apply registered_same; reflexivity) ].

Lemma invoke_all_registered jobs envs i : preserves registered (invoke_all jobs envs i).
Proof.
  revert i. induction jobs as [|k jobs IH]; intros i; cbn [invoke_all]; registering.
  apply IH.
Qed.

Lemma step_registered o : preserves registered (step o).
Proof.
  destruct o as [config now|now|analysisType env|block|projectId|projectId tasksAdded
                |id envs|id envs];
    cbn [step].
  - intros w. apply registered_same, start_registry.
  - intros w. apply registered_same, stop_registry.
  - unfold triggerImmediateAnalysis, logger. registering.
    destruct (job_of_tag analysisType); registering.
  - unfold onBlockCompleted, logger. registering.
  - unfold onProjectCreated, logger. registering.
  - unfold onStrategyEvolved, logger. registering.
  - unfold interval_fires. registering.
    destruct (find_timer _ _); registering. apply invoke_all_registered.
  - unfold timeout_fires. registering.
    destruct (find_timer _ _); registering. apply invoke_all_registered.
Qed.

(** Whatever happens to a clock, the registry only ever gets entries under
    six keys: the keys of the five jobs and [data_archiving_check].  So the
    [lastAnalyses] that [getStatus] reports for a clock that started out
    new hold no other key. *)
Theorem registry_holds_job_keys (isTTY : bool) (ops : list Op) (w : World) :
  dom (lastAnalysis (this (run ops w))) ⊆ dom (lastAnalysis (this w)) ∪ registry_keys
  ∧ dom (lastAnalyses (getStatus (this (run ops (new_SystemClock isTTY)))))
    ⊆ registry_keys
  ∧ elements registry_keys
    ≡ₚ ["strategic_analysis"; "risk_detection"; "opportunity_scanning";
        "identity_reflection"; "data_archiving"; "data_archiving_check"].
Proof.
  assert (∀ w, registered w (run ops w)) as Hrun.
  { induction ops as [|o ops IH]; intros w0; [reflexivity|].
    cbn. etrans; [apply step_registered|apply IH]. }
  split; [apply Hrun|]. split.
  - specialize (Hrun (new_SystemClock isTTY)). unfold registered in Hrun.
    replace (dom (lastAnalysis (this (new_SystemClock isTTY)))) with (∅ : gset string)
      in Hrun by (destruct isTTY; symmetry; apply dom_empty_L).
    unfold getStatus. cbn [lastAnalyses]. by rewrite union_empty_l_L in Hrun.
  - unfold registry_keys, data_archiving_check. cbn [fmap list_fmap all_jobs job_key].
    rewrite elements_list_to_set.
    + by rewrite (Permutation_cons_append _ "data_archiving_check").
    + apply (bool_decide_unpack _). by vm_compute.
Qed.

(** ** Rejections *)

(** When a run is aborted and [logError] throws as well, the body throws
    that second error.  A timer callback does not await the body, so the
    error becomes an unhandled rejection and the callback itself returns;
    the manual trigger does await it and throws the error to its caller. *)
Theorem rejected_body (k : JobKind) (env : Answers) (w : World) (error : JsError)
    (Habort : aborts k env w = true)
    (Hlog : log_error env = Threw error) :
  invoke_all [k] (λ _, env) 0 w
  = (Returned tt, add_trace [UnhandledRejection error] (exec (perform k env) w))
  ∧ ∀ analysisType, job_of_tag analysisType = Some k →
      (triggerImmediateAnalysis analysisType env w).1 = Threw error.
Proof.
  split.
  - pose proof (perform_aborted_outcome k env w Habort) as Hout.
    rewrite Hlog in Hout. unfold exec.
    cbn [invoke_all]. unfold_body.
    destruct (perform k env w) as [r w1]. cbn [fst snd] in *. subst r.
    by normalize.
  - intros analysisType Htag.
    unfold triggerImmediateAnalysis. unfold_body. normalize. rewrite Htag.
    rewrite <-Hlog. apply perform_aborted_outcome. exact Habort.
Qed.

Lemma rejected_body_witness :
  invoke_all [strategic_analysis] (λ _, failing_log_answers 1000) 0 (new_SystemClock true)
  = (Returned tt,
     add_trace [UnhandledRejection "EACCES"]
       (exec (perform strategic_analysis (failing_log_answers 1000)) (new_SystemClock true)))
  ∧ ∀ analysisType, job_of_tag analysisType = Some strategic_analysis →
      (triggerImmediateAnalysis analysisType (failing_log_answers 1000)
         (new_SystemClock true)).1 = Threw "EACCES".
Proof.
  apply (rejected_body strategic_analysis (failing_log_answers 1000) (new_SystemClock true)
           "EACCES"); reflexivity.
Defined.

(** ** What the provider is asked *)

Lemma filter_provider_calls_background d :
  Forall background d → filter (λ e, is_provider_call e = true) d = [].
Proof.
  induction 1 as [|e d He _ IH]; [done|].
  rewrite filter_cons, IH. destruct e; try done; cbn; by rewrite decide_False.
Qed.

(** With an active project, every analysis body calls its provider exactly
    once, whatever the provider answers, and hands it the snapshot that
    [gatherSystemState] returned for the project, also when a load failed
    and the snapshot carries the error marker.  The reasoning engine is
    asked for a [strategic_overview], a [risk_detection] and an
    [opportunity_detection]; the identity engine gets the snapshot alone. *)
Theorem provider_request (env : Answers) (w : World) (activeProject : string)
    (Hproject : active_project env = Returned activeProject) :
  ∃ systemState,
    (gatherSystemState env activeProject w).1 = Returned systemState
    ∧ (gather_fails env = true → is_Some (snap_error systemState))
    ∧ filter (λ e, is_provider_call e = true) (effects_of (performStrategicAnalysis env) w)
      = [PerformBackgroundAnalysis systemState "strategic_overview"]
    ∧ filter (λ e, is_provider_call e = true) (effects_of (performRiskDetection env) w)
      = [PerformBackgroundAnalysis systemState "risk_detection"]
    ∧ filter (λ e, is_provider_call e = true) (effects_of (performOpportunityScanning env) w)
      = [PerformBackgroundAnalysis systemState "opportunity_detection"]
    ∧ filter (λ e, is_provider_call e = true) (effects_of (performIdentityReflection env) w)
      = [PerformBackgroundReflection systemState].
Proof.
  exists (gathered env activeProject (lastAnalysis (this w))).
  split; [by rewrite gatherSystemState_gathered|]. split.
  { unfold gather_fails, gathered.
    destruct (load_config env), (load_hta env), (load_learning_history env);
      cbn; try done; by eexists. }
  pose proof (filter_provider_calls_background _
                (gather_effects_background env activeProject)) as Hloads.
  unfold effects_of, exec, performStrategicAnalysis, performRiskDetection,
    performOpportunityScanning, performIdentityReflection.
  unfold_body. normalize. rewrite Hproject. normalize.
  rewrite !gatherSystemState_gathered. normalize.
  destruct (background_analysis env) as [[analysis|]|e1],
           (background_reflection env) as [reflection|e2];
    normalize; read_run; rewrite ?filter_app, ?Hloads; done.
Qed.

Lemma provider_request_witness :
  ∃ systemState,
    (gatherSystemState (broken_tree_answers 1000) "p1" (new_SystemClock true)).1
    = Returned systemState
    ∧ (gather_fails (broken_tree_answers 1000) = true → is_Some (snap_error systemState))
    ∧ filter (λ e, is_provider_call e = true)
        (effects_of (performStrategicAnalysis (broken_tree_answers 1000))
           (new_SystemClock true))
      = [PerformBackgroundAnalysis systemState "strategic_overview"]
    ∧ filter (λ e, is_provider_call e = true)
        (effects_of (performRiskDetection (broken_tree_answers 1000)) (new_SystemClock true))
      = [PerformBackgroundAnalysis systemState "risk_detection"]
    ∧ filter (λ e, is_provider_call e = true)
        (effects_of (performOpportunityScanning (broken_tree_answers 1000))
           (new_SystemClock true))
      = [PerformBackgroundAnalysis systemState "opportunity_detection"]
    ∧ filter (λ e, is_provider_call e = true)
        (effects_of (performIdentityReflection (broken_tree_answers 1000))
           (new_SystemClock true))
      = [PerformBackgroundReflection systemState].
Proof.
  apply (provider_request (broken_tree_answers 1000) (new_SystemClock true) "p1").
  reflexivity.
Defined.

(** ** The schedulers *)

(** Of the five schedulers only [scheduleStrategicAnalysis] and
    [scheduleArchiving] look at the mode of the process: in embedded mode
    they log a line and create no timer.  The three others create their
    recurring timer and their warm-up run in any mode; in embedded mode it
    is [start] alone that keeps them from being called.  The recurring
    timer runs with the delay Node gives to the period asked for: the
    period itself between 1 ms and 2147483647 ms, and 1 ms otherwise. *)
Theorem schedulers_in_embedded_mode (hours days : Z) (w : World)
    (Hembedded : stdin_isTTY (host w) = false) :
  scheduleStrategicAnalysis hours w
  = (Returned tt,
     add_trace [Log LvlInfo "Strategic analysis scheduled for MCP mode (event-driven only)"] w)
  ∧ scheduleArchiving days w
    = (Returned tt,
       add_trace [Log LvlInfo "Data archiving scheduled for MCP mode (event-driven only)"] w)
  ∧ (let w' := exec (scheduleRiskDetection hours) w in
     timer_task <$> active_intervals (host w')
     = (timer_task <$> active_intervals (host w))
       ++ [([risk_detection], timer_delay (hours * 60 * 60 * 1000))]
     ∧ timer_task <$> pending_timeouts (host w')
       = (timer_task <$> pending_timeouts (host w)) ++ [([risk_detection], 60000)])
  ∧ (let w' := exec (scheduleOpportunityScans hours) w in
     timer_task <$> active_intervals (host w')
     = (timer_task <$> active_intervals (host w))
       ++ [([opportunity_scanning], timer_delay (hours * 60 * 60 * 1000))]
     ∧ timer_task <$> pending_timeouts (host w')
       = (timer_task <$> pending_timeouts (host w)) ++ [([opportunity_scanning], 90000)])
  ∧ (let w' := exec (scheduleIdentityReflection days) w in
     timer_task <$> active_intervals (host w')
     = (timer_task <$> active_intervals (host w))
       ++ [([identity_reflection], timer_delay (days * 24 * 60 * 60 * 1000))]
     ∧ timer_task <$> pending_timeouts (host w')
       = (timer_task <$> pending_timeouts (host w)) ++ [([identity_reflection], 120000)])
  ∧ (1 ≤ hours ≤ 596 → timer_delay (hours * 60 * 60 * 1000) = hours * 60 * 60 * 1000)
  ∧ (1 ≤ days ≤ 24 → timer_delay (days * 24 * 60 * 60 * 1000) = days * 24 * 60 * 60 * 1000)
  ∧ (597 ≤ hours → timer_delay (hours * 60 * 60 * 1000) = 1)
  ∧ (25 ≤ days → timer_delay (days * 24 * 60 * 60 * 1000) = 1).
Proof.
  assert (∀ ms, 1 ≤ ms ≤ TIMEOUT_MAX → timer_delay ms = ms) as Hfits.
  { intros ms [Hlow Hhigh]. unfold timer_delay.
    by rewrite (proj2 (Z.leb_le 1 ms) Hlow), (proj2 (Z.leb_le ms TIMEOUT_MAX) Hhigh). }
  destruct w as [[run ivs reg att] [tty n act pend] tr]. cbn in Hembedded. subst tty.
  unfold exec, scheduleStrategicAnalysis, scheduleArchiving, scheduleRiskDetection,
    scheduleOpportunityScans, scheduleIdentityReflection, setInterval, setTimeout,
    intervals_set.
  unfold_body.
  repeat match goal with |- _ ∧ _ => split end;
    try (cbn; by rewrite ?fmap_app);
    intros Hrange;
    first [apply Hfits; unfold TIMEOUT_MAX; lia
          |apply timer_delay_overflow; unfold TIMEOUT_MAX; lia].
Qed.

Lemma schedulers_in_embedded_mode_witness :
  scheduleStrategicAnalysis 24 (new_SystemClock false)
  = (Returned tt,
     add_trace [Log LvlInfo "Strategic analysis scheduled for MCP mode (event-driven only)"]
       (new_SystemClock false))
  ∧ scheduleArchiving 30 (new_SystemClock false)
    = (Returned tt,
       add_trace [Log LvlInfo "Data archiving scheduled for MCP mode (event-driven only)"]
         (new_SystemClock false))
  ∧ (timer_task <$> active_intervals (host (exec (scheduleRiskDetection 24)
                                              (new_SystemClock false)))
     = (timer_task <$> active_intervals (host (new_SystemClock false)))
       ++ [([risk_detection], 86400000)]
     ∧ timer_task <$> pending_timeouts (host (exec (scheduleRiskDetection 24)
                                                (new_SystemClock false)))
       = (timer_task <$> pending_timeouts (host (new_SystemClock false)))
         ++ [([risk_detection], 60000)])
  ∧ (timer_task <$> active_intervals (host (exec (scheduleOpportunityScans 24)
                                              (new_SystemClock false)))
     = (timer_task <$> active_intervals (host (new_SystemClock false)))
       ++ [([opportunity_scanning], 86400000)]
     ∧ timer_task <$> pending_timeouts (host (exec (scheduleOpportunityScans 24)
                                                (new_SystemClock false)))
       = (timer_task <$> pending_timeouts (host (new_SystemClock false)))
         ++ [([opportunity_scanning], 90000)])
  ∧ (timer_task <$> active_intervals (host (exec (scheduleIdentityReflection 30)
                                              (new_SystemClock false)))
     = (timer_task <$> active_intervals (host (new_SystemClock false)))
       ++ [([identity_reflection], 1)]
     ∧ timer_task <$> pending_timeouts (host (exec (scheduleIdentityReflection 30)
                                                (new_SystemClock false)))
       = (timer_task <$> pending_timeouts (host (new_SystemClock false)))
         ++ [([identity_reflection], 120000)])
  ∧ (1 ≤ 24 ≤ 596 → timer_delay (24 * 60 * 60 * 1000) = 24 * 60 * 60 * 1000)
  ∧ (1 ≤ 30 ≤ 24 → timer_delay (30 * 24 * 60 * 60 * 1000) = 30 * 24 * 60 * 60 * 1000)
  ∧ (597 ≤ 24 → timer_delay (24 * 60 * 60 * 1000) = 1)
  ∧ (25 ≤ 30 → timer_delay (30 * 24 * 60 * 60 * 1000) = 1).
Proof.
  apply (schedulers_in_embedded_mode 24 30 (new_SystemClock false)). reflexivity.
Defined.

(** Stopping a clock and starting it again, in a terminal with background
    ticks enabled: the recurring timers of the first start are cancelled and
    five new ones are created, but the warm-up runs of the first start are
    still pending, so the four analysis jobs then have two warm-up runs
    each. *)
Theorem restart_duplicates_warm_ups (ops : list Op) (config config' : Config)
    (now now' now'' : Z)
    (Hstopped : isRunning (this (run ops (new_SystemClock true))) = false)
    (Hticks : cc_enableBackgroundTicks (merge_config defaultConfig config) = true)
    (Hticks' : cc_enableBackgroundTicks (merge_config defaultConfig config') = true) :
  let w := run ops (new_SystemClock true) in
  let w' := run [op_start config now; op_stop now'; op_start config' now''] w in
  timer_jobs <$> active_intervals (host w') = (λ k, [k]) <$> all_jobs
  ∧ timer_task <$> drop (length (pending_timeouts (host w))) (pending_timeouts (host w'))
    = [ ([strategic_analysis], 30000); ([risk_detection], 60000);
        ([opportunity_scanning], 90000); ([identity_reflection], 120000);
        ([strategic_analysis], 30000); ([risk_detection], 60000);
        ([opportunity_scanning], 90000); ([identity_reflection], 120000) ].
Proof.
  intros w w'.
  destruct (run_in_mode true ops) as [Hw [Hmode _]].
  fold w in Hw, Hmode, Hstopped.
  pose proof Hw as (Htracks & _ & Hnone). specialize (Hnone Hstopped).
  assert (active_intervals (host w) = []) as Hact.
  { rewrite Hnone in Htracks. by inversion Htracks. }
  destruct (start_in_terminal config now w Hstopped Hnone Hact Hmode Hticks)
    as (Hrun1 & _ & _ & Hpending1 & _).
  set (w1 := exec (start config now) w) in *.
  assert (consistent w1) as Hw1 by (by apply start_consistent).
  set (w2 := exec (stop now') w1).
  assert (consistent w2) as Hw2 by (by apply stop_consistent).
  assert (isRunning (this w2) = false) as Hrun2.
  { unfold w2, exec. by rewrite stop_running. }
  assert (active_intervals (host w2) = []) as Hact2 by (by apply stop_clears_timers).
  assert (intervals (this w2) = []) as Hint2 by (by apply Hw2).
  assert (stdin_isTTY (host w2) = true) as Hmode2.
  { unfold w2. rewrite stop_mode. unfold w1. by rewrite start_mode. }
  destruct (start_in_terminal config' now'' w2 Hrun2 Hint2 Hact2 Hmode2 Hticks')
    as (_ & _ & Htimers3 & Hpending3 & _).
  change w' with (exec (start config' now'') w2).
  assert (pending_timeouts (host w2)
          = pending_timeouts (host w) ++ warm_up_runs (next_timer (host w))) as Hpending2.
  { unfold w2. by rewrite stop_pending. }
  rewrite Htimers3, Hpending3, Hpending2, <-app_assoc, drop_app_length.
  by rewrite fmap_app.
Qed.

Lemma restart_duplicates_warm_ups_witness :
  timer_jobs <$> active_intervals
                   (host (run [op_start no_config 10; op_stop 20; op_start no_config 30]
                            (run [] (new_SystemClock true))))
  = (λ k, [k]) <$> all_jobs
  ∧ timer_task <$> drop (length (pending_timeouts (host (run [] (new_SystemClock true)))))
                     (pending_timeouts
                        (host (run [op_start no_config 10; op_stop 20; op_start no_config 30]
                                 (run [] (new_SystemClock true)))))
    = [ ([strategic_analysis], 30000); ([risk_detection], 60000);
        ([opportunity_scanning], 90000); ([identity_reflection], 120000);
        ([strategic_analysis], 30000); ([risk_detection], 60000);
        ([opportunity_scanning], 90000); ([identity_reflection], 120000) ].
Proof.
  apply (restart_duplicates_warm_ups [] no_config no_config 10 20 30); reflexivity.
Defined.
